(** * Meeting-intelligence pipeline: transcription, extraction, newsletter

    A shallow embedding of the Python sources

      - [app/services/transcription.py]  (TranscriptionService,
        MeetingAnalysisService, MeetingProcessor),
      - [analyze_transcript_fixed.py]    (the stand-alone prompt builder),
      - [generate_newsletter.py]         (section generation and saving),

    together with the properties the specification states about them.

    Conventions of the embedding.

      - A Python [str] is a Rocq [string]; one [ascii] stands for one
        character.  The only literal of the sources outside that range, the
        bullet of the executive-summary prompt, is the constant [bullet].
      - A Python value is a [pyval]; a [dict] with string keys is a
        [gmap string pyval], so the insertion order of keys is abstracted.
      - Code that talks to the outside (file system, environment, clock, the
        speech-to-text and chat endpoints) runs in the monad [Py]: a function
        of the [World] that returns either the raised exception or the value,
        and the world after the call.  Every endpoint request is appended to a
        log of the world, which is how "no request was issued" is stated.
      - [async]/[await] is sequential here: one request is in flight at a time.
      - Console output ([print]) is not part of the model.
      - Functions of the Python standard library whose code is not in the
        repository ([json.loads], [json.dumps], [repr], [pathlib]'s path
        normalisation) are fields of the class [PyRuntime]. *)

From Stdlib Require Import ZArith String Ascii List Floats.
From stdpp Require Import gmap strings list fin_maps pretty.

Set Warnings "-inexact-float,-register-all,-abstract-large-number".

(** ** Python values *)

Inductive pyval : Type :=
| PNone
| PBool (b : bool)
| PInt (z : Z)
| PFloat (f : float)
| PStr (s : string)
| PList (l : list pyval)
| PDict (d : gmap string pyval).

Abbreviation dict := (gmap string pyval).

Inductive exn_class : Type :=
| FileNotFoundError
| KeyError
| TypeError
| AttributeError
| IndexError
| JSONDecodeError
| ValueError
| RecursionError
| OverflowError
| OtherError.

(** An exception object: its class and [str(e)]. *)
Record exn : Type := Exn { exn_cls : exn_class; exn_str : string }.

#[global] Instance exn_class_eq_dec : EqDecision exn_class.
Proof. solve_decision. Defined.

(** ** Characters and small string helpers *)

Definition nl : string := String (ascii_of_nat 10) EmptyString.
Definition dq : string := String (ascii_of_nat 34) EmptyString.
Definition sq : string := String (ascii_of_nat 39) EmptyString.

(** U+2022, written by its UTF-8 bytes. *)
Definition bullet : string :=
  String (ascii_of_nat 226) (String (ascii_of_nat 128) (String (ascii_of_nat 162) EmptyString)).

(** A word between double quotes. *)
Definition q (s : string) : string := dq +:+ s +:+ dq.

Fixpoint str_repeat (c : string) (n : nat) : string :=
  match n with
  | O => EmptyString
  | S n' => c +:+ str_repeat c n'
  end.

(** [str(z).zfill(w)] for a non-negative [z]. *)
Definition pad0 (w : nat) (z : Z) : string :=
  let s := pretty z in str_repeat "0" (w - String.length s) +:+ s.

Definition lower_ascii (a : ascii) : ascii :=
  let n := nat_of_ascii a in
  if ((65 <=? n) && (n <=? 90)) || ((192 <=? n) && (n <=? 222) && negb (n =? 215))
  then ascii_of_nat (n + 32) else a.

(** [str.lower] on the characters the model has. *)
Fixpoint str_lower (s : string) : string :=
  match s with
  | EmptyString => EmptyString
  | String a s' => String (lower_ascii a) (str_lower s')
  end.

(** [needle in haystack] for strings. *)
Fixpoint str_contains (needle haystack : string) : bool :=
  if String.prefix needle haystack then true
  else match haystack with
       | EmptyString => false
       | String _ rest => str_contains needle rest
       end.

(** ** The Python runtime taken as given *)

Class PyRuntime : Type := {
  (** [json.loads] on a [str]: the value, or the exception it raises.  A
      malformed text raises [JSONDecodeError]; the function also raises
      other exceptions, a [ValueError] on an integer literal with more
      digits than the interpreter converts and a [RecursionError] on deep
      nesting. *)
  json_loads : string -> exn + pyval;
  (** [json.dumps(v, indent=2)]. *)
  json_dumps : pyval -> string;
  (** [str(v)] for floats, lists and dicts. *)
  py_repr : pyval -> string;
  (** [str(Path(p))]. *)
  pathlib_str : string -> string;
  (** [v * c] for [v] that is neither [None] nor a float. *)
  py_mul_float : pyval -> float -> exn + pyval
}.

(** ** Dynamic operations on values *)

(** [type(v).__name__]. *)
Definition type_name (v : pyval) : string :=
  match v with
  | PNone => "NoneType"
  | PBool _ => "bool"
  | PInt _ => "int"
  | PFloat _ => "float"
  | PStr _ => "str"
  | PList _ => "list"
  | PDict _ => "dict"
  end.

(** Truth value of an object ([bool(v)]). *)
Definition py_truthy (v : pyval) : bool :=
  match v with
  | PNone => false
  | PBool b => b
  | PInt z => negb (z =? 0)%Z
  | PFloat f => negb (PrimFloat.eqb f 0%float)
  | PStr s => negb (String.eqb s EmptyString)
  | PList l => match l with [] => false | _ => true end
  | PDict d => negb (bool_decide (d = ∅))
  end.

(** [str(v)], as used by f-string placeholders. *)
Definition py_str `{PyRuntime} (v : pyval) : string :=
  match v with
  | PNone => "None"
  | PBool true => "True"
  | PBool false => "False"
  | PInt z => pretty z
  | PStr s => s
  | _ => py_repr v
  end.

(** [d.get(k, dflt)]. *)
Definition dict_get (d : dict) (k : string) (dflt : pyval) : pyval :=
  default dflt (d !! k).

(** [v[:n]]. *)
Definition py_slice_to (n : nat) (v : pyval) : exn + pyval :=
  match v with
  | PStr s => inr (PStr (substring 0 n s))
  | PList l => inr (PList (take n l))
  | PNone => inl (Exn TypeError "'NoneType' object is not subscriptable")
  | PBool _ => inl (Exn TypeError "'bool' object is not subscriptable")
  | PInt _ => inl (Exn TypeError "'int' object is not subscriptable")
  | PFloat _ => inl (Exn TypeError "'float' object is not subscriptable")
  | PDict _ => inl (Exn TypeError "unhashable type: 'slice'")
  end.

(** [len(v)]. *)
Definition py_len (v : pyval) : exn + Z :=
  match v with
  | PStr s => inr (Z.of_nat (String.length s))
  | PList l => inr (Z.of_nat (length l))
  | PDict d => inr (Z.of_nat (size d))
  | PNone => inl (Exn TypeError "object of type 'NoneType' has no len()")
  | PBool _ => inl (Exn TypeError "object of type 'bool' has no len()")
  | PInt _ => inl (Exn TypeError "object of type 'int' has no len()")
  | PFloat _ => inl (Exn TypeError "object of type 'float' has no len()")
  end.

(** The elements a [for] loop over [v] visits. *)
Definition py_iter (v : pyval) : exn + list pyval :=
  match v with
  | PList l => inr l
  | PStr s => inr ((fun a => PStr (String a EmptyString)) <$> list_ascii_of_string s)
  | PDict d => inr (PStr <$> (map_to_list d).*1)
  | PNone => inl (Exn TypeError "'NoneType' object is not iterable")
  | PBool _ => inl (Exn TypeError "'bool' object is not iterable")
  | PInt _ => inl (Exn TypeError "'int' object is not iterable")
  | PFloat _ => inl (Exn TypeError "'float' object is not iterable")
  end.

(** ** Time *)

Record DateTime : Type := {
  year : Z; month : Z; day : Z;
  hour : Z; minute : Z; second : Z; microsecond : Z
}.

(** [dt.isoformat()]. *)
Definition isoformat (dt : DateTime) : string :=
  pad0 4 (year dt) +:+ "-" +:+ pad0 2 (month dt) +:+ "-" +:+ pad0 2 (day dt) +:+ "T" +:+
  pad0 2 (hour dt) +:+ ":" +:+ pad0 2 (minute dt) +:+ ":" +:+ pad0 2 (second dt) +:+
  (if (microsecond dt =? 0)%Z then EmptyString else "." +:+ pad0 6 (microsecond dt)).

(** [dt.strftime('%Y%m%d_%H%M%S')]. *)
Definition strftime_compact (dt : DateTime) : string :=
  pad0 4 (year dt) +:+ pad0 2 (month dt) +:+ pad0 2 (day dt) +:+ "_" +:+
  pad0 2 (hour dt) +:+ pad0 2 (minute dt) +:+ pad0 2 (second dt).

Definition month_name (m : Z) : string :=
  nth (Z.to_nat (m - 1))
    ["January"; "February"; "March"; "April"; "May"; "June"; "July";
     "August"; "September"; "October"; "November"; "December"] EmptyString.

(** [dt.strftime('%B %d, %Y at %I:%M %p')]. *)
Definition strftime_long (dt : DateTime) : string :=
  let h12 := (if (hour dt mod 12 =? 0) then 12 else hour dt mod 12)%Z in
  month_name (month dt) +:+ " " +:+ pad0 2 (day dt) +:+ ", " +:+ pad0 4 (year dt) +:+
  " at " +:+ pad0 2 h12 +:+ ":" +:+ pad0 2 (minute dt) +:+ " " +:+
  (if (hour dt <? 12)%Z then "AM" else "PM").

(** ** Requests and responses of the two endpoints *)

(** [client.audio.transcriptions.create(model, file, response_format, prompt)]. *)
Record SttRequest : Type := {
  stt_model : string;
  stt_file : string;
  stt_response_format : string;
  stt_prompt : string
}.

(** The verbose transcription object: [text] and the optional attributes the
    code reads with [getattr]. *)
Record Transcription : Type := {
  t_text : string;
  t_duration : option float;
  t_language : option string;
  t_segments : option (list pyval)
}.

(** [client.chat.completions.create(model, messages, temperature)]; a
    message is the pair of its role and content. *)
Record ChatRequest : Type := {
  chat_model : string;
  chat_messages : list (string * string);
  chat_temperature : float
}.

(** A chat completion: [message.content] of each choice, and
    [usage.total_tokens] when the response has a [usage]. *)
Record ChatCompletion : Type := {
  choices : list (option string);
  usage_total_tokens : option Z
}.

(** ** The world *)

Record World : Type := {
  (** [os.getenv("OPENAI_API_KEY")] *)
  env_OPENAI_API_KEY : option string;
  (** [Path.exists] *)
  fs_exists : string -> bool;
  (** [Path.stat().st_size] *)
  fs_st_size : string -> exn + Z;
  (** [open(path, mode)]: the exception it raises, if any *)
  fs_open : string -> string -> option exn;
  (** the text [f.read()] returns *)
  fs_content : string -> string;
  (** answer of the speech-to-text endpoint to its n-th request *)
  stt_endpoint : nat -> SttRequest -> exn + Transcription;
  (** answer of the chat endpoint to its n-th request *)
  chat_endpoint : nat -> ChatRequest -> exn + ChatCompletion;
  (** value of the n-th [datetime.now()] *)
  clock : nat -> DateTime;
  (** what the program has done so far *)
  stt_calls : list SttRequest;
  chat_calls : list ChatRequest;
  clock_reads : nat;
  fs_written : list (string * string)
}.

Definition set_stt_calls (w : World) (l : list SttRequest) : World :=
  {| env_OPENAI_API_KEY := env_OPENAI_API_KEY w; fs_exists := fs_exists w;
     fs_st_size := fs_st_size w; fs_open := fs_open w; fs_content := fs_content w;
     stt_endpoint := stt_endpoint w; chat_endpoint := chat_endpoint w; clock := clock w;
     stt_calls := l; chat_calls := chat_calls w; clock_reads := clock_reads w;
     fs_written := fs_written w |}.

Definition set_chat_calls (w : World) (l : list ChatRequest) : World :=
  {| env_OPENAI_API_KEY := env_OPENAI_API_KEY w; fs_exists := fs_exists w;
     fs_st_size := fs_st_size w; fs_open := fs_open w; fs_content := fs_content w;
     stt_endpoint := stt_endpoint w; chat_endpoint := chat_endpoint w; clock := clock w;
     stt_calls := stt_calls w; chat_calls := l; clock_reads := clock_reads w;
     fs_written := fs_written w |}.

Definition set_clock_reads (w : World) (n : nat) : World :=
  {| env_OPENAI_API_KEY := env_OPENAI_API_KEY w; fs_exists := fs_exists w;
     fs_st_size := fs_st_size w; fs_open := fs_open w; fs_content := fs_content w;
     stt_endpoint := stt_endpoint w; chat_endpoint := chat_endpoint w; clock := clock w;
     stt_calls := stt_calls w; chat_calls := chat_calls w; clock_reads := n;
     fs_written := fs_written w |}.

Definition set_fs_written (w : World) (l : list (string * string)) : World :=
  {| env_OPENAI_API_KEY := env_OPENAI_API_KEY w; fs_exists := fs_exists w;
     fs_st_size := fs_st_size w; fs_open := fs_open w; fs_content := fs_content w;
     stt_endpoint := stt_endpoint w; chat_endpoint := chat_endpoint w; clock := clock w;
     stt_calls := stt_calls w; chat_calls := chat_calls w; clock_reads := clock_reads w;
     fs_written := l |}.

(** ** The monad of effectful code *)

Definition Py (A : Type) : Type := World -> (exn + A) * World.

#[global] Instance Py_ret : MRet Py := fun A (a : A) w => (inr a, w).

#[global] Instance Py_bind : MBind Py := fun A B (f : A -> Py B) (m : Py A) w =>
  match m w with
  | (inl e, w') => (inl e, w')
  | (inr a, w') => f a w'
  end.

Definition raise {A : Type} (e : exn) : Py A := fun w => (inl e, w).

(** A pure computation that may raise. *)
Definition lift {A : Type} (r : exn + A) : Py A := fun w => (r, w).

(** [try: body  except Exception as e: handler e].  What [body] did to the
    world before raising stays done. *)
Definition try_except {A : Type} (body : Py A) (handler : exn -> Py A) : Py A := fun w =>
  match body w with
  | (inl e, w') => handler e w'
  | r => r
  end.

(** [try: body  except cls as e: handler e]. *)
Definition try_except_cls {A : Type} (cls : exn_class) (body : Py A) (handler : exn -> Py A)
  : Py A := fun w =>
  match body w with
  | (inl e, w') => if decide (exn_cls e = cls) then handler e w' else (inl e, w')
  | r => r
  end.

(** [d[k]]. *)
Definition getitem (d : dict) (k : string) : Py pyval :=
  match d !! k with
  | Some v => mret v
  | None => raise (Exn KeyError (sq +:+ k +:+ sq))
  end.

Definition Path_exists (p : string) : Py bool := fun w => (inr (fs_exists w p), w).

Definition Path_stat_st_size (p : string) : Py Z := fun w => (fs_st_size w p, w).

(** Entering [with open(p, mode) as f]. *)
Definition open_ (p mode : string) : Py unit := fun w =>
  match fs_open w p mode with
  | Some e => (inl e, w)
  | None => (inr tt, w)
  end.

Definition file_read (p : string) : Py string := fun w => (inr (fs_content w p), w).

(** Leaving a [with open(p, 'w')] block in which [content] was written. *)
Definition file_store (p content : string) : Py unit := fun w =>
  (inr tt, set_fs_written w (fs_written w ++ [(p, content)])).

Definition os_getenv_OPENAI_API_KEY : Py (option string) := fun w =>
  (inr (env_OPENAI_API_KEY w), w).

Definition datetime_now : Py DateTime := fun w =>
  (inr (clock w (clock_reads w)), set_clock_reads w (S (clock_reads w))).

Definition audio_transcriptions_create (req : SttRequest) : Py Transcription := fun w =>
  (stt_endpoint w (length (stt_calls w)) req, set_stt_calls w (stt_calls w ++ [req])).

Definition chat_completions_create (req : ChatRequest) : Py ChatCompletion := fun w =>
  (chat_endpoint w (length (chat_calls w)) req, set_chat_calls w (chat_calls w ++ [req])).

(** [response.choices[0].message.content]. *)
Definition first_choice_content (response : ChatCompletion) : Py pyval :=
  match choices response with
  | [] => raise (Exn IndexError "list index out of range")
  | Some s :: _ => mret (PStr s)
  | None :: _ => mret PNone
  end.

Definition opt_val {A : Type} (f : A -> pyval) (o : option A) : pyval :=
  match o with
  | Some a => f a
  | None => PNone
  end.

(** * app/services/transcription.py *)

Module TranscriptionService.

(** [self.max_file_size], set in [__init__]. *)
Definition max_file_size : Z := 25 * 1024 * 1024.

(** [float(n)] for an integer [n] that is not negative: the binary64 number
    nearest to [n], a tie going to the even significand, given as the
    integer it denotes.  An integer below 2^53 is a float itself; above, the
    significand keeps the 53 leading bits. *)
Definition round_binary64 (n : Z) : Z :=
  if (n <? 2 ^ 53)%Z then n
  else
    let k := (Z.log2 n - 52)%Z in
    let q := (n / 2 ^ k)%Z in
    let r := (n mod 2 ^ k)%Z in
    let half := (2 ^ (k - 1))%Z in
    ((if (r <? half)%Z then q
      else if (half <? r)%Z then q + 1
      else if Z.even q then q else q + 1) * 2 ^ k)%Z.

(** [size / 1024 / 1024] on an integer [size].  The true division of
    integers is correctly rounded and a division by a power of two is exact,
    so the result is the float [round_binary64 size / 2^20]; it is returned
    as its numerator.  The first division raises when its quotient,
    [round_binary64 size / 2^10], is not below 2^1024. *)
Definition size_in_mb (size : Z) : exn + Z :=
  let m := round_binary64 size in
  if (2 ^ 1034 <=? m)%Z
  then inl (Exn OverflowError "integer division result too large for a float")
  else inr m.

(** [f"{x:.1f}"] for the float [x = m / 2^20]: the decimal with one digit
    after the point nearest to [x], a tie going to the even digit. *)
Definition fixed_1f (m : Z) : string :=
  let n := (m * 10)%Z in
  let whole := (n / 1048576)%Z in
  let rest := (n mod 1048576)%Z in
  let tenths :=
    if (2 * rest <? 1048576)%Z then whole
    else if (1048576 <? 2 * rest)%Z then (whole + 1)%Z
    else if Z.even whole then whole else (whole + 1)%Z in
  pretty (tenths / 10)%Z +:+ "." +:+ pretty (tenths mod 10)%Z.

(** [f"{size / 1024 / 1024:.1f}"]. *)
Definition format_mb_1f (size : Z) : exn + string :=
  match size_in_mb size with
  | inl e => inl e
  | inr m => inr (fixed_1f m)
  end.

Definition large_file_suggestion : string :=
  "Please use audio optimization tools to reduce file size or implement file chunking.".

Definition _handle_large_file (file_path : string) (meeting_info : dict) : Py dict :=
  size ← Path_stat_st_size file_path;
  mb ← lift (format_mb_1f size);
  mret {[ "success" := PBool false;
          "error" := PStr ("File too large (" +:+ mb +:+ "MB). Maximum size is 25MB.");
          "transcript" := PNone;
          "suggestion" := PStr large_file_suggestion ]}.

Definition whisper_request (file_path : string) : SttRequest :=
  {| stt_model := "whisper-1";
     stt_file := file_path;
     stt_response_format := "verbose_json";
     stt_prompt := "This is a Triangle area planning commission meeting discussing development projects, zoning, and permits." |}.

Definition _transcribe_file (file_path : string) : Py dict :=
  try_except
    (open_ file_path "rb";;
     transcript ← audio_transcriptions_create (whisper_request file_path);
     mret {[ "success" := PBool true;
             "transcript" := PStr (t_text transcript);
             "duration" := opt_val PFloat (t_duration transcript);
             "language" := opt_val PStr (t_language transcript);
             "segments" := PList (default [] (t_segments transcript)) ]})
    (fun e =>
     mret {[ "success" := PBool false;
             "error" := PStr ("OpenAI Whisper error: " +:+ exn_str e);
             "transcript" := PNone ]}).

Definition _enhance_transcript `{PyRuntime} (raw_transcript : pyval) (meeting_info : dict)
  : Py dict :=
  try_except
    (sliced ← lift (py_slice_to 8000 raw_transcript);
     let enhancement_prompt :=
       String.concat nl [
           EmptyString;
           "            Clean up this Triangle planning meeting transcript and organize it for analysis.";
           "            ";
           "            Meeting Context:";
           "            - Jurisdiction: " +:+ py_str (dict_get meeting_info "jurisdiction" (PStr "Unknown"));
           "            - Date: " +:+ py_str (dict_get meeting_info "date" (PStr "Unknown"));
           "            - Meeting Type: " +:+ py_str (dict_get meeting_info "type" (PStr "Planning Commission"));
           "            ";
           "            Please:";
           "            1. Fix obvious transcription errors";
           "            2. Identify distinct speakers when possible (Chair, Commissioners, Staff, Public)";
           "            3. Break into logical sections (Agenda items, Project discussions, Public comments)";
           "            4. Preserve all project names, addresses, developer names, and vote outcomes";
           "            ";
           "            Return JSON format:";
           "            {";
           "                " +:+ q "text" +:+ ": " +:+ q "cleaned_full_transcript" +:+ ",";
           "                " +:+ q "sections" +:+ ": [";
           "                    {";
           "                        " +:+ q "title" +:+ ": " +:+ q "section_name" +:+ ",";
           "                        " +:+ q "content" +:+ ": " +:+ q "section_content" +:+ ",";
           "                        " +:+ q "speakers" +:+ ": [" +:+ q "list_of_speakers" +:+ "],";
           "                        " +:+ q "key_topics" +:+ ": [" +:+ q "project_names" +:+ ", " +:+ q "addresses" +:+ "]";
           "                    }";
           "                ]";
           "            }";
           "            ";
           "            Original Transcript:";
           "            " +:+ py_str sliced +:+ "  # Limit to avoid token limits";
           "            " ] in
     mret {[ "text" := raw_transcript; "sections" := PList [] ]})
    (fun e =>
     mret {[ "text" := raw_transcript;
             "sections" := PList [];
             "error" := PStr ("Enhancement failed: " +:+ exn_str e) ]}).

Definition _calculate_cost `{PyRuntime} (duration_minutes : pyval) : Py pyval :=
  match duration_minutes with
  | PNone => mret (PFloat 0.0)
  | PFloat d => mret (PFloat (d * 0.006))
  | v => lift (py_mul_float v 0.006%float)
  end.

Definition transcribe_meeting `{PyRuntime} (file_path : string) (meeting_info : dict)
  : Py dict :=
  try_except
    (let file_path := pathlib_str file_path in
     present ← Path_exists file_path;
     if negb present then
       mret {[ "success" := PBool false;
               "error" := PStr ("File not found: " +:+ file_path);
               "transcript" := PNone ]}
     else
       size ← Path_stat_st_size file_path;
       if (max_file_size <? size)%Z then _handle_large_file file_path meeting_info
       else
         transcript_result ← _transcribe_file file_path;
         ok ← getitem transcript_result "success";
         if negb (py_truthy ok) then mret transcript_result
         else
           raw ← getitem transcript_result "transcript";
           enhanced_result ← _enhance_transcript raw meeting_info;
           text ← getitem enhanced_result "text";
           cost ← _calculate_cost (dict_get transcript_result "duration" (PInt 0));
           now ← datetime_now;
           mret {[ "success" := PBool true;
                   "transcript" := text;
                   "meeting_info" := PDict meeting_info;
                   "duration" := dict_get transcript_result "duration" PNone;
                   "language" := dict_get transcript_result "language" PNone;
                   "segments" := dict_get transcript_result "segments" (PList []);
                   "cost_estimate" := cost;
                   "processed_at" := PStr (isoformat now);
                   "enhanced_sections" := dict_get enhanced_result "sections" (PList []) ]})
    (fun e =>
     mret {[ "success" := PBool false;
             "error" := PStr ("Transcription failed: " +:+ exn_str e);
             "transcript" := PNone ]}).

End TranscriptionService.

Module MeetingAnalysisService.

(** The lines of the prompt above the transcript. *)
Definition analysis_prompt_head `{PyRuntime} (meeting_info : dict) : list string :=
  [ EmptyString;
    "        Analyze this " +:+ py_str (dict_get meeting_info "jurisdiction" (PStr "Triangle")) +:+ " planning meeting transcript and extract development intelligence for a professional newsletter.";
    "        ";
    "        Meeting Details:";
    "        - Jurisdiction: " +:+ py_str (dict_get meeting_info "jurisdiction" (PStr "Unknown"));
    "        - Date: " +:+ py_str (dict_get meeting_info "date" (PStr "Unknown"));
    "        - Type: " +:+ py_str (dict_get meeting_info "type" (PStr "Planning Commission"));
    "        ";
    "        Extract and return JSON with these sections:";
    "        ";
    "        {";
    "            " +:+ q "projects" +:+ ": [";
    "                {";
    "                    " +:+ q "name" +:+ ": " +:+ q "project_name" +:+ ",";
    "                    " +:+ q "address" +:+ ": " +:+ q "street_address" +:+ ",";
    "                    " +:+ q "developer" +:+ ": " +:+ q "developer_company" +:+ ",";
    "                    " +:+ q "applicant" +:+ ": " +:+ q "applicant_name" +:+ ",";
    "                    " +:+ q "project_type" +:+ ": " +:+ q "residential/commercial/mixed-use/etc" +:+ ",";
    "                    " +:+ q "current_status" +:+ ": " +:+ q "application/review/approval/denial/deferred" +:+ ",";
    "                    " +:+ q "vote_outcome" +:+ ": " +:+ q "approved/denied/deferred/no_vote" +:+ ",";
    "                    " +:+ q "vote_details" +:+ ": " +:+ q "vote_count_if_available" +:+ ",";
    "                    " +:+ q "key_concerns" +:+ ": [" +:+ q "list" +:+ ", " +:+ q "of" +:+ ", " +:+ q "concerns" +:+ "],";
    "                    " +:+ q "conditions" +:+ ": [" +:+ q "approval" +:+ ", " +:+ q "conditions" +:+ "],";
    "                    " +:+ q "timeline" +:+ ": " +:+ q "next_steps_or_deadlines" +:+ ",";
    "                    " +:+ q "opposition" +:+ ": " +:+ q "summary_of_public_opposition" +:+ ",";
    "                    " +:+ q "staff_recommendation" +:+ ": " +:+ q "staff_position";
    "                }";
    "            ],";
    "            " +:+ q "regulatory_changes" +:+ ": [";
    "                {";
    "                    " +:+ q "topic" +:+ ": " +:+ q "ordinance/fee/policy_change" +:+ ",";
    "                    " +:+ q "description" +:+ ": " +:+ q "what_changed" +:+ ",";
    "                    " +:+ q "impact" +:+ ": " +:+ q "effect_on_development" +:+ ",";
    "                    " +:+ q "effective_date" +:+ ": " +:+ q "when_it_takes_effect";
    "                }";
    "            ],";
    "            " +:+ q "market_intelligence" +:+ ": [";
    "                {";
    "                    " +:+ q "trend" +:+ ": " +:+ q "observed_pattern" +:+ ",";
    "                    " +:+ q "description" +:+ ": " +:+ q "trend_details" +:+ ",";
    "                    " +:+ q "implications" +:+ ": " +:+ q "what_it_means_for_developers";
    "                }";
    "            ],";
    "            " +:+ q "key_people" +:+ ": [";
    "                {";
    "                    " +:+ q "name" +:+ ": " +:+ q "person_name" +:+ ",";
    "                    " +:+ q "role" +:+ ": " +:+ q "commissioner/staff/developer" +:+ ",";
    "                    " +:+ q "notable_positions" +:+ ": " +:+ q "key_statements_or_positions";
    "                }";
    "            ],";
    "            " +:+ q "newsletter_highlights" +:+ ": [";
    "                " +:+ q "Most important takeaway 1" +:+ ",";
    "                " +:+ q "Most important takeaway 2" +:+ ",";
    "                " +:+ q "Most important takeaway 3";
    "            ]";
    "        }";
    "        ";
    "        Focus on actionable intelligence that Triangle development professionals need to know.";
    "        ";
    "        Transcript:" ].

Definition _build_analysis_prompt `{PyRuntime} (transcript : pyval) (meeting_info : dict)
  : Py string :=
  sliced ← lift (py_slice_to 12000 transcript);
  mret (String.concat nl
          (analysis_prompt_head meeting_info ++
           [ "        " +:+ py_str sliced +:+ "  # Limit transcript to avoid token limits";
             "        " ])).

Definition system_message : string :=
  "You are an expert Triangle area development analyst who extracts key information from planning meetings.".

Definition analysis_request (analysis_prompt : string) : ChatRequest :=
  {| chat_model := "gpt-4";
     chat_messages := [("system", system_message); ("user", analysis_prompt)];
     chat_temperature := 0.1 |}.

(** [json.loads(analysis_text)]; anything but a [str] is a [TypeError]. *)
Definition parse_json `{PyRuntime} (analysis_text : pyval) : Py pyval :=
  match analysis_text with
  | PStr s =>
      match json_loads s with
      | inr v => mret v
      | inl e => raise e
      end
  | _ =>
      raise (Exn TypeError ("the JSON object must be str, bytes or bytearray, not " +:+
                            type_name analysis_text))
  end.

Definition analyze_transcript `{PyRuntime} (transcript : pyval) (meeting_info : dict)
  : Py dict :=
  try_except
    (analysis_prompt ← _build_analysis_prompt transcript meeting_info;
     response ← chat_completions_create (analysis_request analysis_prompt);
     analysis_text ← first_choice_content response;
     analysis_data ← try_except_cls JSONDecodeError
                       (parse_json analysis_text)
                       (fun _ => mret (PDict {[ "raw_analysis" := analysis_text ]}));
     now ← datetime_now;
     mret {[ "success" := PBool true;
             "analysis" := analysis_data;
             "meeting_info" := PDict meeting_info;
             "analyzed_at" := PStr (isoformat now);
             "token_usage" := opt_val PInt (usage_total_tokens response) ]})
    (fun e =>
     mret {[ "success" := PBool false;
             "error" := PStr ("Analysis failed: " +:+ exn_str e);
             "analysis" := PNone ]}).

End MeetingAnalysisService.

Module MeetingProcessor.

Definition process_meeting_file `{PyRuntime} (file_path : string) (meeting_info : dict)
  : Py dict :=
  transcript_result ← TranscriptionService.transcribe_meeting file_path meeting_info;
  t_ok ← getitem transcript_result "success";
  if negb (py_truthy t_ok) then mret transcript_result
  else
    transcript ← getitem transcript_result "transcript";
    analysis_result ← MeetingAnalysisService.analyze_transcript transcript meeting_info;
    a_ok ← getitem analysis_result "success";
    transcript_length ← (if py_truthy transcript then lift (py_len transcript) else mret 0%Z);
    now ← datetime_now;
    mret {[ "success" := a_ok;
            "transcript" := transcript;
            "analysis" := dict_get analysis_result "analysis" PNone;
            "meeting_info" := PDict meeting_info;
            "processing_summary" := PDict
              {[ "transcription_cost" := dict_get transcript_result "cost_estimate" (PInt 0);
                 "transcript_length" := PInt transcript_length;
                 "analysis_tokens" := dict_get analysis_result "token_usage" PNone;
                 "processed_at" := PStr (isoformat now) ]};
            "errors" := PDict
              {[ "transcription_error" :=
                   (if py_truthy t_ok then PNone else dict_get transcript_result "error" PNone);
                 "analysis_error" :=
                   (if py_truthy a_ok then PNone else dict_get analysis_result "error" PNone) ]} ]}.

End MeetingProcessor.

(** * analyze_transcript_fixed.py *)

Module analyze_transcript_fixed.

(** The lines of the prompt above the transcript. *)
Definition analysis_prompt_head `{PyRuntime} (meeting_info : dict) : list string :=
  [ EmptyString;
    "Analyze this " +:+ py_str (dict_get meeting_info "jurisdiction" (PStr "Triangle")) +:+ " planning meeting transcript and extract development intelligence for the Triangle Development Digest newsletter.";
    EmptyString;
    "Meeting Details:";
    "- Jurisdiction: " +:+ py_str (dict_get meeting_info "jurisdiction" (PStr "Unknown"));
    "- Date: " +:+ py_str (dict_get meeting_info "date" (PStr "Unknown"));
    "- Type: " +:+ py_str (dict_get meeting_info "type" (PStr "Planning Commission"));
    EmptyString;
    "Extract and return JSON with these sections:";
    EmptyString;
    "{";
    "    " +:+ q "projects" +:+ ": [";
    "        {";
    "            " +:+ q "name" +:+ ": " +:+ q "project_name or case_number" +:+ ",";
    "            " +:+ q "address" +:+ ": " +:+ q "street_address or location" +:+ ", ";
    "            " +:+ q "case_number" +:+ ": " +:+ q "zoning_case_number if mentioned" +:+ ",";
    "            " +:+ q "developer" +:+ ": " +:+ q "developer_company" +:+ ",";
    "            " +:+ q "applicant" +:+ ": " +:+ q "applicant_name" +:+ ",";
    "            " +:+ q "project_type" +:+ ": " +:+ q "residential/commercial/mixed-use/rezoning/etc" +:+ ",";
    "            " +:+ q "current_status" +:+ ": " +:+ q "application/review/approval/denial/deferred" +:+ ",";
    "            " +:+ q "vote_outcome" +:+ ": " +:+ q "approved/denied/deferred/no_vote" +:+ ",";
    "            " +:+ q "vote_details" +:+ ": " +:+ q "vote_count_if_available (e.g. 9-0, 7-2)" +:+ ",";
    "            " +:+ q "key_concerns" +:+ ": [" +:+ q "list" +:+ ", " +:+ q "of" +:+ ", " +:+ q "concerns" +:+ ", " +:+ q "raised" +:+ "],";
    "            " +:+ q "conditions" +:+ ": [" +:+ q "approval" +:+ ", " +:+ q "conditions" +:+ ", " +:+ q "if any" +:+ "],";
    "            " +:+ q "timeline" +:+ ": " +:+ q "next_steps_or_deadlines" +:+ ",";
    "            " +:+ q "opposition" +:+ ": " +:+ q "summary_of_public_opposition" +:+ ",";
    "            " +:+ q "staff_recommendation" +:+ ": " +:+ q "staff_position" +:+ ",";
    "            " +:+ q "acreage" +:+ ": " +:+ q "land_size_if_mentioned" +:+ ",";
    "            " +:+ q "previous_action" +:+ ": " +:+ q "history_from_previous_meetings";
    "        }";
    "    ],";
    "    " +:+ q "key_people" +:+ ": [";
    "        {";
    "            " +:+ q "name" +:+ ": " +:+ q "person_name" +:+ ",";
    "            " +:+ q "role" +:+ ": " +:+ q "commissioner/staff/developer/citizen" +:+ ",";
    "            " +:+ q "notable_positions" +:+ ": " +:+ q "key_statements_or_positions";
    "        }";
    "    ],";
    "    " +:+ q "newsletter_highlights" +:+ ": [";
    "        " +:+ q "Most important takeaway for Triangle developers 1" +:+ ",";
    "        " +:+ q "Most important takeaway for Triangle developers 2" +:+ ", ";
    "        " +:+ q "Most important takeaway for Triangle developers 3";
    "    ]";
    "}";
    EmptyString;
    "Focus on actionable intelligence that Triangle development professionals need to know. Pay special attention to:";
    "- Specific project names, addresses, and case numbers";
    "- Vote outcomes and commissioner positions  ";
    "- Timeline and next steps";
    "- Staff recommendations and their success rate";
    EmptyString;
    "Transcript:" ].

Definition build_analysis_prompt `{PyRuntime} (transcript : pyval) (meeting_info : dict)
  : string :=
  String.concat nl (analysis_prompt_head meeting_info ++ [ py_str transcript; EmptyString ]).

End analyze_transcript_fixed.

(** * generate_newsletter.py *)

(** The receiver of [v.get(...)]: only a dict has the method. *)
Definition as_dict (v : pyval) : exn + dict :=
  match v with
  | PDict d => inr d
  | _ => inl (Exn AttributeError (sq +:+ type_name v +:+ "' object has no attribute 'get'"))
  end.

(** [v.lower()]. *)
Definition py_lower (v : pyval) : exn + string :=
  match v with
  | PStr s => inr (str_lower s)
  | _ => inl (Exn AttributeError (sq +:+ type_name v +:+ "' object has no attribute 'lower'"))
  end.

Module generate_newsletter.

(** The request every section generator sends: model gpt-4, a system
    message, the prompt, temperature 0.3. *)
Definition section_request (system prompt : string) : ChatRequest :=
  {| chat_model := "gpt-4";
     chat_messages := [("system", system); ("user", prompt)];
     chat_temperature := 0.3 |}.

(** The [try]/[except] that ends each of the five generators: the text of
    the first choice, or the error text for the section called [label]. *)
Definition request_section (system prompt label : string) : Py pyval :=
  try_except
    (response ← chat_completions_create (section_request system prompt);
     first_choice_content response)
    (fun e => mret (PStr ("Error generating " +:+ label +:+ " content: " +:+ exn_str e))).

Definition project_pipeline_system : string :=
  "You are a professional newsletter writer for Triangle development professionals.".

Definition project_pipeline_prompt `{PyRuntime} (projects : pyval) (mi : dict) : string :=
  String.concat nl [
    EmptyString;
    "Write a professional " +:+ q "Project Pipeline" +:+ " section for the Triangle Development Digest newsletter.";
    EmptyString;
    "Meeting: " +:+ py_str (dict_get mi "jurisdiction" PNone) +:+ " " +:+ py_str (dict_get mi "type" PNone) +:+ " - " +:+ py_str (dict_get mi "date" PNone);
    EmptyString;
    "Projects to cover:";
    json_dumps projects;
    EmptyString;
    "Style Guidelines:";
    "- Professional but accessible tone";
    "- Focus on actionable intelligence for developers";
    "- Include specific project details (addresses, developers, timelines)";
    "- Highlight vote outcomes and next steps";
    "- 150-250 words";
    "- Use bullet points for key details";
    EmptyString;
    "Format as a complete newsletter section with a compelling headline.";
    EmptyString ].

Definition generate_project_pipeline `{PyRuntime} (analysis meeting_info : pyval) : Py pyval :=
  an ← lift (as_dict analysis);
  let projects := dict_get an "projects" (PList []) in
  mi ← lift (as_dict meeting_info);
  let prompt := project_pipeline_prompt projects mi in
  request_section project_pipeline_system prompt "project pipeline".

Definition market_intelligence_system : string :=
  "You are a market analyst specializing in Triangle area development trends.".

Definition market_intelligence_prompt `{PyRuntime} (analysis : pyval) (mi : dict) : string :=
  String.concat nl [
    EmptyString;
    "Write a " +:+ q "Market Intelligence" +:+ " section for the Triangle Development Digest newsletter.";
    EmptyString;
    "Meeting: " +:+ py_str (dict_get mi "jurisdiction" PNone) +:+ " " +:+ py_str (dict_get mi "type" PNone) +:+ " - " +:+ py_str (dict_get mi "date" PNone);
    EmptyString;
    "Analysis Data:";
    json_dumps analysis;
    EmptyString;
    "Focus on:";
    "- Development trends observed in this meeting";
    "- Commissioner attitudes toward development";
    "- Opposition patterns and community concerns";
    "- Process insights that affect project timelines";
    "- Strategic implications for developers";
    EmptyString;
    "Style: Insightful analysis that helps developers understand the political and market landscape.";
    "Length: 150-200 words";
    "Include a compelling headline.";
    EmptyString ].

Definition generate_market_intelligence `{PyRuntime} (analysis meeting_info : pyval)
  : Py pyval :=
  mi ← lift (as_dict meeting_info);
  let prompt := market_intelligence_prompt analysis mi in
  request_section market_intelligence_system prompt "market intelligence".

Definition regulatory_watch_system : string :=
  "You are a regulatory affairs expert focused on Triangle development processes.".

Definition regulatory_watch_prompt `{PyRuntime} (analysis : pyval) (mi : dict) : string :=
  String.concat nl [
    EmptyString;
    "Write a " +:+ q "Regulatory Watch" +:+ " section for the Triangle Development Digest newsletter.";
    EmptyString;
    "Meeting: " +:+ py_str (dict_get mi "jurisdiction" PNone) +:+ " " +:+ py_str (dict_get mi "type" PNone) +:+ " - " +:+ py_str (dict_get mi "date" PNone);
    EmptyString;
    "Analysis Data:";
    json_dumps analysis;
    EmptyString;
    "Focus on:";
    "- Process changes or improvements mentioned";
    "- New requirements or conditions being imposed";
    "- Staff recommendation patterns";
    "- Timeline and deadline insights";
    "- Regulatory efficiency observations";
    EmptyString;
    "If no major regulatory changes were discussed, focus on process insights and timing observations that would help developers navigate the system more effectively.";
    EmptyString;
    "Style: Practical guidance for development professionals";
    "Length: 100-150 words";
    "Include headline focused on regulatory insights.";
    EmptyString ].

Definition generate_regulatory_watch `{PyRuntime} (analysis meeting_info : pyval) : Py pyval :=
  mi ← lift (as_dict meeting_info);
  let prompt := regulatory_watch_prompt analysis mi in
  request_section regulatory_watch_system prompt "regulatory watch".

Definition people_politics_system : string :=
  "You are a political analyst covering Triangle development and planning politics.".

Definition people_politics_prompt `{PyRuntime} (people : pyval) (mi : dict) : string :=
  String.concat nl [
    EmptyString;
    "Write a " +:+ q "People & Politics" +:+ " section for the Triangle Development Digest newsletter.";
    EmptyString;
    "Meeting: " +:+ py_str (dict_get mi "jurisdiction" PNone) +:+ " " +:+ py_str (dict_get mi "type" PNone) +:+ " - " +:+ py_str (dict_get mi "date" PNone);
    EmptyString;
    "Key People:";
    json_dumps people;
    EmptyString;
    "Focus on:";
    "- Commissioner positions and voting patterns";
    "- Staff recommendations and their success rate";
    "- Developer/applicant strategies and presentations";
    "- Community opposition leaders and their concerns";
    "- Political dynamics that affect development approval";
    EmptyString;
    "Style: Professional insider intelligence that helps developers understand the human dynamics";
    "Length: 100-150 words";
    "Include headline about political insights or key relationships.";
    EmptyString ].

Definition generate_people_politics `{PyRuntime} (analysis meeting_info : pyval) : Py pyval :=
  an ← lift (as_dict analysis);
  let people := dict_get an "key_people" (PList []) in
  mi ← lift (as_dict meeting_info);
  let prompt := people_politics_prompt people mi in
  request_section people_politics_system prompt "people & politics".

Definition executive_summary_system : string :=
  "You are an executive briefing writer for Triangle development professionals.".

(** [highlights] are the elements the comprehension visits. *)
Definition executive_summary_prompt `{PyRuntime} (highlights : list pyval) (analysis : pyval)
    (mi : dict) : string :=
  String.concat nl [
    EmptyString;
    "Write an " +:+ q "Executive Summary" +:+ " section for the Triangle Development Digest newsletter.";
    EmptyString;
    "Meeting: " +:+ py_str (dict_get mi "jurisdiction" PNone) +:+ " " +:+ py_str (dict_get mi "type" PNone) +:+ " - " +:+ py_str (dict_get mi "date" PNone);
    EmptyString;
    "Key Highlights:";
    String.concat nl (map (fun highlight => bullet +:+ " " +:+ py_str highlight) highlights);
    EmptyString;
    "Full Analysis:";
    json_dumps analysis;
    EmptyString;
    "Create a compelling executive summary that:";
    "- Captures the most important developments for Triangle developers";
    "- Highlights key opportunities and risks";
    "- Provides actionable takeaways";
    "- Sets context for the detailed sections that follow";
    EmptyString;
    "Style: Executive briefing tone - concise but comprehensive";
    "Length: 75-125 words";
    "Start with a strong headline that captures the meeting's significance.";
    EmptyString ].

Definition generate_executive_summary `{PyRuntime} (analysis meeting_info : pyval)
  : Py pyval :=
  an ← lift (as_dict analysis);
  mi ← lift (as_dict meeting_info);
  highlights ← lift (py_iter (dict_get an "newsletter_highlights" (PList [])));
  let prompt := executive_summary_prompt highlights analysis mi in
  request_section executive_summary_system prompt "executive summary".

(** Console only; the heading line reads [meeting_info.get]. *)
Definition display_newsletter_content (sections : dict) (meeting_info : pyval) : Py unit :=
  lift (as_dict meeting_info);; mret tt.

Definition section_order : list (string * string) :=
  [ ("executive_summary", "## Executive Summary");
    ("project_pipeline", "## Project Pipeline");
    ("market_intelligence", "## Market Intelligence");
    ("regulatory_watch", "## Regulatory Watch");
    ("people_politics", "## People & Politics") ].

(** One turn of the loop over [section_order]: the three [f.write] calls
    when [key in sections and sections[key]], nothing otherwise. *)
Definition write_section `{PyRuntime} (sections : dict) (written : string)
    (entry : string * string) : string :=
  let '(key, title) := entry in
  match sections !! key with
  | Some text =>
      if py_truthy text then
        written +:+ (title +:+ nl +:+ nl) +:+ (py_str text +:+ nl +:+ nl) +:+ ("---" +:+ nl +:+ nl)
      else written
  | None => written
  end.

Definition save_newsletter_content `{PyRuntime} (sections : dict) (meeting_info : pyval)
  : Py unit :=
  started ← datetime_now;
  let timestamp := strftime_compact started in
  mi ← lift (as_dict meeting_info);
  jurisdiction ← lift (py_lower (dict_get mi "jurisdiction" (PStr "triangle")));
  let newsletter_file := "newsletter_" +:+ jurisdiction +:+ "_" +:+ timestamp +:+ ".md" in
  open_ newsletter_file "w";;
  let title := "# Triangle Development Digest" +:+ nl +:+ nl in
  let heading :=
    "## " +:+ py_str (dict_get mi "jurisdiction" PNone) +:+ " " +:+
    py_str (dict_get mi "type" PNone) +:+ " - " +:+ py_str (dict_get mi "date" PNone) +:+
    nl +:+ nl in
  let body := fold_left (write_section sections) section_order (title +:+ heading) in
  finished ← datetime_now;
  file_store newsletter_file
    (body +:+ ("*Generated by PermitRDU AI on " +:+ strftime_long finished +:+ "*" +:+ nl)).

(** [if not api_key]. *)
Definition missing (api_key : option string) : bool :=
  match api_key with
  | None => true
  | Some k => String.eqb k EmptyString
  end.

Definition generate_newsletter_content `{PyRuntime} (analysis_file : string)
  : Py (option dict) :=
  loaded ← try_except_cls FileNotFoundError
              (open_ analysis_file "r";;
               text ← file_read analysis_file;
               match json_loads text with
               | inr data => mret (Some data)
               | inl e => raise e
               end)
              (fun _ => mret None);
  match loaded with
  | None => mret None
  | Some data =>
      data ← lift (as_dict data);
      let meeting_info := dict_get data "meeting_info" (PDict ∅) in
      let analysis := dict_get data "analysis" (PDict ∅) in
      lift (as_dict meeting_info);;
      api_key ← os_getenv_OPENAI_API_KEY;
      if missing api_key then mret None
      else
        let newsletter_sections : dict := ∅ in
        an ← lift (as_dict analysis);
        newsletter_sections ←
          (if py_truthy (dict_get an "projects" PNone) then
             pipeline_content ← generate_project_pipeline analysis meeting_info;
             mret (<["project_pipeline" := pipeline_content]> newsletter_sections)
           else mret newsletter_sections);
        market_content ← generate_market_intelligence analysis meeting_info;
        let newsletter_sections := <["market_intelligence" := market_content]> newsletter_sections in
        regulatory_content ← generate_regulatory_watch analysis meeting_info;
        let newsletter_sections := <["regulatory_watch" := regulatory_content]> newsletter_sections in
        newsletter_sections ←
          (if py_truthy (dict_get an "key_people" PNone) then
             people_content ← generate_people_politics analysis meeting_info;
             mret (<["people_politics" := people_content]> newsletter_sections)
           else mret newsletter_sections);
        executive_summary ← generate_executive_summary analysis meeting_info;
        let newsletter_sections := <["executive_summary" := executive_summary]> newsletter_sections in
        display_newsletter_content newsletter_sections meeting_info;;
        save_newsletter_content newsletter_sections meeting_info;;
        mret (Some newsletter_sections)
  end.

End generate_newsletter.

(** * Stand-ins for closed examples

    A runtime whose [json.loads] knows three documents, and a world with a
    working clock, an API key, a writable disk and endpoints that answer. *)

Definition sample_meeting_info : dict :=
  {[ "jurisdiction" := PStr "Raleigh";
     "date" := PStr "2025-08-12";
     "type" := PStr "Planning Commission" ]}.

Definition sample_projects : list pyval :=
  [PDict {[ "name" := PStr "Oak Street Apartments";
            "vote_outcome" := PStr "approved";
            "vote_details" := PStr "9-0" ]}].

Definition sample_highlights : list pyval := [PStr "Oak Street Apartments approved 9-0"].

Definition sample_analysis : dict :=
  {[ "projects" := PList sample_projects;
     "newsletter_highlights" := PList sample_highlights ]}.

Definition sample_document : pyval :=
  PDict {[ "meeting_info" := PDict sample_meeting_info;
           "analysis" := PDict sample_analysis ]}.

(** An integer literal of 5000 digits: [json.loads] refuses it with a
    [ValueError], the limit of the interpreter being 4300 digits. *)
Definition long_integer_literal : string := str_repeat "1" 5000.

Definition digits_limit_exceeded : exn :=
  Exn ValueError
    "Exceeds the limit (4300 digits) for integer string conversion: value has 5000 digits; use sys.set_int_max_str_digits() to increase the limit".

Definition sample_json_loads (s : string) : exn + pyval :=
  if String.eqb s "{}" then inr (PDict ∅)
  else if String.eqb s "null" then inr PNone
  else if String.eqb s "<analysis_raleigh.json>" then inr sample_document
  else if String.eqb s long_integer_literal then inl digits_limit_exceeded
  else inl (Exn JSONDecodeError "Expecting value: line 1 column 1 (char 0)").

Definition sample_runtime : PyRuntime :=
  {| json_loads := sample_json_loads;
     json_dumps := fun _ => "<json>";
     py_repr := fun _ => "<repr>";
     pathlib_str := fun p => p;
     py_mul_float := fun _ _ => inl (Exn TypeError "unsupported operand type(s) for *") |}.

Definition sample_clock (n : nat) : DateTime :=
  {| year := 2025; month := 8; day := 12;
     hour := 14; minute := 57; second := 41 + Z.of_nat n; microsecond := 0 |}.

Definition sample_transcription : Transcription :=
  {| t_text := "The commission approved Oak Street Apartments nine to zero.";
     t_duration := Some 600%float;
     t_language := Some "english";
     t_segments := None |}.

(** A world in which [path] is a file of [size] bytes, the speech-to-text
    endpoint answers [stt] and the chat endpoint answers [chat]. *)
Definition sample_world (path : string) (size : Z)
    (stt : exn + Transcription) (chat : nat -> ChatRequest -> exn + ChatCompletion) : World :=
  {| env_OPENAI_API_KEY := Some "sk-test";
     fs_exists := fun p => String.eqb p path;
     fs_st_size := fun p =>
       if String.eqb p path then inr size
       else inl (Exn FileNotFoundError "[Errno 2] No such file or directory");
     fs_open := fun p mode =>
       if String.eqb mode "w" || String.eqb p path then None
       else Some (Exn FileNotFoundError "[Errno 2] No such file or directory");
     fs_content := fun _ => "<analysis_raleigh.json>";
     stt_endpoint := fun _ _ => stt;
     chat_endpoint := chat;
     clock := sample_clock;
     stt_calls := [];
     chat_calls := [];
     clock_reads := 0;
     fs_written := [] |}.

Definition chat_says (text : string) : nat -> ChatRequest -> exn + ChatCompletion :=
  fun _ _ => inr {| choices := [Some text]; usage_total_tokens := Some 1200%Z |}.

Definition connection_error : exn := Exn OtherError "Connection error.".

(** The chat endpoint of a run in which the [failing]-th request is refused
    and every other request is answered with [text]. *)
Definition chat_fails_at (failing : nat) (text : string)
  : nat -> ChatRequest -> exn + ChatCompletion :=
  fun n _ =>
    if Nat.eqb n failing then inl connection_error
    else inr {| choices := [Some text]; usage_total_tokens := Some 300%Z |}.

(** A transcript of 12001 characters, and one that differs from it in the
    last character only. *)
Definition long_transcript : string := str_repeat "a" 12000 +:+ "b".
Definition long_transcript' : string := str_repeat "a" 12000 +:+ "c".

(** A mapping in which the executive summary is present with an empty text. *)
Definition sections_with_empty_summary : dict :=
  {[ "executive_summary" := PStr EmptyString;
     "market_intelligence" := PStr "Rezoning requests are up." ]}.

(** * Descriptions used by the statements

    The results the stages return on each path, the worlds they leave, and a
    declarative reading of the section loop and of the saved file. *)

Section Descriptions.
Context `{PyRuntime}.

(** ** Transcription *)

Definition file_not_found (p : string) : dict :=
  {[ "success" := PBool false;
     "error" := PStr ("File not found: " +:+ p);
     "transcript" := PNone ]}.

(** The refusal of a file whose size in MiB is the float [m / 2^20]. *)
Definition file_too_large (m : Z) : dict :=
  {[ "success" := PBool false;
     "error" := PStr ("File too large (" +:+ TranscriptionService.fixed_1f m +:+
                      "MB). Maximum size is 25MB.");
     "transcript" := PNone;
     "suggestion" := PStr TranscriptionService.large_file_suggestion ]}.

Definition whisper_failure (e : exn) : dict :=
  {[ "success" := PBool false;
     "error" := PStr ("OpenAI Whisper error: " +:+ exn_str e);
     "transcript" := PNone ]}.

Definition whisper_success (t : Transcription) : dict :=
  {[ "success" := PBool true;
     "transcript" := PStr (t_text t);
     "duration" := opt_val PFloat (t_duration t);
     "language" := opt_val PStr (t_language t);
     "segments" := PList (default [] (t_segments t)) ]}.

Definition transcription_failed (e : exn) : dict :=
  {[ "success" := PBool false;
     "error" := PStr ("Transcription failed: " +:+ exn_str e);
     "transcript" := PNone ]}.

(** The world after one request to the speech-to-text endpoint. *)
Definition after_stt (w : World) (p : string) : World :=
  set_stt_calls w (stt_calls w ++ [TranscriptionService.whisper_request p]).

(** The result of a run in which the endpoint answered [t]. *)
Definition transcribed (meeting_info : dict) (t : Transcription) (now : DateTime) : dict :=
  {[ "success" := PBool true;
     "transcript" := PStr (t_text t);
     "meeting_info" := PDict meeting_info;
     "duration" := opt_val PFloat (t_duration t);
     "language" := opt_val PStr (t_language t);
     "segments" := PList (default [] (t_segments t));
     "cost_estimate" := PFloat (match t_duration t with Some d => d * 0.006 | None => 0.0 end);
     "processed_at" := PStr (isoformat now);
     "enhanced_sections" := PList [] ]}.

(** ** Extraction *)

(** "The text built from a transcript depends on its first [n] characters
    only": two transcripts that agree there give the same text. *)
Definition embeds_at_most (n : nat) (prompt_of : string -> string) : Prop :=
  ∀ t1 t2 : string, substring 0 n t1 = substring 0 n t2 → prompt_of t1 = prompt_of t2.

Definition prompt_before (meeting_info : dict) : string :=
  String.concat nl (MeetingAnalysisService.analysis_prompt_head meeting_info) +:+ nl +:+
  "        ".

Definition prompt_after : string :=
  "  # Limit transcript to avoid token limits" +:+ nl +:+ "        ".

(** The prompt of the service for a transcript that is a string. *)
Definition service_prompt (transcript : string) (meeting_info : dict) : string :=
  prompt_before meeting_info +:+ substring 0 12000 transcript +:+ prompt_after.

Definition analysis_failed (e : exn) : dict :=
  {[ "success" := PBool false;
     "error" := PStr ("Analysis failed: " +:+ exn_str e);
     "analysis" := PNone ]}.

Definition analysed (meeting_info : dict) (analysis_data : pyval) (now : DateTime)
    (response : ChatCompletion) : dict :=
  {[ "success" := PBool true;
     "analysis" := analysis_data;
     "meeting_info" := PDict meeting_info;
     "analyzed_at" := PStr (isoformat now);
     "token_usage" := opt_val PInt (usage_total_tokens response) ]}.

(** The parse attempt with its handler: the parsed value, the whole text
    under [raw_analysis] when [json.loads] raises [JSONDecodeError], and
    the exception when it raises anything else. *)
Definition parse_outcome (text : string) : exn + pyval :=
  match json_loads text with
  | inr v => inr v
  | inl e =>
      if decide (exn_cls e = JSONDecodeError)
      then inr (PDict {[ "raw_analysis" := PStr text ]})
      else inl e
  end.

(** The world after one request to the chat endpoint. *)
Definition after_chat (w : World) (req : ChatRequest) : World :=
  set_chat_calls w (chat_calls w ++ [req]).

(** ** Newsletter sections *)

(** The value a generator stores for its section, given the answer to its
    own request. *)
Definition section_outcome (label : string) (answer : exn + ChatCompletion) : pyval :=
  match answer with
  | inl e => PStr ("Error generating " +:+ label +:+ " content: " +:+ exn_str e)
  | inr response =>
      match choices response with
      | [] => PStr ("Error generating " +:+ label +:+ " content: list index out of range")
      | Some text :: _ => PStr text
      | None :: _ => PNone
      end
  end.

(** One section to generate: its key in the mapping, the name used in its
    error text, and its request. *)
Record SectionTask : Type := {
  task_key : string;
  task_label : string;
  task_request : ChatRequest
}.

(** The sections [generate_newsletter_content] attempts, in the order of its
    calls, for an analysis [analysis = PDict an], a meeting [mi] and the
    highlights [hl]. *)
Definition section_tasks (analysis : pyval) (an mi : dict) (hl : list pyval)
  : list SectionTask :=
  (if py_truthy (dict_get an "projects" PNone) then
     [ {| task_key := "project_pipeline"; task_label := "project pipeline";
          task_request := generate_newsletter.section_request
            generate_newsletter.project_pipeline_system
            (generate_newsletter.project_pipeline_prompt
               (dict_get an "projects" (PList [])) mi) |} ]
   else []) ++
  [ {| task_key := "market_intelligence"; task_label := "market intelligence";
       task_request := generate_newsletter.section_request
         generate_newsletter.market_intelligence_system
         (generate_newsletter.market_intelligence_prompt analysis mi) |};
    {| task_key := "regulatory_watch"; task_label := "regulatory watch";
       task_request := generate_newsletter.section_request
         generate_newsletter.regulatory_watch_system
         (generate_newsletter.regulatory_watch_prompt analysis mi) |} ] ++
  (if py_truthy (dict_get an "key_people" PNone) then
     [ {| task_key := "people_politics"; task_label := "people & politics";
          task_request := generate_newsletter.section_request
            generate_newsletter.people_politics_system
            (generate_newsletter.people_politics_prompt
               (dict_get an "key_people" (PList [])) mi) |} ]
   else []) ++
  [ {| task_key := "executive_summary"; task_label := "executive summary";
       task_request := generate_newsletter.section_request
         generate_newsletter.executive_summary_system
         (generate_newsletter.executive_summary_prompt hl analysis mi) |} ].

(** Running the tasks one after the other: each stores the outcome of its
    own request and logs the request. *)
Fixpoint run_tasks (tasks : list SectionTask) (w : World) (sections : dict) : dict * World :=
  match tasks with
  | [] => (sections, w)
  | t :: rest =>
      let answer := chat_endpoint w (length (chat_calls w)) (task_request t) in
      run_tasks rest (after_chat w (task_request t))
        (<[task_key t := section_outcome (task_label t) answer]> sections)
  end.

(** ** The saved newsletter *)

Definition str_join (parts : list string) : string := foldr String.append EmptyString parts.

(** A section is written when the mapping has it with a text that is not
    empty. *)
Definition shown (sections : dict) (entry : string * string) : bool :=
  py_truthy (dict_get sections entry.1 PNone).

(** Heading, text and rule of one section. *)
Definition section_block (sections : dict) (entry : string * string) : string :=
  entry.2 +:+ nl +:+ nl +:+
  py_str (dict_get sections entry.1 PNone) +:+ nl +:+ nl +:+
  "---" +:+ nl +:+ nl.

Definition newsletter_name (jurisdiction : string) (started : DateTime) : string :=
  "newsletter_" +:+ str_lower jurisdiction +:+ "_" +:+ strftime_compact started +:+ ".md".

Definition newsletter_top (mi : dict) : string :=
  ("# Triangle Development Digest" +:+ nl +:+ nl) +:+
  ("## " +:+ py_str (dict_get mi "jurisdiction" PNone) +:+ " " +:+
   py_str (dict_get mi "type" PNone) +:+ " - " +:+ py_str (dict_get mi "date" PNone) +:+
   nl +:+ nl).

Definition newsletter_footer (finished : DateTime) : string :=
  "*Generated by PermitRDU AI on " +:+ strftime_long finished +:+ "*" +:+ nl.

(** The world after [save_newsletter_content] wrote [content] to [name]. *)
Definition after_save (w : World) (name content : string) : World :=
  set_fs_written (set_clock_reads w (S (S (clock_reads w))))
    (fs_written w ++ [(name, content)]).

End Descriptions.

(** * analyze_transcript_fixed.py, the command-line run *)

Module analyze_transcript_fixed_cli.

(** [for x in items: body x]. *)
Fixpoint for_each {A : Type} (body : A -> Py unit) (items : list A) : Py unit :=
  match items with
  | [] => mret tt
  | x :: rest => body x;; for_each body rest
  end.

(** The block printed for a list of records ([projects], [key_people]):
    nothing when the value is false; otherwise its [len] is printed and
    [.get] is called on every element. *)
Definition display_records (records : pyval) : Py unit :=
  if py_truthy records then
    lift (py_len records);;
    items ← lift (py_iter records);
    for_each (fun record => lift (as_dict record);; mret tt) items
  else mret tt.

(** The preview of [raw_analysis]: the value itself when its [len] is at
    most 1000, else its first 1000 items followed by [+ "..."]. *)
Definition display_raw (raw : pyval) : Py unit :=
  n ← lift (py_len raw);
  if (1000 <? n)%Z then
    sliced ← lift (py_slice_to 1000 raw);
    match sliced with
    | PStr _ => mret tt
    | _ => raise (Exn TypeError ("can only concatenate list (not " +:+ q "str" +:+ ") to list"))
    end
  else mret tt.

(** Console only; what is kept is where it raises. *)
Definition display_analysis_results (analysis_data : pyval) (meeting_info : dict) : Py unit :=
  getitem meeting_info "jurisdiction";;
  an ← lift (as_dict analysis_data);
  display_records (dict_get an "projects" (PList []));;
  display_records (dict_get an "key_people" (PList []));;
  (let highlights := dict_get an "newsletter_highlights" (PList []) in
   if py_truthy highlights then lift (py_iter highlights);; mret tt else mret tt);;
  match an !! "raw_analysis" with
  | Some raw => display_raw raw
  | None => mret tt
  end.

Definition system_message : string :=
  "You are an expert Triangle area development analyst who extracts key information from planning meetings for professional newsletters.".

Definition analysis_request (analysis_prompt : string) : ChatRequest :=
  {| chat_model := "gpt-4";
     chat_messages := [("system", system_message); ("user", analysis_prompt)];
     chat_temperature := 0.1 |}.

(** [if not api_key]. *)
Definition no_key (api_key : option string) : bool :=
  match api_key with
  | None => true
  | Some k => String.eqb k EmptyString
  end.

Definition analyze_transcript `{PyRuntime} (transcript_file : string) (meeting_info : dict)
  : Py (option pyval) :=
  getitem meeting_info "jurisdiction";;
  getitem meeting_info "type";;
  loaded ← try_except_cls FileNotFoundError
              (open_ transcript_file "r";;
               transcript ← file_read transcript_file;
               mret (Some transcript))
              (fun _ => mret None);
  match loaded with
  | None => mret None
  | Some transcript =>
      api_key ← os_getenv_OPENAI_API_KEY;
      if no_key api_key then mret None
      else
        let analysis_prompt :=
          analyze_transcript_fixed.build_analysis_prompt (PStr transcript) meeting_info in
        try_except
          (response ← chat_completions_create (analysis_request analysis_prompt);
           analysis_text ← first_choice_content response;
           analysis_data ← try_except_cls JSONDecodeError
                             (MeetingAnalysisService.parse_json analysis_text)
                             (fun _ => mret (PDict {[ "raw_analysis" := analysis_text ]}));
           display_analysis_results analysis_data meeting_info;;
           jurisdiction ← getitem meeting_info "jurisdiction";
           jurisdiction ← lift (py_lower jurisdiction);
           started ← datetime_now;
           let output_file :=
             "analysis_" +:+ jurisdiction +:+ "_" +:+ strftime_compact started +:+ ".json" in
           open_ output_file "w";;
           analyzed_at ← datetime_now;
           file_store output_file
             (json_dumps
                (PDict {[ "meeting_info" := PDict meeting_info;
                          "analysis" := analysis_data;
                          "transcript_length" := PInt (Z.of_nat (String.length transcript));
                          "analyzed_at" := PStr (isoformat analyzed_at) ]}));;
           mret (Some analysis_data))
          (fun _ => mret None)
  end.

End analyze_transcript_fixed_cli.

(** * Further descriptions *)

Section MoreDescriptions.
Context `{PyRuntime}.

(** The prompt of the service around an already sliced transcript. *)
Definition prompt_around (sliced : pyval) (meeting_info : dict) : string :=
  String.concat nl
    (MeetingAnalysisService.analysis_prompt_head meeting_info ++
     [ "        " +:+ py_str sliced +:+ "  # Limit transcript to avoid token limits";
       "        " ]).

(** The estimate [transcribe_meeting] attaches to an answer. *)
Definition cost_of (t : Transcription) : float :=
  match t_duration t with
  | Some d => d * 0.006
  | None => 0.0
  end.

(** Whether a request is one of the newsletter generator's: model gpt-4, a
    system and a user message, temperature 0.3. *)
Definition is_section_request (req : ChatRequest) : Prop :=
  chat_model req = "gpt-4" ∧
  chat_temperature req = 0.3%float ∧
  ∃ system prompt : string, chat_messages req = [("system", system); ("user", prompt)].

Definition b2n (b : bool) : nat := if b then 1 else 0.

End MoreDescriptions.

(** A world like [sample_world] whose disk cannot be written. *)
Definition read_only (w : World) : World :=
  {| env_OPENAI_API_KEY := env_OPENAI_API_KEY w; fs_exists := fs_exists w;
     fs_st_size := fs_st_size w;
     fs_open := fun p mode =>
       if String.eqb mode "w" then Some (Exn OtherError "[Errno 30] Read-only file system")
       else fs_open w p mode;
     fs_content := fs_content w;
     stt_endpoint := stt_endpoint w; chat_endpoint := chat_endpoint w; clock := clock w;
     stt_calls := stt_calls w; chat_calls := chat_calls w; clock_reads := clock_reads w;
     fs_written := fs_written w |}.

(** A world like [w] without an API key. *)
Definition without_key (w : World) : World :=
  {| env_OPENAI_API_KEY := None; fs_exists := fs_exists w;
     fs_st_size := fs_st_size w; fs_open := fs_open w; fs_content := fs_content w;
     stt_endpoint := stt_endpoint w; chat_endpoint := chat_endpoint w; clock := clock w;
     stt_calls := stt_calls w; chat_calls := chat_calls w; clock_reads := clock_reads w;
     fs_written := fs_written w |}.

Section PipelineDescriptions.
Context `{PyRuntime}.

(** The result [process_meeting_file] combines from an answer [t] of the
    speech-to-text endpoint and a result of the analysis whose success
    entry is [a_ok]. *)
Definition combined_result (meeting_info : dict) (t : Transcription) (analysis_result : dict)
    (a_ok : pyval) (now : DateTime) : dict :=
  {[ "success" := a_ok;
     "transcript" := PStr (t_text t);
     "analysis" := dict_get analysis_result "analysis" PNone;
     "meeting_info" := PDict meeting_info;
     "processing_summary" := PDict
       {[ "transcription_cost" := PFloat (cost_of t);
          "transcript_length" := PInt (Z.of_nat (String.length (t_text t)));
          "analysis_tokens" := dict_get analysis_result "token_usage" PNone;
          "processed_at" := PStr (isoformat now) ]};
     "errors" := PDict
       {[ "transcription_error" := PNone;
          "analysis_error" :=
            (if py_truthy a_ok then PNone else dict_get analysis_result "error" PNone) ]} ]}.

End PipelineDescriptions.

Section ScriptDescriptions.
Context `{PyRuntime}.

Definition analysis_name (jurisdiction : string) (started : DateTime) : string :=
  "analysis_" +:+ str_lower jurisdiction +:+ "_" +:+ strftime_compact started +:+ ".json".

(** The record the command-line run saves. *)
Definition analysis_record (meeting_info : dict) (analysis_data : pyval) (transcript : string)
    (analyzed_at : DateTime) : pyval :=
  PDict {[ "meeting_info" := PDict meeting_info;
           "analysis" := analysis_data;
           "transcript_length" := PInt (Z.of_nat (String.length transcript));
           "analyzed_at" := PStr (isoformat analyzed_at) ]}.

End ScriptDescriptions.

(** * Further samples *)

Definition permission_denied : exn := Exn OtherError "[Errno 13] Permission denied".

(** A world like [w] in which no file can be opened. *)
Definition unopenable (e : exn) (w : World) : World :=
  {| env_OPENAI_API_KEY := env_OPENAI_API_KEY w; fs_exists := fs_exists w;
     fs_st_size := fs_st_size w; fs_open := fun _ _ => Some e; fs_content := fs_content w;
     stt_endpoint := stt_endpoint w; chat_endpoint := chat_endpoint w; clock := clock w;
     stt_calls := stt_calls w; chat_calls := chat_calls w; clock_reads := clock_reads w;
     fs_written := fs_written w |}.

(** A world like [w] in which [stat] fails on every path. *)
Definition unexaminable (e : exn) (w : World) : World :=
  {| env_OPENAI_API_KEY := env_OPENAI_API_KEY w; fs_exists := fs_exists w;
     fs_st_size := fun _ => inl e; fs_open := fs_open w; fs_content := fs_content w;
     stt_endpoint := stt_endpoint w; chat_endpoint := chat_endpoint w; clock := clock w;
     stt_calls := stt_calls w; chat_calls := chat_calls w; clock_reads := clock_reads w;
     fs_written := fs_written w |}.

(** A world like [w] in which every file reads as [text]. *)
Definition with_content (text : string) (w : World) : World :=
  {| env_OPENAI_API_KEY := env_OPENAI_API_KEY w; fs_exists := fs_exists w;
     fs_st_size := fs_st_size w; fs_open := fs_open w; fs_content := fun _ => text;
     stt_endpoint := stt_endpoint w; chat_endpoint := chat_endpoint w; clock := clock w;
     stt_calls := stt_calls w; chat_calls := chat_calls w; clock_reads := clock_reads w;
     fs_written := fs_written w |}.

(** A chat endpoint that answers every request with [response]. *)
Definition chat_returns (response : ChatCompletion) : nat -> ChatRequest -> exn + ChatCompletion :=
  fun _ _ => inr response.

Definition no_choice : ChatCompletion := {| choices := []; usage_total_tokens := None |}.

Definition null_content : ChatCompletion :=
  {| choices := [None]; usage_total_tokens := Some 40%Z |}.

(** The world of the transcription samples: a recording of [size] bytes,
    the speech-to-text endpoint answering [stt], the chat endpoint [chat]. *)
Definition recording_world (size : Z) (stt : exn + Transcription)
    (chat : nat -> ChatRequest -> exn + ChatCompletion) : World :=
  sample_world "meeting.mp3" size stt chat.

(** The world of the newsletter samples. *)
Definition newsletter_world (chat : nat -> ChatRequest -> exn + ChatCompletion) : World :=
  sample_world "analysis_raleigh.json" 2048 (inr sample_transcription) chat.

(** The world of the command-line analysis: a transcript file and a chat
    endpoint. *)
Definition transcript_world (chat : nat -> ChatRequest -> exn + ChatCompletion) : World :=
  with_content "Item one: Oak Street."
    (sample_world "transcript_raleigh_middle_sample.txt" 21 (inr sample_transcription) chat).

Definition sample_data : dict :=
  {[ "meeting_info" := PDict sample_meeting_info; "analysis" := PDict sample_analysis ]}.

(** An analysis whose highlights are null. *)
Definition analysis_with_null_highlights : dict :=
  {[ "projects" := PList sample_projects; "newsletter_highlights" := PNone ]}.

Definition data_with_null_highlights : dict :=
  {[ "meeting_info" := PDict sample_meeting_info;
     "analysis" := PDict analysis_with_null_highlights ]}.

(** A meeting whose jurisdiction is null. *)
Definition meeting_without_name : dict :=
  {[ "jurisdiction" := PNone; "type" := PStr "Planning Commission" ]}.

(** The sample runtime with [json.loads] returning [document] on every text. *)
Definition runtime_loading (document : pyval) : PyRuntime :=
  {| json_loads := fun _ => inr document;
     json_dumps := fun _ => "<json>";
     py_repr := fun _ => "<repr>";
     pathlib_str := fun p => p;
     py_mul_float := fun _ _ => inl (Exn TypeError "unsupported operand type(s) for *") |}.

(** * Properties of the transcription stage *)

Section TranscriptionFacts.
Context `{PyRuntime}.
Import TranscriptionService.

Lemma transcribe_file_unfold (p : string) (w : World) :
  _transcribe_file p w =
  match fs_open w p "rb" with
  | Some e => (inr (whisper_failure e), w)
  | None =>
      match stt_endpoint w (length (stt_calls w)) (whisper_request p) with
      | inl e => (inr (whisper_failure e), after_stt w p)
      | inr t => (inr (whisper_success t), after_stt w p)
      end
  end.
Proof.
  unfold _transcribe_file, try_except, open_, audio_transcriptions_create.
  unfold mbind, Py_bind, mret, Py_ret.
  destruct (fs_open w p "rb"); [reflexivity|].
  destruct (stt_endpoint w _ _); reflexivity.
Qed.

Lemma enhance_transcript_str (raw : string) (meeting_info : dict) (w : World) :
  _enhance_transcript (PStr raw) meeting_info w =
  (inr {[ "text" := PStr raw; "sections" := PList [] ]}, w).
Proof. reflexivity. Qed.

Lemma calculate_cost_duration (d : option float) (w : World) :
  ∃ c, _calculate_cost (opt_val PFloat d) w = (inr (PFloat c), w).
Proof. destruct d; eexists; reflexivity. Qed.

(** What [transcribe_meeting] does, path by path. *)
Lemma transcribe_meeting_unfold (file_path : string) (meeting_info : dict) (w : World) :
  let p := pathlib_str file_path in
  transcribe_meeting file_path meeting_info w =
  if negb (fs_exists w p) then (inr (file_not_found p), w)
  else match fs_st_size w p with
       | inl e => (inr (transcription_failed e), w)
       | inr size =>
           if (max_file_size <? size)%Z then
             match size_in_mb size with
             | inl e => (inr (transcription_failed e), w)
             | inr m => (inr (file_too_large m), w)
             end
           else match fs_open w p "rb" with
                | Some e => (inr (whisper_failure e), w)
                | None =>
                    match stt_endpoint w (length (stt_calls w)) (whisper_request p) with
                    | inl e => (inr (whisper_failure e), after_stt w p)
                    | inr t =>
                        (inr (transcribed meeting_info t (clock w (clock_reads w))),
                         set_clock_reads (after_stt w p) (S (clock_reads w)))
                    end
                end
       end.
Proof.
  intros p. unfold transcribe_meeting, try_except. fold p.
  unfold mbind, Py_bind, Path_exists, Path_stat_st_size. cbv beta iota.
  destruct (fs_exists w p); cbn [negb]; cbv beta iota; [|reflexivity].
  destruct (fs_st_size w p) as [e|size] eqn:Hsize; [reflexivity|].
  destruct (max_file_size <? size)%Z.
  - unfold _handle_large_file, mbind, Py_bind, Path_stat_st_size, lift, format_mb_1f.
    rewrite Hsize. destruct (size_in_mb size); reflexivity.
  - rewrite transcribe_file_unfold.
    destruct (fs_open w p "rb"); [reflexivity|].
    destruct (stt_endpoint w _ _) as [e|t]; [reflexivity|].
    destruct t as [text [d|] lang seg]; reflexivity.
Qed.

(** The digits printed are the nearest tenth of the float. *)
Lemma fixed_1f_rounds (m : Z) :
  ∃ tenths : Z,
    fixed_1f m = pretty (tenths / 10)%Z +:+ "." +:+ pretty (tenths mod 10)%Z ∧
    (Z.abs (tenths * 1048576 - m * 10) ≤ 524288)%Z.
Proof.
  unfold fixed_1f.
  pose proof (Z.div_mod (m * 10) 1048576 ltac:(lia)) as Hdm.
  pose proof (Z.mod_pos_bound (m * 10) 1048576 ltac:(lia)) as Hb.
  set (whole := (m * 10 / 1048576)%Z) in *.
  set (rest := (m * 10 mod 1048576)%Z) in *.
  cbv zeta.
  destruct (2 * rest <? 1048576)%Z eqn:Hlo.
  { exists whole. split; [reflexivity|]. apply Z.ltb_lt in Hlo. lia. }
  destruct (1048576 <? 2 * rest)%Z eqn:Hhi.
  { exists (whole + 1)%Z. split; [reflexivity|]. apply Z.ltb_lt in Hhi. lia. }
  apply Z.ltb_ge in Hlo, Hhi.
  destruct (Z.even whole); eexists; (split; [reflexivity|lia]).
Qed.

(** An integer below 2^53 is a float. *)
Lemma round_binary64_exact (n : Z) : (n < 2 ^ 53)%Z → round_binary64 n = n.
Proof.
  intros Hn. unfold round_binary64.
  now replace (n <? 2 ^ 53)%Z with true by (symmetry; now apply Z.ltb_lt).
Qed.

(** The float of an integer is within half a unit in the last of the 53
    bits: the relative error is at most 2^-53. *)
Lemma round_binary64_near (n : Z) :
  (0 ≤ n)%Z → (Z.abs (round_binary64 n - n) * 2 ^ 53 ≤ n)%Z.
Proof.
  intros Hpos. unfold round_binary64.
  destruct (n <? 2 ^ 53)%Z eqn:Hsmall.
  { replace (n - n)%Z with 0%Z by lia. cbn [Z.abs]. lia. }
  apply Z.ltb_ge in Hsmall.
  assert (0 < n)%Z as Hn by (pose proof (Z.pow_pos_nonneg 2 53); lia).
  destruct (Z.log2_spec n Hn) as [Hlow _].
  assert (53 ≤ Z.log2 n)%Z as Hlog.
  { apply Z.log2_le_pow2; [exact Hn|exact Hsmall]. }
  cbv zeta.
  set (k := (Z.log2 n - 52)%Z) in *.
  assert (2 ^ k = 2 * 2 ^ (k - 1))%Z as Hk.
  { replace k with (Z.succ (k - 1)) at 1 by lia. apply Z.pow_succ_r. lia. }
  assert (2 ^ (k - 1) * 2 ^ 53 = 2 ^ Z.log2 n)%Z as Hhalf.
  { rewrite <- Z.pow_add_r by lia. f_equal. lia. }
  assert (0 < 2 ^ (k - 1))%Z as Hpos_half by (apply Z.pow_pos_nonneg; lia).
  pose proof (Z.div_mod n (2 ^ k) ltac:(lia)) as Hdm.
  pose proof (Z.mod_pos_bound n (2 ^ k) ltac:(lia)) as Hb.
  set (q := (n / 2 ^ k)%Z) in *.
  set (r := (n mod 2 ^ k)%Z) in *.
  set (half := (2 ^ (k - 1))%Z) in *.
  set (c := (2 ^ 53)%Z) in *.
  assert (0 < c)%Z as Hc by (apply Z.pow_pos_nonneg; lia).
  assert (∀ d : Z, (Z.abs d ≤ half)%Z → (Z.abs d * c ≤ n)%Z) as Hclose.
  { intros d Hd. apply Z.le_trans with (half * c)%Z; [|lia].
    apply Z.mul_le_mono_nonneg_r; lia. }
  destruct (r <? half)%Z eqn:Hlo.
  { apply Z.ltb_lt in Hlo. apply Hclose. lia. }
  destruct (half <? r)%Z eqn:Hhi.
  { apply Z.ltb_lt in Hhi. apply Hclose. lia. }
  apply Z.ltb_ge in Hlo, Hhi.
  destruct (Z.even q); apply Hclose; lia.
Qed.

(** Below 2^63, the range of a file size, the division does not overflow. *)
Lemma size_in_mb_defined (size : Z) :
  (0 ≤ size < 2 ^ 63)%Z → size_in_mb size = inr (round_binary64 size).
Proof.
  intros [Hpos Hsize]. unfold size_in_mb. cbv zeta.
  pose proof (round_binary64_near size Hpos) as Hnear.
  assert (round_binary64 size < 2 ^ 1034)%Z as Hfits.
  { apply Z.lt_trans with (2 ^ 64)%Z; [|apply Z.pow_lt_mono_r; lia].
    assert (0 < 2 ^ 53)%Z by (apply Z.pow_pos_nonneg; lia).
    replace (2 ^ 64)%Z with (2 * 2 ^ 63)%Z by reflexivity.
    assert (Z.abs (round_binary64 size - size) ≤ size)%Z by nia.
    lia. }
  now replace (2 ^ 1034 <=? round_binary64 size)%Z with false
    by (symmetry; now apply Z.leb_gt).
Qed.

(** C1.  A file that exists and is larger than 26,214,400 bytes (25 MiB) is
    refused: the result has success false and a null transcript, and no
    request has been added to the log of the speech-to-text endpoint.  For a
    size below 2^63, the range of [st_size], the error message carries the
    size of the file in MiB with one decimal: the tenth nearest to the float
    of the size, which is the size itself below 2^53 and within a relative
    2^-53 of it above; and the result carries the suggestion to reduce or
    chunk the file. *)
Theorem large_file_is_rejected (file_path : string) (meeting_info : dict) (w : World)
    (size : Z) :
  fs_exists w (pathlib_str file_path) = true →
  fs_st_size w (pathlib_str file_path) = inr size →
  (26214400 < size)%Z →
  ∃ (r : dict) (w' : World),
    transcribe_meeting file_path meeting_info w = (inr r, w') ∧
    stt_calls w' = stt_calls w ∧
    r !! "success" = Some (PBool false) ∧
    r !! "transcript" = Some PNone ∧
    ((size < 2 ^ 63)%Z →
     ∃ tenths : Z,
       r !! "error" =
         Some (PStr ("File too large (" +:+
                     (pretty (tenths / 10)%Z +:+ "." +:+ pretty (tenths mod 10)%Z) +:+
                     "MB). Maximum size is 25MB.")) ∧
       (Z.abs (tenths * 1048576 - round_binary64 size * 10) ≤ 524288)%Z ∧
       (Z.abs (round_binary64 size - size) * 2 ^ 53 ≤ size)%Z ∧
       ((size < 2 ^ 53)%Z → (Z.abs (tenths * 1048576 - size * 10) ≤ 524288)%Z) ∧
       r !! "suggestion" =
         Some (PStr "Please use audio optimization tools to reduce file size or implement file chunking.")).
Proof.
  intros Hex Hsz Hbig.
  rewrite transcribe_meeting_unfold. cbv zeta. rewrite Hex, Hsz. cbn [negb].
  replace (max_file_size <? size)%Z with true
    by (symmetry; apply Z.ltb_lt; unfold max_file_size; lia).
  destruct (size_in_mb size) as [e|m] eqn:Hmb.
  - eexists _, _. split; [reflexivity|]. repeat split; try reflexivity.
    intros Hrange. rewrite size_in_mb_defined in Hmb by lia. discriminate Hmb.
  - eexists _, _. split; [reflexivity|]. repeat split; try reflexivity.
    intros Hrange. rewrite size_in_mb_defined in Hmb by lia. injection Hmb as <-.
    destruct (fixed_1f_rounds (round_binary64 size)) as (tenths & Hfmt & Hround).
    exists tenths. split; [unfold file_too_large; rewrite Hfmt; reflexivity|].
    split; [exact Hround|]. split; [apply round_binary64_near; lia|].
    split; [|reflexivity].
    intros Hsmall. rewrite round_binary64_exact in Hround by exact Hsmall. exact Hround.
Qed.

(** A size the division cannot represent is not refused as too large: the
    [OverflowError] of the message reaches the outer handler. *)
Lemma unrepresentable_size_is_reported (file_path : string) (meeting_info : dict) (w : World)
    (size : Z) :
  fs_exists w (pathlib_str file_path) = true →
  fs_st_size w (pathlib_str file_path) = inr size →
  (2 ^ 1034 ≤ round_binary64 size)%Z →
  transcribe_meeting file_path meeting_info w =
  (inr {[ "success" := PBool false;
          "error" := PStr "Transcription failed: integer division result too large for a float";
          "transcript" := PNone ]}, w).
Proof.
  intros Hex Hsz Hbig.
  assert (max_file_size < size)%Z as Hover.
  { unfold max_file_size. destruct (Z.lt_ge_cases size (2 ^ 53)) as [Hsmall|Hlarge].
    - rewrite round_binary64_exact in Hbig by exact Hsmall.
      assert (2 ^ 53 < 2 ^ 1034)%Z by (apply Z.pow_lt_mono_r; lia). lia.
    - assert (25 * 1024 * 1024 < 2 ^ 53)%Z by reflexivity. lia. }
  rewrite transcribe_meeting_unfold. cbv zeta. rewrite Hex, Hsz. cbn [negb].
  replace (max_file_size <? size)%Z with true by (symmetry; now apply Z.ltb_lt).
  unfold size_in_mb. cbv zeta.
  now replace (2 ^ 1034 <=? round_binary64 size)%Z with true
    by (symmetry; now apply Z.leb_le).
Qed.

(** C2.  [transcribe_meeting] returns on every input: the run ends with a
    result that has a boolean success flag, never with an exception.  On a
    file that exists, is not over the ceiling and can be opened, a failing
    endpoint call gives success false, the error text with the cause and a
    null transcript; an answering endpoint gives success true and the text
    of the answer as transcript. *)
Theorem transcribe_meeting_never_raises (file_path : string) (meeting_info : dict)
    (w : World) :
  ∃ (r : dict) (w' : World) (b : bool),
    transcribe_meeting file_path meeting_info w = (inr r, w') ∧
    r !! "success" = Some (PBool b) ∧
    ∀ size : Z,
      fs_exists w (pathlib_str file_path) = true →
      fs_st_size w (pathlib_str file_path) = inr size →
      (size ≤ 26214400)%Z →
      fs_open w (pathlib_str file_path) "rb" = None →
      (∀ e : exn,
         stt_endpoint w (length (stt_calls w)) (whisper_request (pathlib_str file_path)) = inl e →
         r !! "success" = Some (PBool false) ∧
         r !! "error" = Some (PStr ("OpenAI Whisper error: " +:+ exn_str e)) ∧
         r !! "transcript" = Some PNone) ∧
      (∀ t : Transcription,
         stt_endpoint w (length (stt_calls w)) (whisper_request (pathlib_str file_path)) = inr t →
         r !! "success" = Some (PBool true) ∧
         r !! "transcript" = Some (PStr (t_text t))).
Proof.
  rewrite transcribe_meeting_unfold. cbv zeta.
  set (p := pathlib_str file_path).
  destruct (fs_exists w p) eqn:Hex; cbn [negb].
  2:{ eexists _, _, false. split; [reflexivity|]. split; [reflexivity|]. discriminate. }
  destruct (fs_st_size w p) as [e|size] eqn:Hsz.
  { eexists _, _, false. split; [reflexivity|]. split; [reflexivity|]. discriminate. }
  destruct (max_file_size <? size)%Z eqn:Hcmp.
  { destruct (size_in_mb size);
      (eexists _, _, false; split; [reflexivity|]; split; [reflexivity|];
       intros size' _ [= <-] Hle; apply Z.ltb_lt in Hcmp; unfold max_file_size in Hcmp; lia). }
  destruct (fs_open w p "rb") as [e|] eqn:Hop.
  { eexists _, _, false. split; [reflexivity|]. split; [reflexivity|]. discriminate. }
  destruct (stt_endpoint w (length (stt_calls w)) (whisper_request p)) as [e|t] eqn:Hstt.
  - eexists _, _, false. split; [reflexivity|]. split; [reflexivity|].
    intros _ _ _ _ _. split.
    + intros e' [= <-]. repeat split; reflexivity.
    + discriminate.
  - eexists _, _, true. split; [reflexivity|]. split; [reflexivity|].
    intros _ _ _ _ _. split.
    + discriminate.
    + intros t' [= <-]. split; reflexivity.
Qed.

(** C8.  The enhancement step returns the text it was given, with an empty
    list of sections, and leaves the world as it was; so whenever
    [transcribe_meeting] succeeds, the transcript it delivers is the text of
    the speech-to-text answer and the enhanced sections are empty. *)
Theorem enhancement_is_identity (raw_transcript : string) (meeting_info : dict) (w : World) :
  _enhance_transcript (PStr raw_transcript) meeting_info w =
    (inr {[ "text" := PStr raw_transcript; "sections" := PList [] ]}, w) ∧
  ∀ (file_path : string) (r : dict) (w' : World),
    transcribe_meeting file_path meeting_info w = (inr r, w') →
    r !! "success" = Some (PBool true) →
    ∃ t : Transcription,
      stt_endpoint w (length (stt_calls w)) (whisper_request (pathlib_str file_path)) = inr t ∧
      r !! "transcript" = Some (PStr (t_text t)) ∧
      r !! "enhanced_sections" = Some (PList []).
Proof.
  split; [reflexivity|].
  intros file_path r w'. rewrite transcribe_meeting_unfold. cbv zeta.
  set (p := pathlib_str file_path).
  destruct (fs_exists w p); cbn [negb].
  2:{ intros [= <- <-]. discriminate. }
  destruct (fs_st_size w p) as [e|size]; [intros [= <- <-]; discriminate|].
  destruct (max_file_size <? size)%Z;
    [destruct (size_in_mb size); intros [= <- <-]; discriminate|].
  destruct (fs_open w p "rb"); [intros [= <- <-]; discriminate|].
  destruct (stt_endpoint w _ _) as [e|t]; [intros [= <- <-]; discriminate|].
  intros [= <- <-] _. exists t. repeat split; reflexivity.
Qed.

(** Every failure of the transcription stage has an error text, a null
    transcript and no [errors] entry, and has not touched the chat log. *)
Lemma transcription_failure_shape (file_path : string) (meeting_info : dict) (w : World)
    (r : dict) (w' : World) :
  transcribe_meeting file_path meeting_info w = (inr r, w') →
  r !! "success" = Some (PBool false) →
  (∃ msg : string, r !! "error" = Some (PStr msg)) ∧
  r !! "transcript" = Some PNone ∧
  r !! "errors" = None ∧
  chat_calls w' = chat_calls w.
Proof.
  rewrite transcribe_meeting_unfold. cbv zeta.
  set (p := pathlib_str file_path).
  destruct (fs_exists w p); cbn [negb].
  2:{ intros [= <- <-] _. repeat split; try reflexivity. eexists; reflexivity. }
  destruct (fs_st_size w p) as [e|size].
  { intros [= <- <-] _. repeat split; try reflexivity. eexists; reflexivity. }
  destruct (max_file_size <? size)%Z.
  { destruct (size_in_mb size);
      (intros [= <- <-] _; repeat split; try reflexivity; eexists; reflexivity). }
  destruct (fs_open w p "rb").
  { intros [= <- <-] _. repeat split; try reflexivity. eexists; reflexivity. }
  destruct (stt_endpoint w _ _) as [e|t].
  { intros [= <- <-] _. repeat split; try reflexivity. eexists; reflexivity. }
  intros [= <- <-]. discriminate.
Qed.

(** C10.  When the transcription stage reports failure,
    [process_meeting_file] returns that very result (success false, an error
    text, a null transcript) and ends in the world the transcription left:
    the log of the chat endpoint has not grown, the analysis was not called. *)
Theorem transcription_failure_short_circuits (file_path : string) (meeting_info : dict)
    (w : World) (r : dict) (w' : World) :
  transcribe_meeting file_path meeting_info w = (inr r, w') →
  r !! "success" = Some (PBool false) →
  MeetingProcessor.process_meeting_file file_path meeting_info w = (inr r, w') ∧
  chat_calls w' = chat_calls w ∧
  (∃ msg : string, r !! "error" = Some (PStr msg)) ∧
  r !! "transcript" = Some PNone.
Proof.
  intros Hrun Hfail.
  destruct (transcription_failure_shape _ _ _ _ _ Hrun Hfail) as (Herr & Htr & _ & Hlog).
  split; [|auto].
  unfold MeetingProcessor.process_meeting_file.
  unfold mbind at 1. unfold Py_bind at 1. rewrite Hrun.
  unfold mbind at 1. unfold Py_bind at 1. unfold getitem at 1. rewrite Hfail.
  reflexivity.
Qed.

End TranscriptionFacts.

(** * Properties of the extraction stage and of the pipeline *)

Section StringFacts.

Lemma str_app_assoc (a b c : string) : (a +:+ b) +:+ c = a +:+ (b +:+ c).
Proof.
  induction a as [|x a IH]; [reflexivity|].
  change (String x ((a +:+ b) +:+ c) = String x (a +:+ (b +:+ c))). now f_equal.
Qed.

Lemma str_app_empty_r (a : string) : a +:+ EmptyString = a.
Proof.
  induction a as [|x a IH]; [reflexivity|].
  change (String x (a +:+ EmptyString) = String x a). now f_equal.
Qed.

(** Joining with a separator, one more line at the end. *)
Lemma str_concat_snoc (sep : string) (lines : list string) (last : string) :
  lines ≠ [] →
  String.concat sep (lines ++ [last]) = String.concat sep lines +:+ sep +:+ last.
Proof.
  induction lines as [|x [|y rest] IH]; intros Hne.
  - contradiction.
  - reflexivity.
  - change (String.concat sep ((x :: y :: rest) ++ [last]))
      with (x +:+ sep +:+ String.concat sep ((y :: rest) ++ [last])).
    rewrite IH by discriminate.
    change (String.concat sep (x :: y :: rest))
      with (x +:+ sep +:+ String.concat sep (y :: rest)).
    now rewrite !str_app_assoc.
Qed.

(** The last two lines of a prompt, the first of them with a hole. *)
Lemma str_concat_hole (sep : string) (lines : list string) (a s b c : string) :
  lines ≠ [] →
  String.concat sep (lines ++ [a +:+ s +:+ b; c]) =
  (String.concat sep lines +:+ sep +:+ a) +:+ s +:+ (b +:+ sep +:+ c).
Proof.
  intros Hne.
  change (lines ++ [a +:+ s +:+ b; c]) with (lines ++ [a +:+ s +:+ b] ++ [c]).
  rewrite app_assoc, str_concat_snoc by (destruct lines; [contradiction|discriminate]).
  rewrite str_concat_snoc by assumption.
  now rewrite !str_app_assoc.
Qed.

(** A slice [s[:n]] has at most [n] characters and is all of a short [s]. *)
Lemma slice_length (n : nat) (s : string) : String.length (substring 0 n s) ≤ n.
Proof.
  revert s. induction n as [|n IH]; intros [|x s]; simpl; try lia.
  specialize (IH s). lia.
Qed.

Lemma slice_short (n : nat) (s : string) : String.length s ≤ n → substring 0 n s = s.
Proof.
  revert s. induction n as [|n IH]; intros [|x s]; simpl; intros Hle;
    try reflexivity; try lia.
  rewrite IH by lia. reflexivity.
Qed.

(** Slicing twice is slicing once: the slice is a function of itself. *)
Lemma slice_idem (n : nat) (s : string) : substring 0 n (substring 0 n s) = substring 0 n s.
Proof. apply slice_short, slice_length. Qed.

End StringFacts.

Section ExtractionFacts.
Context `{PyRuntime}.
Import MeetingAnalysisService.

Lemma build_analysis_prompt_str (transcript : string) (meeting_info : dict) (w : World) :
  _build_analysis_prompt (PStr transcript) meeting_info w =
  (inr (service_prompt transcript meeting_info), w).
Proof.
  unfold _build_analysis_prompt, service_prompt, prompt_before, prompt_after.
  unfold mbind, Py_bind, lift, mret, Py_ret, py_slice_to, py_str.
  rewrite str_concat_hole by (unfold analysis_prompt_head; discriminate).
  reflexivity.
Qed.

Lemma analyze_transcript_unfold (transcript : string) (meeting_info : dict) (w : World) :
  let req := analysis_request (service_prompt transcript meeting_info) in
  analyze_transcript (PStr transcript) meeting_info w =
  match chat_endpoint w (length (chat_calls w)) req with
  | inl e => (inr (analysis_failed e), after_chat w req)
  | inr response =>
      match choices response with
      | [] => (inr (analysis_failed (Exn IndexError "list index out of range")),
               after_chat w req)
      | None :: _ =>
          (inr (analysis_failed
                  (Exn TypeError
                     "the JSON object must be str, bytes or bytearray, not NoneType")),
           after_chat w req)
      | Some text :: _ =>
          match parse_outcome text with
          | inl e => (inr (analysis_failed e), after_chat w req)
          | inr analysis_data =>
              (inr (analysed meeting_info analysis_data (clock w (clock_reads w)) response),
               set_clock_reads (after_chat w req) (S (clock_reads w)))
          end
      end
  end.
Proof.
  intros req. unfold analyze_transcript, try_except.
  unfold mbind at 1. unfold Py_bind at 1. rewrite build_analysis_prompt_str.
  unfold mbind at 1. unfold Py_bind at 1. unfold chat_completions_create at 1. fold req.
  destruct (chat_endpoint w (length (chat_calls w)) req) as [e|response]; [reflexivity|].
  unfold mbind at 1. unfold Py_bind at 1. unfold first_choice_content at 1.
  destruct (choices response) as [|[text|] rest]; [reflexivity| |reflexivity].
  unfold mret at 1. unfold Py_ret at 1.
  unfold mbind at 1. unfold Py_bind at 1.
  unfold try_except_cls, parse_json, parse_outcome.
  destruct (json_loads text) as [e|v]; [|reflexivity].
  unfold raise. destruct (decide (exn_cls e = JSONDecodeError)); reflexivity.
Qed.

Lemma service_prompt_embeds_at_most (meeting_info : dict) :
  embeds_at_most 12000 (fun t => service_prompt t meeting_info).
Proof. intros t1 t2 Heq. unfold service_prompt. now rewrite Heq. Qed.

(** The stand-alone prompt ends with the whole transcript and a newline. *)
Lemma standalone_prompt_whole (transcript : string) (meeting_info : dict) :
  analyze_transcript_fixed.build_analysis_prompt (PStr transcript) meeting_info =
  (String.concat nl (analyze_transcript_fixed.analysis_prompt_head meeting_info) +:+ nl) +:+
  transcript +:+ nl.
Proof.
  unfold analyze_transcript_fixed.build_analysis_prompt, py_str.
  pose proof (str_concat_hole nl (analyze_transcript_fixed.analysis_prompt_head meeting_info)
                EmptyString transcript EmptyString EmptyString) as Hhole.
  change (EmptyString +:+ transcript +:+ EmptyString) with (transcript +:+ EmptyString) in Hhole.
  rewrite str_app_empty_r in Hhole.
  rewrite Hhole by (unfold analyze_transcript_fixed.analysis_prompt_head; discriminate).
  change (EmptyString +:+ nl +:+ EmptyString) with nl.
  now rewrite str_app_empty_r.
Qed.


(** C4, as amended.  The request of [MeetingAnalysisService] is one request;
    its prompt is a text before, the first 12000 characters of the
    transcript, and a text after, the two texts not depending on the
    transcript.  The slice has at most 12000 characters and is the whole
    transcript when that is no longer.  The prompt of the stand-alone
    [analyze_transcript_fixed.py] has no budget: it carries the transcript
    whole. *)
Theorem transcript_budget (meeting_info : dict) :
  (∃ before after : string,
     ∀ (transcript : string) (w : World),
       ∃ (r : dict) (w' : World),
         analyze_transcript (PStr transcript) meeting_info w = (inr r, w') ∧
         chat_calls w' =
           chat_calls w ++
           [analysis_request (before +:+ substring 0 12000 transcript +:+ after)] ∧
         String.length (substring 0 12000 transcript) ≤ 12000 ∧
         (String.length transcript ≤ 12000 → substring 0 12000 transcript = transcript)) ∧
  embeds_at_most 12000 (fun t => service_prompt t meeting_info) ∧
  (∃ before : string,
     ∀ transcript : string,
       analyze_transcript_fixed.build_analysis_prompt (PStr transcript) meeting_info =
       before +:+ transcript +:+ nl).
Proof.
  split; [|split].
  - exists (prompt_before meeting_info), prompt_after. intros transcript w.
    rewrite analyze_transcript_unfold. cbv zeta. fold (service_prompt transcript meeting_info).
    assert (String.length (substring 0 12000 transcript) ≤ 12000) by apply slice_length.
    assert (String.length transcript ≤ 12000 → substring 0 12000 transcript = transcript)
      by apply slice_short.
    destruct (chat_endpoint w _ _) as [e|response].
    { eexists _, _. split; [reflexivity|]. split; [reflexivity|]. auto. }
    destruct (choices response) as [|[text|] rest];
      [| destruct (parse_outcome text) |];
      (eexists _, _; split; [reflexivity|]; split; [reflexivity|]; auto).
  - apply service_prompt_embeds_at_most.
  - eexists. intros transcript. apply standalone_prompt_whole.
Qed.

End ExtractionFacts.

Section PipelineFacts.
Context `{PyRuntime}.
Import TranscriptionService MeetingAnalysisService MeetingProcessor.

(** When the transcription stage succeeds, the result of the pipeline has
    the [errors] mapping: [transcription_error] is null, and
    [analysis_error] is null exactly when the analysis succeeded. *)
Lemma errors_mapping_after_transcription (file_path : string) (meeting_info : dict)
    (w : World) (r : dict) (w1 : World) :
  transcribe_meeting file_path meeting_info w = (inr r, w1) →
  r !! "success" = Some (PBool true) →
  ∃ (out : dict) (w2 : World) (b : bool) (analysis_error : pyval),
    process_meeting_file file_path meeting_info w = (inr out, w2) ∧
    out !! "success" = Some (PBool b) ∧
    out !! "errors" =
      Some (PDict {[ "transcription_error" := PNone; "analysis_error" := analysis_error ]}) ∧
    (analysis_error = PNone ↔ b = true).
Proof.
  intros Hrun Hok.
  unfold process_meeting_file.
  unfold mbind at 1. unfold Py_bind at 1. rewrite Hrun.
  unfold mbind at 1. unfold Py_bind at 1. unfold getitem at 1. rewrite Hok.
  unfold mret at 1. unfold Py_ret at 1. cbn [py_truthy negb].
  revert Hrun Hok. rewrite transcribe_meeting_unfold. cbv zeta.
  set (p := pathlib_str file_path).
  destruct (fs_exists w p); cbn [negb]; [|intros [= <- <-]; discriminate].
  destruct (fs_st_size w p) as [e|size]; [intros [= <- <-]; discriminate|].
  destruct (max_file_size <? size)%Z;
    [destruct (size_in_mb size); intros [= <- <-]; discriminate|].
  destruct (fs_open w p "rb"); [intros [= <- <-]; discriminate|].
  destruct (stt_endpoint w _ _) as [e|t]; [intros [= <- <-]; discriminate|].
  intros [= <- <-] _.
  unfold mbind at 1. unfold Py_bind at 1.
  change (getitem (transcribed meeting_info t (clock w (clock_reads w))) "transcript")
    with (mret (M:=Py) (PStr (t_text t))).
  unfold mret at 1. unfold Py_ret at 1.
  unfold mbind at 1. unfold Py_bind at 1.
  rewrite analyze_transcript_unfold. cbv zeta.
  match goal with |- context [chat_endpoint ?a ?b ?c] =>
    destruct (chat_endpoint a b c) as [e|response] end.
  { destruct (String.eqb (t_text t) EmptyString) eqn:Hempty;
      (eexists _, _, false, _; split;
       [unfold mbind, Py_bind, getitem, lift, mret, Py_ret, datetime_now; cbn [py_truthy];
        rewrite ?Hempty; reflexivity|];
       split; [reflexivity|]; split; [reflexivity|]; split; discriminate). }
  destruct (choices response) as [|[text|] rest].
  - destruct (String.eqb (t_text t) EmptyString) eqn:Hempty;
      (eexists _, _, false, _; split;
       [unfold mbind, Py_bind, getitem, lift, mret, Py_ret, datetime_now; cbn [py_truthy];
        rewrite ?Hempty; reflexivity|];
       split; [reflexivity|]; split; [reflexivity|]; split; discriminate).
  - destruct (parse_outcome text) as [e|analysis_data].
    + destruct (String.eqb (t_text t) EmptyString) eqn:Hempty;
        (eexists _, _, false, _; split;
         [unfold mbind, Py_bind, getitem, lift, mret, Py_ret, datetime_now; cbn [py_truthy];
          rewrite ?Hempty; reflexivity|];
         split; [reflexivity|]; split; [reflexivity|]; split; discriminate).
    + destruct (String.eqb (t_text t) EmptyString) eqn:Hempty;
        (eexists _, _, true, _; split;
         [unfold mbind, Py_bind, getitem, lift, mret, Py_ret, datetime_now; cbn [py_truthy];
          rewrite ?Hempty; reflexivity|];
         split; [reflexivity|]; split; [reflexivity|]; split; reflexivity).
  - destruct (String.eqb (t_text t) EmptyString) eqn:Hempty;
      (eexists _, _, false, _; split;
       [unfold mbind, Py_bind, getitem, lift, mret, Py_ret, datetime_now; cbn [py_truthy];
        rewrite ?Hempty; reflexivity|];
       split; [reflexivity|]; split; [reflexivity|]; split; discriminate).
Qed.

End PipelineFacts.

(** * Properties of the newsletter generator *)

Section NewsletterFacts.
Context `{PyRuntime}.
Import generate_newsletter.

Lemma request_section_run (system prompt label : string) (w : World) :
  request_section system prompt label w =
  (inr (section_outcome label
          (chat_endpoint w (length (chat_calls w)) (section_request system prompt))),
   after_chat w (section_request system prompt)).
Proof.
  unfold request_section, try_except, chat_completions_create, section_outcome,
    first_choice_content, after_chat.
  unfold mbind, Py_bind.
  destruct (chat_endpoint w _ _) as [e|response]; [reflexivity|].
  destruct (choices response) as [|[text|] rest]; reflexivity.
Qed.

(** ** The section loop *)

Lemma set_chat_calls_same (w : World) : set_chat_calls w (chat_calls w) = w.
Proof. now destruct w. Qed.

Lemma run_tasks_world (tasks : list SectionTask) (w : World) (sections : dict) :
  (run_tasks tasks w sections).2 =
  set_chat_calls w (chat_calls w ++ (task_request <$> tasks)).
Proof.
  revert w sections. induction tasks as [|t rest IH]; intros w sections.
  - cbn. now rewrite app_nil_r, set_chat_calls_same.
  - cbn [run_tasks]. rewrite IH. unfold after_chat. cbn.
    now rewrite <- app_assoc.
Qed.

Lemma run_tasks_other (tasks : list SectionTask) (w : World) (sections : dict)
    (key : string) :
  key ∉ task_key <$> tasks →
  (run_tasks tasks w sections).1 !! key = sections !! key.
Proof.
  revert w sections. induction tasks as [|t rest IH]; intros w sections Hnot.
  - reflexivity.
  - cbn [run_tasks]. rewrite fmap_cons in Hnot. apply not_elem_of_cons in Hnot as [Hne Hrest].
    rewrite IH by assumption. now apply lookup_insert_ne.
Qed.

(** Each section holds the outcome of its own request, the i-th of the run. *)
Lemma run_tasks_lookup (tasks : list SectionTask) (w : World) (sections : dict)
    (i : nat) (t : SectionTask) :
  NoDup (task_key <$> tasks) →
  tasks !! i = Some t →
  (run_tasks tasks w sections).1 !! task_key t =
  Some (section_outcome (task_label t)
          (chat_endpoint w (length (chat_calls w) + i) (task_request t))).
Proof.
  revert w sections i. induction tasks as [|t0 rest IH]; intros w sections i Hnodup Hi.
  - discriminate.
  - rewrite fmap_cons in Hnodup. apply NoDup_cons in Hnodup as [Hfresh Hnodup].
    cbn [run_tasks]. destruct i as [|i].
    + injection Hi as ->. rewrite run_tasks_other by assumption.
      rewrite lookup_insert_eq. now rewrite Nat.add_0_r.
    + cbn in Hi. rewrite (IH _ _ i Hnodup Hi). unfold after_chat. cbn.
      rewrite length_app. cbn. do 3 f_equal. lia.
Qed.


(** ** The saved file *)

Lemma write_section_shown (sections : dict) (written : string) (entry : string * string) :
  write_section sections written entry =
  if shown sections entry then written +:+ section_block sections entry else written.
Proof.
  destruct entry as [key title]. unfold write_section, shown, section_block, dict_get.
  cbn [fst snd]. destruct (sections !! key) as [text|]; cbn [default from_option id]; [|reflexivity].
  destruct (py_truthy text); [|reflexivity].
  now rewrite !str_app_assoc.
Qed.

(** The loop with its skips is the blocks of the shown entries, in order. *)
Lemma fold_write_section (sections : dict) (entries : list (string * string))
    (written : string) :
  fold_left (write_section sections) entries written =
  written +:+ str_join (section_block sections <$> List.filter (shown sections) entries).
Proof.
  revert written. induction entries as [|entry rest IH]; intros written.
  - cbn. now rewrite str_app_empty_r.
  - cbn [fold_left List.filter]. rewrite IH, write_section_shown.
    destruct (shown sections entry); [|reflexivity].
    rewrite fmap_cons. cbn [str_join foldr]. now rewrite str_app_assoc.
Qed.

Lemma save_newsletter_content_run (sections mi : dict) (w : World) (j : string) :
  dict_get mi "jurisdiction" (PStr "triangle") = PStr j →
  fs_open w (newsletter_name j (clock w (clock_reads w))) "w" = None →
  save_newsletter_content sections (PDict mi) w =
  (inr tt,
   after_save w (newsletter_name j (clock w (clock_reads w)))
     (newsletter_top mi +:+
      str_join (section_block sections <$> List.filter (shown sections) section_order) +:+
      newsletter_footer (clock w (S (clock_reads w))))).
Proof.
  intros Hj Hopen. unfold save_newsletter_content.
  unfold mbind, Py_bind, datetime_now, lift, as_dict. cbv beta iota zeta.
  rewrite Hj. cbn [py_lower].
  unfold open_. cbn [fs_open set_clock_reads].
  fold (newsletter_name j (clock w (clock_reads w))). rewrite Hopen.
  cbn [clock clock_reads set_clock_reads].
  rewrite fold_write_section.
  unfold file_store, after_save, newsletter_top, newsletter_footer.
  cbn [fs_written set_clock_reads].
  now rewrite !str_app_assoc.
Qed.

(** ** The whole generator *)

Lemma section_tasks_keys (analysis : pyval) (an mi : dict) (hl : list pyval) :
  NoDup (task_key <$> section_tasks analysis an mi hl).
Proof.
  unfold section_tasks.
  destruct (py_truthy (dict_get an "projects" PNone));
    destruct (py_truthy (dict_get an "key_people" PNone));
    cbn; apply (bool_decide_unpack _); vm_compute; exact I.
Qed.

(** A run on a readable analysis file with a meeting and an analysis that
    are dicts, highlights that can be iterated, an API key, a jurisdiction
    that is a string and a writable disk: the sections are those of the
    tasks, the requests are theirs, and the newsletter is saved. *)
Lemma generate_newsletter_content_run (analysis_file : string) (w : World)
    (data an mi : dict) (hl : list pyval) (j : string) :
  fs_open w analysis_file "r" = None →
  json_loads (fs_content w analysis_file) = inr (PDict data) →
  dict_get data "analysis" (PDict ∅) = PDict an →
  dict_get data "meeting_info" (PDict ∅) = PDict mi →
  missing (env_OPENAI_API_KEY w) = false →
  py_iter (dict_get an "newsletter_highlights" (PList [])) = inr hl →
  dict_get mi "jurisdiction" (PStr "triangle") = PStr j →
  (∀ p : string, fs_open w p "w" = None) →
  ∃ w' : World,
    generate_newsletter_content analysis_file w =
      (inr (Some (run_tasks (section_tasks (PDict an) an mi hl) w ∅).1), w') ∧
    chat_calls w' = chat_calls w ++ (task_request <$> section_tasks (PDict an) an mi hl).
Proof.
  intros Hopen Hload Han Hmi Hkey Hhl Hj Hdisk.
  pose proof (run_tasks_world (section_tasks (PDict an) an mi hl) w ∅) as Hworld.
  unfold generate_newsletter_content.
  unfold mbind at 1. unfold Py_bind at 1.
  unfold try_except_cls, open_, file_read. unfold mbind at 1 2. unfold Py_bind at 1 2.
  rewrite Hopen, Hload. unfold mret at 1. unfold Py_ret at 1. cbv beta iota zeta.
  unfold mbind at 1. unfold Py_bind at 1. unfold lift at 1. cbn [as_dict].
  rewrite Han, Hmi.
  unfold mbind at 1. unfold Py_bind at 1. unfold lift at 1. cbn [as_dict].
  unfold mbind at 1. unfold Py_bind at 1. unfold os_getenv_OPENAI_API_KEY at 1.
  rewrite Hkey.
  unfold mbind at 1. unfold Py_bind at 1. unfold lift at 1. cbn [as_dict].
  unfold generate_project_pipeline, generate_market_intelligence, generate_regulatory_watch,
    generate_people_politics, generate_executive_summary, display_newsletter_content.
  unfold mbind, Py_bind, lift, mret, Py_ret. cbn [as_dict]. cbv beta iota zeta.
  rewrite Hhl. revert Hworld. unfold section_tasks.
  destruct (py_truthy (dict_get an "projects" PNone));
    destruct (py_truthy (dict_get an "key_people" PNone));
    cbn [app run_tasks task_request task_key task_label fst snd fmap list_fmap];
    intros Hworld;
    rewrite !request_section_run;
    (erewrite save_newsletter_content_run; [|exact Hj|apply Hdisk]);
    (eexists; split; [reflexivity|]);
    unfold after_save; cbn [chat_calls set_fs_written set_clock_reads];
    rewrite Hworld; reflexivity.
Qed.

(** The keys of the attempted sections. *)
Lemma section_tasks_attempted (analysis : pyval) (an mi : dict) (hl : list pyval)
    (key : string) :
  key ∈ task_key <$> section_tasks analysis an mi hl ↔
  (key = "project_pipeline" ∧ py_truthy (dict_get an "projects" PNone) = true) ∨
  key = "market_intelligence" ∨
  key = "regulatory_watch" ∨
  (key = "people_politics" ∧ py_truthy (dict_get an "key_people" PNone) = true) ∨
  key = "executive_summary".
Proof.
  unfold section_tasks. rewrite list_elem_of_In.
  destruct (py_truthy (dict_get an "projects" PNone));
    destruct (py_truthy (dict_get an "key_people" PNone));
    cbn; intuition (try discriminate; auto).
Qed.



(** C7.  On such a run every attempted section is present, and its value is
    decided by the answer to its own request alone: when that request
    fails, the value is the error text of the section with the cause; when it
    succeeds with a text, the value is that text; whatever the other
    requests did.  The requests issued are those of the attempted sections,
    one each, in order. *)
Theorem section_failure_is_isolated (analysis_file : string) (w : World)
    (data an mi : dict) (highlights : list pyval) (j : string) :
  fs_open w analysis_file "r" = None →
  json_loads (fs_content w analysis_file) = inr (PDict data) →
  dict_get data "analysis" (PDict ∅) = PDict an →
  dict_get data "meeting_info" (PDict ∅) = PDict mi →
  missing (env_OPENAI_API_KEY w) = false →
  py_iter (dict_get an "newsletter_highlights" (PList [])) = inr highlights →
  dict_get mi "jurisdiction" (PStr "triangle") = PStr j →
  (∀ p : string, fs_open w p "w" = None) →
  ∃ (sections : dict) (w' : World),
    generate_newsletter_content analysis_file w = (inr (Some sections), w') ∧
    chat_calls w' =
      chat_calls w ++ (task_request <$> section_tasks (PDict an) an mi highlights) ∧
    ∀ (i : nat) (t : SectionTask),
      section_tasks (PDict an) an mi highlights !! i = Some t →
      is_Some (sections !! task_key t) ∧
      (∀ e : exn,
         chat_endpoint w (length (chat_calls w) + i) (task_request t) = inl e →
         sections !! task_key t =
           Some (PStr ("Error generating " +:+ task_label t +:+ " content: " +:+ exn_str e))) ∧
      (∀ (response : ChatCompletion) (text : string) (rest : list (option string)),
         chat_endpoint w (length (chat_calls w) + i) (task_request t) = inr response →
         choices response = Some text :: rest →
         sections !! task_key t = Some (PStr text)).
Proof.
  intros Hopen Hload Han Hmi Hkey Hiter Hj Hdisk.
  destruct (generate_newsletter_content_run analysis_file w data an mi highlights j
              Hopen Hload Han Hmi Hkey Hiter Hj Hdisk) as (w' & Hrun & Hcalls).
  eexists _, w'. split; [exact Hrun|]. split; [exact Hcalls|].
  intros i t Hi.
  pose proof (run_tasks_lookup _ w ∅ i t (section_tasks_keys _ _ _ _) Hi) as Hlookup.
  rewrite Hlookup. split; [eauto|]. split.
  - intros e He. now rewrite He.
  - intros response text rest Hanswer Hchoice. rewrite Hanswer. cbn. now rewrite Hchoice.
Qed.

(** C6, as amended.  The saved file is the title and the meeting heading,
    then one block for each entry of the fixed order executive_summary,
    project_pipeline, market_intelligence, regulatory_watch, people_politics
    that the mapping holds with a text that is not empty, then the
    generation line.  A block is the "## " heading of the section, its text
    and a rule.  An entry that is absent, or present with an empty text, has
    no block. *)
Theorem saved_newsletter_layout (sections mi : dict) (w : World) (j : string) :
  dict_get mi "jurisdiction" (PStr "triangle") = PStr j →
  fs_open w (newsletter_name j (clock w (clock_reads w))) "w" = None →
  ∃ (w' : World) (content : string),
    save_newsletter_content sections (PDict mi) w = (inr tt, w') ∧
    fs_written w' =
      fs_written w ++ [(newsletter_name j (clock w (clock_reads w)), content)] ∧
    content =
      newsletter_top mi +:+
      str_join (section_block sections <$> List.filter (shown sections) section_order) +:+
      ("*Generated by PermitRDU AI on " +:+
       strftime_long (clock w (S (clock_reads w))) +:+ "*" +:+ nl) ∧
    section_order.*1 =
      ["executive_summary"; "project_pipeline"; "market_intelligence";
       "regulatory_watch"; "people_politics"] ∧
    ∀ key title : string,
      (key, title) ∈ section_order →
      (shown sections (key, title) = true ↔
         ∃ text : pyval, sections !! key = Some text ∧ py_truthy text = true) ∧
      String.prefix "## " title = true ∧
      ∀ text : pyval,
        sections !! key = Some text →
        section_block sections (key, title) =
          title +:+ nl +:+ nl +:+ py_str text +:+ nl +:+ nl +:+ "---" +:+ nl +:+ nl.
Proof.
  intros Hj Hopen.
  eexists _, _. split; [apply save_newsletter_content_run; eassumption|].
  split; [reflexivity|]. split; [reflexivity|]. split; [reflexivity|].
  intros key title Hin. split; [|split].
  - unfold shown, dict_get. cbn [fst]. destruct (sections !! key) as [text|]; cbn.
    + split; [eauto|]. now intros (text' & [= <-] & Htruthy).
    + split; [discriminate|]. now intros (text' & Hnone & _).
  - apply list_elem_of_In in Hin. cbn in Hin.
    repeat destruct Hin as [[= <- <-]|Hin]; try reflexivity. contradiction.
  - intros text Htext. unfold section_block, dict_get. cbn [fst snd]. now rewrite Htext.
Qed.

End NewsletterFacts.

(** * Closed instances *)

Section Instances.
Import TranscriptionService MeetingAnalysisService MeetingProcessor generate_newsletter.

(** A 30,000,000-byte recording is refused with the size 28.6 MB, and the
    endpoint that would have answered is not called. *)
Lemma large_file_is_rejected_witness :
  ∃ (r : dict) (w' : World) (tenths : Z),
    transcribe_meeting (H:=sample_runtime) "meeting.mp3" sample_meeting_info
      (sample_world "meeting.mp3" 30000000 (inr sample_transcription) (chat_says "{}")) =
      (inr r, w') ∧
    stt_calls w' = [] ∧
    r !! "success" = Some (PBool false) ∧
    r !! "transcript" = Some PNone ∧
    r !! "error" =
      Some (PStr ("File too large (" +:+
                  (pretty (tenths / 10)%Z +:+ "." +:+ pretty (tenths mod 10)%Z) +:+
                  "MB). Maximum size is 25MB.")) ∧
    (Z.abs (tenths * 1048576 - 30000000 * 10) ≤ 524288)%Z ∧
    r !! "suggestion" =
      Some (PStr "Please use audio optimization tools to reduce file size or implement file chunking.").
Proof.
  destruct (large_file_is_rejected (H:=sample_runtime) "meeting.mp3" sample_meeting_info
              (sample_world "meeting.mp3" 30000000 (inr sample_transcription) (chat_says "{}"))
              30000000 eq_refl eq_refl eq_refl)
    as (r & w' & Hrun & Hcalls & Hok & Htranscript & Hmessage).
  destruct (Hmessage eq_refl) as (tenths & Herror & _ & _ & Hexact & Hsuggestion).
  exists r, w', tenths. split; [exact Hrun|]. split; [exact Hcalls|].
  split; [exact Hok|]. split; [exact Htranscript|]. split; [exact Herror|].
  split; [exact (Hexact eq_refl)|exact Hsuggestion].
Defined.

(** The text of the size: 30,000,000 bytes, one byte over the ceiling, two
    ties, a size above 2^53 that the float rounds down before the tenth is
    taken, and a size for which the division raises. *)
Example large_file_message :
  format_mb_1f 30000000 = inr "28.6" ∧ format_mb_1f 26214401 = inr "25.0" ∧
  fixed_1f 262144 = "0.2" ∧ fixed_1f 786432 = "0.8" ∧
  format_mb_1f 9007199255003137 = inr "8589934592.2" ∧
  format_mb_1f (2 ^ 1034) =
    inl (Exn OverflowError "integer division result too large for a float").
Proof. repeat split; vm_compute; reflexivity. Qed.

(** A 1000-byte recording whose request is refused with "Connection
    error.": a result, not an exception. *)
Lemma transcribe_meeting_never_raises_witness :
  ∃ (r : dict) (w' : World),
    transcribe_meeting (H:=sample_runtime) "meeting.mp3" sample_meeting_info
      (sample_world "meeting.mp3" 1000 (inl connection_error) (chat_says "{}")) = (inr r, w') ∧
    r !! "success" = Some (PBool false) ∧
    r !! "error" = Some (PStr "OpenAI Whisper error: Connection error.") ∧
    r !! "transcript" = Some PNone.
Proof.
  destruct (transcribe_meeting_never_raises (H:=sample_runtime) "meeting.mp3"
              sample_meeting_info
              (sample_world "meeting.mp3" 1000 (inl connection_error) (chat_says "{}")))
    as (r & w' & b & Hrun & _ & Hcases).
  exists r, w'. split; [exact Hrun|].
  destruct (Hcases 1000%Z eq_refl eq_refl ltac:(lia) eq_refl) as [Hfail _].
  exact (Hfail connection_error eq_refl).
Defined.

(** The transcript of a successful run is the text the endpoint returned. *)
Lemma enhancement_is_identity_witness :
  ∃ (r : dict) (w' : World),
    transcribe_meeting (H:=sample_runtime) "meeting.mp3" sample_meeting_info
      (sample_world "meeting.mp3" 1000 (inr sample_transcription) (chat_says "{}")) =
      (inr r, w') ∧
    r !! "success" = Some (PBool true) ∧
    r !! "transcript" =
      Some (PStr "The commission approved Oak Street Apartments nine to zero.") ∧
    r !! "enhanced_sections" = Some (PList []).
Proof.
  eexists _, _. split; [rewrite transcribe_meeting_unfold; reflexivity|].
  split; [reflexivity|].
  destruct (enhancement_is_identity (H:=sample_runtime) EmptyString sample_meeting_info
              (sample_world "meeting.mp3" 1000 (inr sample_transcription) (chat_says "{}")))
    as [_ Hdown].
  edestruct (Hdown "meeting.mp3") as (t & Ht & Htext & Hsections);
    [rewrite transcribe_meeting_unfold; reflexivity | reflexivity |].
  injection Ht as <-. split; [exact Htext | exact Hsections].
Defined.

(** A file that is not there: the pipeline returns the failure of the
    transcription and asks the chat endpoint nothing. *)
Lemma transcription_failure_short_circuits_witness :
  process_meeting_file (H:=sample_runtime) "missing.mp3" sample_meeting_info
    (sample_world "meeting.mp3" 1000 (inr sample_transcription) (chat_says "{}")) =
    (inr (file_not_found "missing.mp3"),
     sample_world "meeting.mp3" 1000 (inr sample_transcription) (chat_says "{}")) ∧
  chat_calls (sample_world "meeting.mp3" 1000 (inr sample_transcription) (chat_says "{}")) =
    chat_calls (sample_world "meeting.mp3" 1000 (inr sample_transcription) (chat_says "{}")) ∧
  (∃ msg : string, file_not_found "missing.mp3" !! "error" = Some (PStr msg)) ∧
  file_not_found "missing.mp3" !! "transcript" = Some PNone.
Proof.
  apply (transcription_failure_short_circuits (H:=sample_runtime) "missing.mp3"
           sample_meeting_info
           (sample_world "meeting.mp3" 1000 (inr sample_transcription) (chat_says "{}"))).
  - reflexivity.
  - reflexivity.
Defined.

(** C9, at the failing input.  For a path with no file, the result of
    [process_meeting_file] is the three-entry failure of the transcription
    stage: it has a top-level [error] and no [errors] mapping, so there is
    no [transcription_error] entry to read. *)
Theorem missing_file_result_has_no_errors_mapping :
  ∃ (r : dict) (w' : World),
    process_meeting_file (H:=sample_runtime) "missing.mp3" sample_meeting_info
      (sample_world "meeting.mp3" 1000 (inr sample_transcription) (chat_says "{}")) =
      (inr r, w') ∧
    r = {[ "success" := PBool false;
           "error" := PStr "File not found: missing.mp3";
           "transcript" := PNone ]} ∧
    r !! "success" = Some (PBool false) ∧
    r !! "errors" = None.
Proof. eexists _, _. split; [reflexivity|]. repeat split. Qed.


(** C4, the claim refuted on the stand-alone prompt builder.  The prompt of
    [analyze_transcript_fixed.py] for a transcript of 12001 characters
    contains the transcript whole, and changing the 12001st character
    changes the prompt: it does not embed at most the first 12000
    characters. *)
Lemma standalone_prompt_exceeds_budget :
  String.length long_transcript = 12001 ∧
  str_contains long_transcript
    (analyze_transcript_fixed.build_analysis_prompt (H:=sample_runtime)
       (PStr long_transcript) sample_meeting_info) = true ∧
  ¬ embeds_at_most 12000
      (fun t => analyze_transcript_fixed.build_analysis_prompt (H:=sample_runtime)
                  (PStr t) sample_meeting_info).
Proof.
  split; [vm_compute; reflexivity|]. split; [vm_compute; reflexivity|].
  intros Hclaim.
  specialize (Hclaim long_transcript long_transcript' ltac:(vm_compute; reflexivity)).
  cbv beta in Hclaim. rewrite !standalone_prompt_whole in Hclaim.
  apply String.app_inj in Hclaim.
  apply (f_equal (String.get 12000)) in Hclaim.
  vm_compute in Hclaim. discriminate Hclaim.
Qed.


(** The same run with the second request, that of market intelligence,
    refused: its section is the error text, the other three are generated. *)
Lemma section_failure_is_isolated_witness :
  ∃ (sections : dict) (w' : World),
    generate_newsletter_content (H:=sample_runtime) "analysis_raleigh.json"
      (sample_world "analysis_raleigh.json" 2048 (inr sample_transcription)
         (chat_fails_at 1 "Section text.")) = (inr (Some sections), w') ∧
    sections !! "market_intelligence" =
      Some (PStr "Error generating market intelligence content: Connection error.") ∧
    sections !! "project_pipeline" = Some (PStr "Section text.") ∧
    sections !! "regulatory_watch" = Some (PStr "Section text.") ∧
    sections !! "executive_summary" = Some (PStr "Section text.").
Proof.
  destruct (section_failure_is_isolated (H:=sample_runtime) "analysis_raleigh.json"
              (sample_world "analysis_raleigh.json" 2048 (inr sample_transcription)
                 (chat_fails_at 1 "Section text."))
              {[ "meeting_info" := PDict sample_meeting_info;
                 "analysis" := PDict sample_analysis ]}
              sample_analysis sample_meeting_info sample_highlights "Raleigh"
              eq_refl eq_refl eq_refl eq_refl eq_refl eq_refl eq_refl (fun p => eq_refl))
    as (sections & w' & Hrun & _ & Hall).
  exists sections, w'. split; [exact Hrun|].
  destruct (Hall 0 _ eq_refl) as (_ & _ & Hpipeline).
  destruct (Hall 1 _ eq_refl) as (_ & Hmarket & _).
  destruct (Hall 2 _ eq_refl) as (_ & _ & Hregulatory).
  destruct (Hall 3 _ eq_refl) as (_ & _ & Hsummary).
  split; [exact (Hmarket connection_error eq_refl)|].
  split; [exact (Hpipeline _ "Section text." [] eq_refl eq_refl)|].
  split; [exact (Hregulatory _ "Section text." [] eq_refl eq_refl)|].
  exact (Hsummary _ "Section text." [] eq_refl eq_refl).
Defined.

(** Saving the mapping of the scenario. *)
Lemma saved_newsletter_layout_witness :
  ∃ (w' : World) (content : string),
    save_newsletter_content (H:=sample_runtime) sections_with_empty_summary
      (PDict sample_meeting_info)
      (sample_world "analysis_raleigh.json" 2048 (inr sample_transcription)
         (chat_says "Section text.")) = (inr tt, w') ∧
    fs_written w' = [("newsletter_raleigh_20250812_145741.md", content)] ∧
    String.prefix "# Triangle Development Digest" content = true.
Proof.
  destruct (saved_newsletter_layout (H:=sample_runtime) sections_with_empty_summary
              sample_meeting_info
              (sample_world "analysis_raleigh.json" 2048 (inr sample_transcription)
                 (chat_says "Section text."))
              "Raleigh" eq_refl eq_refl)
    as (w' & content & Hrun & Hfile & Hcontent & _).
  exists w', content. split; [exact Hrun|]. split; [exact Hfile|].
  rewrite Hcontent. reflexivity.
Defined.

(** C6, the claim refuted.  A mapping that has [executive_summary] with an
    empty text is saved without a heading for it: the section is present in
    the mapping and yet has no block in the file, while the section with a
    text has one. *)
Lemma empty_section_is_skipped :
  sections_with_empty_summary !! "executive_summary" = Some (PStr EmptyString) ∧
  ∃ content : string,
    save_newsletter_content (H:=sample_runtime) sections_with_empty_summary
      (PDict sample_meeting_info)
      (sample_world "analysis_raleigh.json" 2048 (inr sample_transcription)
         (chat_says "Section text.")) =
    (inr tt,
     after_save
       (sample_world "analysis_raleigh.json" 2048 (inr sample_transcription)
          (chat_says "Section text."))
       "newsletter_raleigh_20250812_145741.md" content) ∧
    str_contains "## Executive Summary" content = false ∧
    str_contains "## Market Intelligence" content = true.
Proof.
  split; [reflexivity|].
  eexists. split.
  - rewrite (save_newsletter_content_run (H:=sample_runtime) sections_with_empty_summary
               sample_meeting_info
               (sample_world "analysis_raleigh.json" 2048 (inr sample_transcription)
                  (chat_says "Section text."))
               "Raleigh" eq_refl eq_refl).
    reflexivity.
  - split; vm_compute; reflexivity.
Qed.

End Instances.

(** * Further properties of the transcription stage *)

Section TranscriptionEdges.
Context `{PyRuntime}.
Import TranscriptionService.

(** X1.  A path with no file is reported as such, and nothing else happens:
    no [stat], no request, the world is as before. *)
Theorem missing_file_is_reported (file_path : string) (meeting_info : dict) (w : World) :
  fs_exists w (pathlib_str file_path) = false →
  transcribe_meeting file_path meeting_info w =
  (inr {[ "success" := PBool false;
          "error" := PStr ("File not found: " +:+ pathlib_str file_path);
          "transcript" := PNone ]}, w).
Proof.
  intros Hmissing. rewrite transcribe_meeting_unfold. cbv zeta. now rewrite Hmissing.
Qed.

(** X2.  The ceiling is inclusive: a file of at most 26,214,400 bytes, so
    also one of exactly 25 MiB, that can be opened is sent, in one request
    for model whisper-1 in the verbose format, and the result is never the
    too-large refusal. *)
Theorem file_at_ceiling_is_sent (file_path : string) (meeting_info : dict) (w : World)
    (size : Z) :
  fs_exists w (pathlib_str file_path) = true →
  fs_st_size w (pathlib_str file_path) = inr size →
  (size ≤ 26214400)%Z →
  fs_open w (pathlib_str file_path) "rb" = None →
  ∃ (r : dict) (w' : World) (request : SttRequest),
    transcribe_meeting file_path meeting_info w = (inr r, w') ∧
    stt_calls w' = stt_calls w ++ [request] ∧
    stt_file request = pathlib_str file_path ∧
    stt_model request = "whisper-1" ∧
    stt_response_format request = "verbose_json" ∧
    r !! "suggestion" = None.
Proof.
  intros Hex Hsize Hle Hopen. rewrite transcribe_meeting_unfold. cbv zeta.
  rewrite Hex, Hsize, Hopen. cbn [negb].
  replace (max_file_size <? size)%Z with false
    by (symmetry; apply Z.ltb_ge; unfold max_file_size; lia).
  destruct (stt_endpoint w _ _) as [e|t];
    eexists _, _, (whisper_request (pathlib_str file_path)); repeat split; reflexivity.
Qed.

(** X3.  Whatever the input, a run of [transcribe_meeting] sends at most one
    request to the speech-to-text endpoint, for the file it was given, and
    none to the chat endpoint; it writes no file. *)
Theorem transcribe_meeting_footprint (file_path : string) (meeting_info : dict) (w : World) :
  let w' := (transcribe_meeting file_path meeting_info w).2 in
  (stt_calls w' = stt_calls w ∨
   stt_calls w' = stt_calls w ++ [whisper_request (pathlib_str file_path)]) ∧
  chat_calls w' = chat_calls w ∧
  fs_written w' = fs_written w.
Proof.
  cbv zeta. rewrite transcribe_meeting_unfold. cbv zeta.
  destruct (fs_exists w _); cbn [negb]; [|auto].
  destruct (fs_st_size w _) as [e|size]; [auto|].
  destruct (max_file_size <? size)%Z; [destruct (size_in_mb size); auto|].
  destruct (fs_open w _ "rb"); [auto|].
  destruct (stt_endpoint w _ _) as [e|t]; cbn; auto.
Qed.

(** X4.  A file that exists but cannot be examined or opened is reported
    without a request: a failing [stat] by the outer handler, under
    "Transcription failed", a failing [open] by the handler of the
    transcription itself, under "OpenAI Whisper error". *)
Theorem unreadable_file_is_reported (file_path : string) (meeting_info : dict) (w : World) :
  fs_exists w (pathlib_str file_path) = true →
  (∀ e : exn,
     fs_st_size w (pathlib_str file_path) = inl e →
     transcribe_meeting file_path meeting_info w =
     (inr {[ "success" := PBool false;
             "error" := PStr ("Transcription failed: " +:+ exn_str e);
             "transcript" := PNone ]}, w)) ∧
  (∀ (size : Z) (e : exn),
     fs_st_size w (pathlib_str file_path) = inr size →
     (size ≤ 26214400)%Z →
     fs_open w (pathlib_str file_path) "rb" = Some e →
     transcribe_meeting file_path meeting_info w =
     (inr {[ "success" := PBool false;
             "error" := PStr ("OpenAI Whisper error: " +:+ exn_str e);
             "transcript" := PNone ]}, w)).
Proof.
  intros Hex. split.
  - intros e Hstat. rewrite transcribe_meeting_unfold. cbv zeta. now rewrite Hex, Hstat.
  - intros size e Hstat Hle Hopen. rewrite transcribe_meeting_unfold. cbv zeta.
    rewrite Hex, Hstat, Hopen. cbn [negb].
    replace (max_file_size <? size)%Z with false
      by (symmetry; apply Z.ltb_ge; unfold max_file_size; lia).
    reflexivity.
Qed.

(** X5.  What a successful result carries besides the transcript: the
    duration, language and segments of the answer (null, null and the empty
    list when the answer lacks them), the estimate 0.006 times the duration
    (0.0 without a duration), the meeting as given and the time of the one
    clock reading of the run. *)
Theorem transcription_result_fields (file_path : string) (meeting_info : dict) (w : World)
    (size : Z) (t : Transcription) :
  fs_exists w (pathlib_str file_path) = true →
  fs_st_size w (pathlib_str file_path) = inr size →
  (size ≤ 26214400)%Z →
  fs_open w (pathlib_str file_path) "rb" = None →
  stt_endpoint w (length (stt_calls w)) (whisper_request (pathlib_str file_path)) = inr t →
  ∃ (r : dict) (w' : World),
    transcribe_meeting file_path meeting_info w = (inr r, w') ∧
    r !! "duration" = Some (match t_duration t with Some d => PFloat d | None => PNone end) ∧
    r !! "cost_estimate" =
      Some (PFloat (match t_duration t with Some d => d * 0.006 | None => 0.0 end)) ∧
    r !! "language" = Some (match t_language t with Some l => PStr l | None => PNone end) ∧
    r !! "segments" = Some (PList (default [] (t_segments t))) ∧
    r !! "meeting_info" = Some (PDict meeting_info) ∧
    r !! "processed_at" = Some (PStr (isoformat (clock w (clock_reads w)))) ∧
    clock_reads w' = S (clock_reads w).
Proof.
  intros Hex Hsize Hle Hopen Hanswer. rewrite transcribe_meeting_unfold. cbv zeta.
  rewrite Hex, Hsize, Hopen, Hanswer. cbn [negb].
  replace (max_file_size <? size)%Z with false
    by (symmetry; apply Z.ltb_ge; unfold max_file_size; lia).
  eexists _, _. split; [reflexivity|].
  destruct t as [text [d|] [l|] segments]; repeat split; reflexivity.
Qed.

(** X6.  The enhancement step returns on every value, not only on strings:
    the text is the value it was given, the sections are empty, the world is
    untouched; the result has an [error] entry exactly when the value
    cannot be sliced. *)
Theorem enhancement_never_raises (raw_transcript : pyval) (meeting_info : dict) (w : World) :
  ∃ r : dict,
    _enhance_transcript raw_transcript meeting_info w = (inr r, w) ∧
    r !! "text" = Some raw_transcript ∧
    r !! "sections" = Some (PList []) ∧
    (is_Some (r !! "error") ↔ ∃ e : exn, py_slice_to 8000 raw_transcript = inl e).
Proof.
  unfold _enhance_transcript, try_except, mbind, Py_bind, lift, mret, Py_ret.
  destruct (py_slice_to 8000 raw_transcript) as [e|sliced] eqn:Hslice.
  - eexists. split; [reflexivity|]. repeat split; try reflexivity; eauto.
  - eexists. split; [reflexivity|]. split; [reflexivity|]. split; [reflexivity|].
    split.
    + intros [x Hx]. discriminate Hx.
    + intros [e He]. discriminate He.
Qed.

End TranscriptionEdges.

(** * Further properties of the extraction stage *)

Section ExtractionEdges.
Context `{PyRuntime}.
Import MeetingAnalysisService.

(** What [analyze_transcript] does on any value, path by path. *)
Lemma analyze_transcript_cases (transcript : pyval) (meeting_info : dict) (w : World) :
  analyze_transcript transcript meeting_info w =
  match py_slice_to 12000 transcript with
  | inl e => (inr (analysis_failed e), w)
  | inr sliced =>
      let req := analysis_request (prompt_around sliced meeting_info) in
      match chat_endpoint w (length (chat_calls w)) req with
      | inl e => (inr (analysis_failed e), after_chat w req)
      | inr response =>
          match choices response with
          | [] => (inr (analysis_failed (Exn IndexError "list index out of range")),
                   after_chat w req)
          | None :: _ =>
              (inr (analysis_failed
                      (Exn TypeError
                         "the JSON object must be str, bytes or bytearray, not NoneType")),
               after_chat w req)
          | Some text :: _ =>
              match parse_outcome text with
              | inl e => (inr (analysis_failed e), after_chat w req)
              | inr analysis_data =>
                  (inr (analysed meeting_info analysis_data (clock w (clock_reads w))
                          response),
                   set_clock_reads (after_chat w req) (S (clock_reads w)))
              end
          end
      end
  end.
Proof.
  unfold analyze_transcript, try_except, _build_analysis_prompt.
  unfold mbind at 1 2. unfold Py_bind at 1 2. unfold lift at 1.
  destruct (py_slice_to 12000 transcript) as [e|sliced]; [reflexivity|].
  unfold mret at 1. unfold Py_ret at 1. fold (prompt_around sliced meeting_info). cbv zeta.
  unfold mbind at 1. unfold Py_bind at 1. unfold chat_completions_create at 1.
  destruct (chat_endpoint w _ _) as [e|response]; [reflexivity|].
  unfold mbind at 1. unfold Py_bind at 1. unfold first_choice_content at 1.
  destruct (choices response) as [|[text|] rest]; [reflexivity| |reflexivity].
  unfold mret at 1. unfold Py_ret at 1.
  unfold mbind at 1. unfold Py_bind at 1.
  unfold try_except_cls, parse_json, parse_outcome.
  destruct (json_loads text) as [e|v]; [|reflexivity].
  unfold raise. destruct (decide (exn_cls e = JSONDecodeError)); reflexivity.
Qed.

(** X7.  [analyze_transcript] returns on every input, whatever the
    transcript is and whatever the endpoint does: the result has a boolean
    success flag; with success false it has an error text that starts with
    "Analysis failed: " and a null analysis, with success true it has an
    analysis and no error.  At most one request is sent. *)
Theorem analyze_transcript_never_raises (transcript : pyval) (meeting_info : dict)
    (w : World) :
  ∃ (r : dict) (w' : World) (b : bool),
    analyze_transcript transcript meeting_info w = (inr r, w') ∧
    r !! "success" = Some (PBool b) ∧
    (b = false →
       (∃ cause : string, r !! "error" = Some (PStr ("Analysis failed: " +:+ cause))) ∧
       r !! "analysis" = Some PNone) ∧
    (b = true → r !! "error" = None ∧ is_Some (r !! "analysis")) ∧
    (chat_calls w' = chat_calls w ∨
     ∃ req : ChatRequest, chat_calls w' = chat_calls w ++ [req]).
Proof.
  rewrite analyze_transcript_cases.
  destruct (py_slice_to 12000 transcript) as [e|sliced].
  { eexists _, _, false. split; [reflexivity|]. split; [reflexivity|].
    split; [intros _; split; [eexists|]; reflexivity|]. split; [discriminate|]. now left. }
  cbv zeta. destruct (chat_endpoint w _ _) as [e|response].
  { eexists _, _, false. split; [reflexivity|]. split; [reflexivity|].
    split; [intros _; split; [eexists|]; reflexivity|]. split; [discriminate|].
    right. eexists. reflexivity. }
  destruct (choices response) as [|[text|] rest].
  - eexists _, _, false. split; [reflexivity|]. split; [reflexivity|].
    split; [intros _; split; [eexists|]; reflexivity|]. split; [discriminate|].
    right. eexists. reflexivity.
  - destruct (parse_outcome text) as [e|analysis_data].
    + eexists _, _, false. split; [reflexivity|]. split; [reflexivity|].
      split; [intros _; split; [eexists|]; reflexivity|]. split; [discriminate|].
      right. eexists. reflexivity.
    + eexists _, _, true. split; [reflexivity|]. split; [reflexivity|].
      split; [discriminate|]. split; [intros _; split; [reflexivity|eexists; reflexivity]|].
      right. eexists. reflexivity.
  - eexists _, _, false. split; [reflexivity|]. split; [reflexivity|].
    split; [intros _; split; [eexists|]; reflexivity|]. split; [discriminate|].
    right. eexists. reflexivity.
Qed.

(** X8.  A transcript that cannot be sliced (a null, a number) makes the
    analysis fail before any request: the error text carries the cause and
    the world, the log of the chat endpoint with it, is as before. *)
Theorem unsliceable_transcript_fails_early (transcript : pyval) (meeting_info : dict)
    (w : World) (e : exn) :
  py_slice_to 12000 transcript = inl e →
  analyze_transcript transcript meeting_info w =
  (inr {[ "success" := PBool false;
          "error" := PStr ("Analysis failed: " +:+ exn_str e);
          "analysis" := PNone ]}, w).
Proof. intros Hslice. rewrite analyze_transcript_cases. now rewrite Hslice. Qed.

(** X9.  A failing endpoint call is reported, not raised: success false,
    "Analysis failed: " and the cause, a null analysis.  The request is in
    the log and the clock has not been read. *)
Theorem analysis_endpoint_failure (transcript : string) (meeting_info : dict) (w : World)
    (e : exn) :
  chat_endpoint w (length (chat_calls w))
    (analysis_request (service_prompt transcript meeting_info)) = inl e →
  ∃ w' : World,
    analyze_transcript (PStr transcript) meeting_info w =
    (inr {[ "success" := PBool false;
            "error" := PStr ("Analysis failed: " +:+ exn_str e);
            "analysis" := PNone ]}, w') ∧
    chat_calls w' =
      chat_calls w ++ [analysis_request (service_prompt transcript meeting_info)] ∧
    clock_reads w' = clock_reads w.
Proof.
  intros Hanswer. rewrite analyze_transcript_unfold. cbv zeta. rewrite Hanswer.
  eexists. split; [reflexivity|]. split; reflexivity.
Qed.

(** X10.  An answer without usable text counts as a failure of the call: a
    response with no choice gives "Analysis failed: list index out of range",
    and a first choice whose content is null (so that [json.loads] is handed
    no string) gives an "Analysis failed: " text as well; in both the
    analysis is null and success is false. *)
Theorem degenerate_response_fails (transcript : string) (meeting_info : dict) (w : World)
    (response : ChatCompletion) :
  chat_endpoint w (length (chat_calls w))
    (analysis_request (service_prompt transcript meeting_info)) = inr response →
  (choices response = [] →
   ∃ w' : World,
     analyze_transcript (PStr transcript) meeting_info w =
     (inr {[ "success" := PBool false;
             "error" := PStr "Analysis failed: list index out of range";
             "analysis" := PNone ]}, w')) ∧
  (∀ rest : list (option string),
     choices response = None :: rest →
     ∃ (r : dict) (w' : World) (cause : string),
       analyze_transcript (PStr transcript) meeting_info w = (inr r, w') ∧
       r !! "success" = Some (PBool false) ∧
       r !! "error" = Some (PStr ("Analysis failed: " +:+ cause)) ∧
       r !! "analysis" = Some PNone).
Proof.
  intros Hanswer. split.
  - intros Hnone. rewrite analyze_transcript_unfold. cbv zeta. rewrite Hanswer, Hnone.
    eexists. reflexivity.
  - intros rest Hnull. rewrite analyze_transcript_unfold. cbv zeta. rewrite Hanswer, Hnull.
    eexists _, _, _. split; [reflexivity|]. repeat split; reflexivity.
Qed.

End ExtractionEdges.

(** * Further properties of the pipeline *)

Section PipelineEdges.
Context `{PyRuntime}.
Import TranscriptionService MeetingAnalysisService MeetingProcessor.

Lemma process_meeting_file_failure (file_path : string) (meeting_info : dict) (w : World)
    (r : dict) (w' : World) :
  transcribe_meeting file_path meeting_info w = (inr r, w') →
  r !! "success" = Some (PBool false) →
  process_meeting_file file_path meeting_info w = (inr r, w').
Proof.
  intros Hrun Hfail. unfold process_meeting_file.
  unfold mbind at 1. unfold Py_bind at 1. rewrite Hrun.
  unfold mbind at 1. unfold Py_bind at 1. unfold getitem at 1. now rewrite Hfail.
Qed.

Lemma truthy_length (text : string) :
  (if py_truthy (PStr text) then py_len (PStr text) else inr 0%Z) =
  inr (Z.of_nat (String.length text)).
Proof. destruct text; reflexivity. Qed.

(** The pipeline after a transcription that succeeded with [t], given what
    the analysis of its text returned. *)
Lemma process_meeting_file_success (file_path : string) (meeting_info : dict) (w : World)
    (t : Transcription) (w1 : World) (a : dict) (a_ok : pyval) (w2 : World) :
  transcribe_meeting file_path meeting_info w =
    (inr (transcribed meeting_info t (clock w (clock_reads w))), w1) →
  analyze_transcript (PStr (t_text t)) meeting_info w1 = (inr a, w2) →
  a !! "success" = Some a_ok →
  process_meeting_file file_path meeting_info w =
  (inr (combined_result meeting_info t a a_ok (clock w2 (clock_reads w2))),
   set_clock_reads w2 (S (clock_reads w2))).
Proof.
  intros Hrun Hanalysis Hok. unfold process_meeting_file.
  unfold mbind at 1. unfold Py_bind at 1. rewrite Hrun.
  unfold mbind at 1. unfold Py_bind at 1.
  change (getitem (transcribed meeting_info t (clock w (clock_reads w))) "success")
    with (mret (M:=Py) (PBool true)).
  unfold mret at 1. unfold Py_ret at 1. cbn [py_truthy negb].
  unfold mbind at 1. unfold Py_bind at 1.
  change (getitem (transcribed meeting_info t (clock w (clock_reads w))) "transcript")
    with (mret (M:=Py) (PStr (t_text t))).
  unfold mret at 1. unfold Py_ret at 1.
  unfold mbind at 1. unfold Py_bind at 1. rewrite Hanalysis.
  unfold mbind at 1. unfold Py_bind at 1. unfold getitem at 1. rewrite Hok.
  unfold mret at 1. unfold Py_ret at 1.
  unfold mbind at 1. unfold Py_bind at 1.
  assert ((if py_truthy (PStr (t_text t)) then lift (py_len (PStr (t_text t))) else mret 0%Z) w2
          = (inr (Z.of_nat (String.length (t_text t))), w2)) as ->.
  { pose proof (truthy_length (t_text t)) as Hlen.
    destruct (py_truthy (PStr (t_text t))); unfold lift, mret, Py_ret; now rewrite <- Hlen. }
  unfold mbind, Py_bind, datetime_now, mret, Py_ret.
  unfold combined_result, cost_of, transcribed.
  destruct t as [text [d|] lang seg]; reflexivity.
Qed.

(** The successful path of the transcription, as one equation. *)
Lemma transcribe_meeting_success (file_path : string) (meeting_info : dict) (w : World)
    (size : Z) (t : Transcription) :
  fs_exists w (pathlib_str file_path) = true →
  fs_st_size w (pathlib_str file_path) = inr size →
  (size ≤ 26214400)%Z →
  fs_open w (pathlib_str file_path) "rb" = None →
  stt_endpoint w (length (stt_calls w)) (whisper_request (pathlib_str file_path)) = inr t →
  transcribe_meeting file_path meeting_info w =
  (inr (transcribed meeting_info t (clock w (clock_reads w))),
   set_clock_reads (after_stt w (pathlib_str file_path)) (S (clock_reads w))).
Proof.
  intros Hex Hsize Hle Hopen Hanswer. rewrite transcribe_meeting_unfold. cbv zeta.
  rewrite Hex, Hsize, Hopen, Hanswer. cbn [negb].
  now replace (max_file_size <? size)%Z with false
    by (symmetry; apply Z.ltb_ge; unfold max_file_size; lia).
Qed.

(** X11.  [process_meeting_file] has no handler of its own and still never
    raises: on every input it returns a result with a boolean success flag.
    A run sends at most one request to each endpoint and writes no file. *)
Theorem process_meeting_file_never_raises (file_path : string) (meeting_info : dict)
    (w : World) :
  ∃ (r : dict) (w' : World) (b : bool),
    process_meeting_file file_path meeting_info w = (inr r, w') ∧
    r !! "success" = Some (PBool b) ∧
    length (stt_calls w') ≤ length (stt_calls w) + 1 ∧
    length (chat_calls w') ≤ length (chat_calls w) + 1 ∧
    fs_written w' = fs_written w.
Proof.
  pose proof (transcribe_meeting_unfold file_path meeting_info w) as Hrun. cbv zeta in Hrun.
  set (p := pathlib_str file_path) in *.
  destruct (fs_exists w p); cbn [negb] in Hrun.
  2:{ eexists _, _, false. split; [now apply (process_meeting_file_failure _ _ _ _ _ Hrun)|].
      cbn. repeat split; try reflexivity; lia. }
  destruct (fs_st_size w p) as [e|size].
  { eexists _, _, false. split; [now apply (process_meeting_file_failure _ _ _ _ _ Hrun)|].
    cbn. repeat split; try reflexivity; lia. }
  destruct (max_file_size <? size)%Z.
  { destruct (size_in_mb size);
      (eexists _, _, false;
       split; [now apply (process_meeting_file_failure _ _ _ _ _ Hrun)|];
       cbn; repeat split; try reflexivity; lia). }
  destruct (fs_open w p "rb").
  { eexists _, _, false. split; [now apply (process_meeting_file_failure _ _ _ _ _ Hrun)|].
    cbn. repeat split; try reflexivity; lia. }
  destruct (stt_endpoint w _ _) as [e|t].
  { eexists _, _, false. split; [now apply (process_meeting_file_failure _ _ _ _ _ Hrun)|].
    cbn. rewrite length_app. cbn. repeat split; try reflexivity; lia. }
  pose proof (analyze_transcript_unfold (t_text t) meeting_info
                (set_clock_reads (after_stt w p) (S (clock_reads w)))) as Han.
  cbv zeta in Han.
  destruct (chat_endpoint _ _ _) as [e|response].
  { eexists _, _, false.
    split; [exact (process_meeting_file_success _ _ _ _ _ _ _ _ Hrun Han eq_refl)|].
    cbn. rewrite !length_app. cbn. repeat split; try reflexivity; lia. }
  destruct (choices response) as [|[text|] rest].
  - eexists _, _, false.
    split; [exact (process_meeting_file_success _ _ _ _ _ _ _ _ Hrun Han eq_refl)|].
    cbn. rewrite !length_app. cbn. repeat split; try reflexivity; lia.
  - destruct (parse_outcome text) as [e|analysis_data].
    + eexists _, _, false.
      split; [exact (process_meeting_file_success _ _ _ _ _ _ _ _ Hrun Han eq_refl)|].
      cbn. rewrite !length_app. cbn. repeat split; try reflexivity; lia.
    + eexists _, _, true.
      split; [exact (process_meeting_file_success _ _ _ _ _ _ _ _ Hrun Han eq_refl)|].
      cbn. rewrite !length_app. cbn. repeat split; try reflexivity; lia.
  - eexists _, _, false.
    split; [exact (process_meeting_file_success _ _ _ _ _ _ _ _ Hrun Han eq_refl)|].
    cbn. rewrite !length_app. cbn. repeat split; try reflexivity; lia.
Qed.

(** When [json.loads] returns or raises [JSONDecodeError], the parse
    attempt leaves the value, or the text under [raw_analysis]. *)
Lemma parse_outcome_decoded (text : string) :
  (∀ e : exn, json_loads text = inl e → exn_cls e = JSONDecodeError) →
  parse_outcome text =
  inr (match json_loads text with
       | inr v => v
       | inl _ => PDict {[ "raw_analysis" := PStr text ]}
       end).
Proof.
  intros Hdecode. unfold parse_outcome.
  destruct (json_loads text) as [e|v]; [|reflexivity].
  destruct (decide (exn_cls e = JSONDecodeError)) as [_|Hother]; [reflexivity|].
  now specialize (Hdecode e eq_refl).
Qed.

(** X12.  A run in which both endpoints answer, with a text on which
    [json.loads] returns or raises [JSONDecodeError].  The result has success
    true, the text of the speech-to-text answer as transcript and its
    number of characters as length, the parsed answer of the chat endpoint
    (or its raw text) as analysis, the estimate and the token count in the
    summary, and both error entries null.  The one chat request carries the
    prompt built from the transcribed text, and it follows the one
    speech-to-text request. *)
Theorem pipeline_success (file_path : string) (meeting_info : dict) (w : World) (size : Z)
    (t : Transcription) (response : ChatCompletion) (text : string)
    (rest : list (option string)) :
  fs_exists w (pathlib_str file_path) = true →
  fs_st_size w (pathlib_str file_path) = inr size →
  (size ≤ 26214400)%Z →
  fs_open w (pathlib_str file_path) "rb" = None →
  stt_endpoint w (length (stt_calls w)) (whisper_request (pathlib_str file_path)) = inr t →
  chat_endpoint w (length (chat_calls w))
    (analysis_request (service_prompt (t_text t) meeting_info)) = inr response →
  choices response = Some text :: rest →
  (∀ e : exn, json_loads text = inl e → exn_cls e = JSONDecodeError) →
  ∃ (r : dict) (w' : World),
    process_meeting_file file_path meeting_info w = (inr r, w') ∧
    r !! "success" = Some (PBool true) ∧
    r !! "transcript" = Some (PStr (t_text t)) ∧
    r !! "analysis" =
      Some (match json_loads text with
            | inr v => v
            | inl _ => PDict {[ "raw_analysis" := PStr text ]}
            end) ∧
    r !! "processing_summary" =
      Some (PDict
        {[ "transcription_cost" :=
             PFloat (match t_duration t with Some d => d * 0.006 | None => 0.0 end);
           "transcript_length" := PInt (Z.of_nat (String.length (t_text t)));
           "analysis_tokens" :=
             (match usage_total_tokens response with Some n => PInt n | None => PNone end);
           "processed_at" := PStr (isoformat (clock w (S (S (clock_reads w))))) ]}) ∧
    r !! "errors" =
      Some (PDict {[ "transcription_error" := PNone; "analysis_error" := PNone ]}) ∧
    stt_calls w' = stt_calls w ++ [whisper_request (pathlib_str file_path)] ∧
    chat_calls w' =
      chat_calls w ++ [analysis_request (service_prompt (t_text t) meeting_info)].
Proof.
  intros Hex Hsize Hle Hopen Hstt Hchat Hchoice Hdecode.
  pose proof (transcribe_meeting_success _ meeting_info _ _ _ Hex Hsize Hle Hopen Hstt) as Hrun.
  pose proof (analyze_transcript_unfold (t_text t) meeting_info
                (set_clock_reads (after_stt w (pathlib_str file_path)) (S (clock_reads w))))
    as Han.
  cbv zeta in Han. cbn [chat_endpoint chat_calls set_clock_reads after_stt set_stt_calls] in Han.
  rewrite Hchat, Hchoice, (parse_outcome_decoded text Hdecode) in Han.
  eexists _, _. split; [exact (process_meeting_file_success _ _ _ _ _ _ _ _ Hrun Han eq_refl)|].
  unfold combined_result, analysed, cost_of, dict_get.
  destruct (usage_total_tokens response); repeat split; reflexivity.
Qed.

(** X30.  The same run with a text on which [json.loads] raises anything
    but [JSONDecodeError] (a [ValueError] on an integer literal over the
    digits limit, a [RecursionError] on deep nesting): the handler of the
    parse does not apply, the analysis has failed and the result says so,
    with success false, the transcript kept, a null analysis and the cause
    under [errors.analysis_error]. *)
Theorem pipeline_parse_error (file_path : string) (meeting_info : dict) (w : World) (size : Z)
    (t : Transcription) (response : ChatCompletion) (text : string)
    (rest : list (option string)) (e : exn) :
  fs_exists w (pathlib_str file_path) = true →
  fs_st_size w (pathlib_str file_path) = inr size →
  (size ≤ 26214400)%Z →
  fs_open w (pathlib_str file_path) "rb" = None →
  stt_endpoint w (length (stt_calls w)) (whisper_request (pathlib_str file_path)) = inr t →
  chat_endpoint w (length (chat_calls w))
    (analysis_request (service_prompt (t_text t) meeting_info)) = inr response →
  choices response = Some text :: rest →
  json_loads text = inl e →
  exn_cls e ≠ JSONDecodeError →
  ∃ (r : dict) (w' : World),
    process_meeting_file file_path meeting_info w = (inr r, w') ∧
    r !! "success" = Some (PBool false) ∧
    r !! "transcript" = Some (PStr (t_text t)) ∧
    r !! "analysis" = Some PNone ∧
    r !! "errors" =
      Some (PDict {[ "transcription_error" := PNone;
                     "analysis_error" := PStr ("Analysis failed: " +:+ exn_str e) ]}).
Proof.
  intros Hex Hsize Hle Hopen Hstt Hchat Hchoice Hparse Hother.
  pose proof (transcribe_meeting_success _ meeting_info _ _ _ Hex Hsize Hle Hopen Hstt) as Hrun.
  pose proof (analyze_transcript_unfold (t_text t) meeting_info
                (set_clock_reads (after_stt w (pathlib_str file_path)) (S (clock_reads w))))
    as Han.
  cbv zeta in Han. cbn [chat_endpoint chat_calls set_clock_reads after_stt set_stt_calls] in Han.
  rewrite Hchat, Hchoice in Han. unfold parse_outcome in Han. rewrite Hparse in Han.
  destruct (decide (exn_cls e = JSONDecodeError)) as [Hdecode|_]; [contradiction|].
  eexists _, _. split; [exact (process_meeting_file_success _ _ _ _ _ _ _ _ Hrun Han eq_refl)|].
  repeat split; reflexivity.
Qed.

(** X13.  A failure of the analysis does not lose the transcript: when the
    speech-to-text endpoint answers and the chat endpoint fails, the result
    has success false, the transcript text, a null analysis, and the cause
    under [errors.analysis_error], with [transcription_error] null. *)
Theorem analysis_failure_keeps_transcript (file_path : string) (meeting_info : dict)
    (w : World) (size : Z) (t : Transcription) (e : exn) :
  fs_exists w (pathlib_str file_path) = true →
  fs_st_size w (pathlib_str file_path) = inr size →
  (size ≤ 26214400)%Z →
  fs_open w (pathlib_str file_path) "rb" = None →
  stt_endpoint w (length (stt_calls w)) (whisper_request (pathlib_str file_path)) = inr t →
  chat_endpoint w (length (chat_calls w))
    (analysis_request (service_prompt (t_text t) meeting_info)) = inl e →
  ∃ (r : dict) (w' : World),
    process_meeting_file file_path meeting_info w = (inr r, w') ∧
    r !! "success" = Some (PBool false) ∧
    r !! "transcript" = Some (PStr (t_text t)) ∧
    r !! "analysis" = Some PNone ∧
    r !! "error" = None ∧
    r !! "errors" =
      Some (PDict {[ "transcription_error" := PNone;
                     "analysis_error" := PStr ("Analysis failed: " +:+ exn_str e) ]}).
Proof.
  intros Hex Hsize Hle Hopen Hstt Hchat.
  pose proof (transcribe_meeting_success _ meeting_info _ _ _ Hex Hsize Hle Hopen Hstt) as Hrun.
  pose proof (analyze_transcript_unfold (t_text t) meeting_info
                (set_clock_reads (after_stt w (pathlib_str file_path)) (S (clock_reads w))))
    as Han.
  cbv zeta in Han. cbn [chat_endpoint chat_calls set_clock_reads after_stt set_stt_calls] in Han.
  rewrite Hchat in Han.
  eexists _, _. split; [exact (process_meeting_file_success _ _ _ _ _ _ _ _ Hrun Han eq_refl)|].
  repeat split; reflexivity.
Qed.

End PipelineEdges.

(** * Further properties of the newsletter generator *)

Section NewsletterEdges.
Context `{PyRuntime}.
Import generate_newsletter.

(** ** Loading *)

(** X14.  Without the analysis file the generator returns nothing and does
    nothing: no request is sent and no file is written. *)
Theorem missing_analysis_file (analysis_file : string) (w : World) (e : exn) :
  fs_open w analysis_file "r" = Some e →
  exn_cls e = FileNotFoundError →
  generate_newsletter_content analysis_file w = (inr None, w).
Proof.
  intros Hopen Hcls. unfold generate_newsletter_content.
  unfold mbind at 1. unfold Py_bind at 1.
  unfold try_except_cls, open_. unfold mbind at 1. unfold Py_bind at 1.
  rewrite Hopen. destruct (decide (exn_cls e = FileNotFoundError)); [reflexivity|contradiction].
Qed.

(** X15.  Only a missing file is handled.  Any other failure to open the
    analysis file, and whatever [json.load] raises on its content (a
    [JSONDecodeError] on a file that is not JSON), raise out of the
    generator, before any request. *)
Theorem unreadable_analysis_file_raises (analysis_file : string) (w : World) :
  (∀ e : exn,
     fs_open w analysis_file "r" = Some e →
     exn_cls e ≠ FileNotFoundError →
     generate_newsletter_content analysis_file w = (inl e, w)) ∧
  (∀ e : exn,
     fs_open w analysis_file "r" = None →
     json_loads (fs_content w analysis_file) = inl e →
     exn_cls e ≠ FileNotFoundError →
     generate_newsletter_content analysis_file w = (inl e, w)).
Proof.
  split.
  - intros e Hopen Hcls. unfold generate_newsletter_content.
    unfold mbind at 1. unfold Py_bind at 1.
    unfold try_except_cls, open_. unfold mbind at 1. unfold Py_bind at 1.
    rewrite Hopen. destruct (decide (exn_cls e = FileNotFoundError)); [contradiction|reflexivity].
  - intros e Hopen Hload Hcls. unfold generate_newsletter_content.
    unfold mbind at 1. unfold Py_bind at 1.
    unfold try_except_cls, open_, file_read. unfold mbind at 1 2. unfold Py_bind at 1 2.
    rewrite Hopen, Hload. unfold raise.
    destruct (decide (exn_cls e = FileNotFoundError)); [contradiction|reflexivity].
Qed.

(** X16.  Without an API key (unset or empty) the generator returns nothing
    after reading the file: no request, no file. *)
Theorem missing_api_key (analysis_file : string) (w : World) (data mi : dict) :
  fs_open w analysis_file "r" = None →
  json_loads (fs_content w analysis_file) = inr (PDict data) →
  dict_get data "meeting_info" (PDict ∅) = PDict mi →
  env_OPENAI_API_KEY w = None ∨ env_OPENAI_API_KEY w = Some EmptyString →
  generate_newsletter_content analysis_file w = (inr None, w).
Proof.
  intros Hopen Hload Hmi Hkey.
  assert (missing (env_OPENAI_API_KEY w) = true) as Hmissing
    by (destruct Hkey as [-> | ->]; reflexivity).
  unfold generate_newsletter_content.
  unfold mbind at 1. unfold Py_bind at 1.
  unfold try_except_cls, open_, file_read. unfold mbind at 1 2. unfold Py_bind at 1 2.
  rewrite Hopen, Hload. unfold mret at 1. unfold Py_ret at 1. cbv beta iota zeta.
  unfold mbind at 1. unfold Py_bind at 1. unfold lift at 1. cbn [as_dict].
  rewrite Hmi.
  unfold mbind at 1. unfold Py_bind at 1. unfold lift at 1. cbn [as_dict].
  unfold mbind at 1. unfold Py_bind at 1. unfold os_getenv_OPENAI_API_KEY at 1.
  now rewrite Hmissing.
Qed.

(** ** The run, with the save left open *)

Lemma generate_newsletter_content_steps (analysis_file : string) (w : World)
    (data an mi : dict) (hl : list pyval) :
  fs_open w analysis_file "r" = None →
  json_loads (fs_content w analysis_file) = inr (PDict data) →
  dict_get data "analysis" (PDict ∅) = PDict an →
  dict_get data "meeting_info" (PDict ∅) = PDict mi →
  missing (env_OPENAI_API_KEY w) = false →
  py_iter (dict_get an "newsletter_highlights" (PList [])) = inr hl →
  generate_newsletter_content analysis_file w =
  match save_newsletter_content (run_tasks (section_tasks (PDict an) an mi hl) w ∅).1
          (PDict mi) (run_tasks (section_tasks (PDict an) an mi hl) w ∅).2 with
  | (inl e, w') => (inl e, w')
  | (inr _, w') => (inr (Some (run_tasks (section_tasks (PDict an) an mi hl) w ∅).1), w')
  end.
Proof.
  intros Hopen Hload Han Hmi Hkey Hhl.
  unfold generate_newsletter_content.
  unfold mbind at 1. unfold Py_bind at 1.
  unfold try_except_cls, open_, file_read. unfold mbind at 1 2. unfold Py_bind at 1 2.
  rewrite Hopen, Hload. unfold mret at 1. unfold Py_ret at 1. cbv beta iota zeta.
  unfold mbind at 1. unfold Py_bind at 1. unfold lift at 1. cbn [as_dict].
  rewrite Han, Hmi.
  unfold mbind at 1. unfold Py_bind at 1. unfold lift at 1. cbn [as_dict].
  unfold mbind at 1. unfold Py_bind at 1. unfold os_getenv_OPENAI_API_KEY at 1.
  rewrite Hkey.
  unfold mbind at 1. unfold Py_bind at 1. unfold lift at 1. cbn [as_dict].
  unfold generate_project_pipeline, generate_market_intelligence, generate_regulatory_watch,
    generate_people_politics, generate_executive_summary, display_newsletter_content.
  unfold mbind, Py_bind, lift, mret, Py_ret. cbn [as_dict]. cbv beta iota zeta.
  rewrite Hhl. unfold section_tasks.
  destruct (py_truthy (dict_get an "projects" PNone));
    destruct (py_truthy (dict_get an "key_people" PNone));
    cbn [app run_tasks task_request task_key task_label fst snd];
    rewrite !request_section_run;
    match goal with |- context [save_newsletter_content ?s ?m ?w1] =>
      destruct (save_newsletter_content s m w1) as [[e|[]] w2] end;
    reflexivity.
Qed.

(** The sections attempted before the executive summary. *)
Lemma generate_newsletter_content_bad_highlights (analysis_file : string) (w : World)
    (data an mi : dict) (e : exn) :
  fs_open w analysis_file "r" = None →
  json_loads (fs_content w analysis_file) = inr (PDict data) →
  dict_get data "analysis" (PDict ∅) = PDict an →
  dict_get data "meeting_info" (PDict ∅) = PDict mi →
  missing (env_OPENAI_API_KEY w) = false →
  py_iter (dict_get an "newsletter_highlights" (PList [])) = inl e →
  generate_newsletter_content analysis_file w =
  (inl e, (run_tasks (removelast (section_tasks (PDict an) an mi [])) w ∅).2).
Proof.
  intros Hopen Hload Han Hmi Hkey Hhl.
  unfold generate_newsletter_content.
  unfold mbind at 1. unfold Py_bind at 1.
  unfold try_except_cls, open_, file_read. unfold mbind at 1 2. unfold Py_bind at 1 2.
  rewrite Hopen, Hload. unfold mret at 1. unfold Py_ret at 1. cbv beta iota zeta.
  unfold mbind at 1. unfold Py_bind at 1. unfold lift at 1. cbn [as_dict].
  rewrite Han, Hmi.
  unfold mbind at 1. unfold Py_bind at 1. unfold lift at 1. cbn [as_dict].
  unfold mbind at 1. unfold Py_bind at 1. unfold os_getenv_OPENAI_API_KEY at 1.
  rewrite Hkey.
  unfold mbind at 1. unfold Py_bind at 1. unfold lift at 1. cbn [as_dict].
  unfold generate_project_pipeline, generate_market_intelligence, generate_regulatory_watch,
    generate_people_politics, generate_executive_summary, display_newsletter_content.
  unfold mbind, Py_bind, lift, mret, Py_ret. cbn [as_dict]. cbv beta iota zeta.
  rewrite Hhl. unfold section_tasks.
  destruct (py_truthy (dict_get an "projects" PNone));
    destruct (py_truthy (dict_get an "key_people" PNone));
    cbn [app removelast run_tasks task_request task_key task_label fst snd];
    rewrite !request_section_run; reflexivity.
Qed.

(** ** Saving *)

Lemma save_newsletter_content_bad_jurisdiction (sections mi : dict) (w : World) (e : exn) :
  py_lower (dict_get mi "jurisdiction" (PStr "triangle")) = inl e →
  save_newsletter_content sections (PDict mi) w =
  (inl e, set_clock_reads w (S (clock_reads w))).
Proof.
  intros Hlower. unfold save_newsletter_content.
  unfold mbind, Py_bind, datetime_now, lift, as_dict. cbv beta iota zeta.
  now rewrite Hlower.
Qed.

Lemma save_newsletter_content_closed_disk (sections mi : dict) (w : World) (j : string)
    (e : exn) :
  dict_get mi "jurisdiction" (PStr "triangle") = PStr j →
  fs_open w (newsletter_name j (clock w (clock_reads w))) "w" = Some e →
  save_newsletter_content sections (PDict mi) w =
  (inl e, set_clock_reads w (S (clock_reads w))).
Proof.
  intros Hj Hopen. unfold save_newsletter_content.
  unfold mbind, Py_bind, datetime_now, lift, as_dict. cbv beta iota zeta.
  rewrite Hj. cbn [py_lower].
  unfold open_. cbn [fs_open set_clock_reads].
  fold (newsletter_name j (clock w (clock_reads w))). now rewrite Hopen.
Qed.

(** X19.  [save_newsletter_content] raises, and writes nothing, when the
    jurisdiction of the meeting is present but not a string (a null, a
    number: it has no [lower]) and when the file cannot be opened for
    writing.  A meeting without a jurisdiction is saved under "triangle". *)
Theorem save_failures (sections mi : dict) (w : World) :
  (∀ e : exn,
     py_lower (dict_get mi "jurisdiction" (PStr "triangle")) = inl e →
     ∃ w' : World,
       save_newsletter_content sections (PDict mi) w = (inl e, w') ∧
       fs_written w' = fs_written w) ∧
  (∀ (j : string) (e : exn),
     dict_get mi "jurisdiction" (PStr "triangle") = PStr j →
     fs_open w (newsletter_name j (clock w (clock_reads w))) "w" = Some e →
     ∃ w' : World,
       save_newsletter_content sections (PDict mi) w = (inl e, w') ∧
       fs_written w' = fs_written w) ∧
  (mi !! "jurisdiction" = None →
   fs_open w (newsletter_name "triangle" (clock w (clock_reads w))) "w" = None →
   ∃ (w' : World) (content : string),
     save_newsletter_content sections (PDict mi) w = (inr tt, w') ∧
     fs_written w' =
       fs_written w ++
       [("newsletter_triangle_" +:+ strftime_compact (clock w (clock_reads w)) +:+ ".md",
         content)]).
Proof.
  split; [|split].
  - intros e Hlower. eexists. split; [now apply save_newsletter_content_bad_jurisdiction|].
    reflexivity.
  - intros j e Hj Hopen. eexists.
    split; [now apply (save_newsletter_content_closed_disk _ _ _ j)|]. reflexivity.
  - intros Habsent Hopen.
    assert (dict_get mi "jurisdiction" (PStr "triangle") = PStr "triangle") as Hj
      by (unfold dict_get; now rewrite Habsent).
    eexists _, _. split; [now apply (save_newsletter_content_run _ _ _ "triangle")|].
    reflexivity.
Qed.

Lemma fold_write_section_ext (s1 s2 : dict) (entries : list (string * string))
    (written : string) :
  (∀ key title : string, (key, title) ∈ entries → s1 !! key = s2 !! key) →
  fold_left (write_section s1) entries written = fold_left (write_section s2) entries written.
Proof.
  revert written. induction entries as [|[key title] rest IH]; intros written Hsame.
  - reflexivity.
  - cbn [fold_left].
    assert (write_section s1 written (key, title) = write_section s2 written (key, title)) as ->.
    { unfold write_section. rewrite (Hsame key title) by apply list_elem_of_here. reflexivity. }
    apply IH. intros key' title' Hin. apply (Hsame key' title'). now apply list_elem_of_further.
Qed.

(** X20.  Only the five sections of the fixed order reach the file: two
    mappings that agree on them are saved alike, whatever else they hold. *)
Theorem save_ignores_other_keys (s1 s2 : dict) (meeting_info : pyval) (w : World) :
  (∀ key : string,
     key ∈ ["executive_summary"; "project_pipeline"; "market_intelligence";
            "regulatory_watch"; "people_politics"] →
     s1 !! key = s2 !! key) →
  save_newsletter_content s1 meeting_info w = save_newsletter_content s2 meeting_info w.
Proof.
  intros Hsame. unfold save_newsletter_content.
  unfold mbind, Py_bind, datetime_now. cbv beta iota zeta.
  destruct (lift (as_dict meeting_info) _) as [[e|mi] w1]; [reflexivity|].
  destruct (lift (py_lower _) w1) as [[e|j] w2]; [reflexivity|].
  destruct (open_ _ "w" w2) as [[e|[]] w3]; [reflexivity|].
  rewrite (fold_write_section_ext s1 s2); [reflexivity|].
  intros key title Hin. apply Hsame.
  apply list_elem_of_In in Hin. apply list_elem_of_In. cbn in Hin |- *.
  repeat destruct Hin as [[= <- <-]|Hin]; tauto.
Qed.

(** ** Containment *)

Lemma prefix_app (a b : string) : String.prefix a (a +:+ b) = true.
Proof.
  induction a as [|x a IH]; [now destruct b|].
  change (match ascii_dec x x with
          | left _ => String.prefix a (a +:+ b)
          | right _ => false
          end = true).
  destruct (ascii_dec x x); [assumption|contradiction].
Qed.

Lemma str_contains_unfold (needle haystack : string) :
  str_contains needle haystack =
  if String.prefix needle haystack then true
  else match haystack with
       | EmptyString => false
       | String _ rest => str_contains needle rest
       end.
Proof. now destruct haystack. Qed.

Lemma str_contains_app (needle before after : string) :
  str_contains needle (before +:+ needle +:+ after) = true.
Proof.
  induction before as [|x before IH].
  - change (EmptyString +:+ needle +:+ after) with (needle +:+ after).
    now rewrite str_contains_unfold, prefix_app.
  - change (String x before +:+ needle +:+ after)
      with (String x (before +:+ needle +:+ after)).
    rewrite str_contains_unfold, IH. now destruct (String.prefix _ _).
Qed.

Lemma str_join_elem (part : string) (parts : list string) :
  part ∈ parts → ∃ before after : string, str_join parts = before +:+ part +:+ after.
Proof.
  induction parts as [|x parts IH]; intros Hin.
  - now apply elem_of_nil in Hin.
  - apply elem_of_cons in Hin as [->|Hin].
    + exists EmptyString, (str_join parts). reflexivity.
    + destruct (IH Hin) as (before & after & Heq).
      exists (x +:+ before), after. cbn [str_join foldr].
      fold (str_join parts). now rewrite Heq, str_app_assoc.
Qed.

(** The block of a shown entry is in the saved text. *)
Lemma shown_block_in_text (sections : dict) (top footer : string) (entry : string * string) :
  entry ∈ section_order →
  shown sections entry = true →
  str_contains (section_block sections entry)
    (top +:+
     str_join (section_block sections <$> List.filter (shown sections) section_order) +:+
     footer) = true.
Proof.
  intros Hin Hshown.
  assert (section_block sections entry ∈
          section_block sections <$> List.filter (shown sections) section_order) as Hblock.
  { apply list_elem_of_fmap. exists entry. split; [reflexivity|].
    apply list_elem_of_In, filter_In. split; [now apply list_elem_of_In|assumption]. }
  destruct (str_join_elem _ _ Hblock) as (before & after & ->).
  rewrite !str_app_assoc, <- (str_app_assoc top before). apply str_contains_app.
Qed.

(** ** Whole runs *)

Lemma section_tasks_requests (analysis : pyval) (an mi : dict) (hl : list pyval) :
  length (task_request <$> section_tasks analysis an mi hl) =
    3 + b2n (py_truthy (dict_get an "projects" PNone)) +
    b2n (py_truthy (dict_get an "key_people" PNone)) ∧
  Forall is_section_request (task_request <$> section_tasks analysis an mi hl).
Proof.
  unfold section_tasks.
  destruct (py_truthy (dict_get an "projects" PNone));
    destruct (py_truthy (dict_get an "key_people" PNone));
    (split; [reflexivity|]);
    cbn [app fmap list_fmap task_request];
    repeat constructor; unfold section_request; cbn; eauto.
Qed.

(** X17.  A run that generates and saves sends between three and five
    requests, one for each attempted section: three, plus one when
    [projects] is true, plus one when [key_people] is true.  Each is a
    request for gpt-4 at temperature 0.3 with a system and a user message.
    The run writes exactly one file and sends nothing to the speech-to-text
    endpoint. *)
Theorem newsletter_requests (analysis_file : string) (w : World) (data an mi : dict)
    (highlights : list pyval) (j : string) :
  fs_open w analysis_file "r" = None →
  json_loads (fs_content w analysis_file) = inr (PDict data) →
  dict_get data "analysis" (PDict ∅) = PDict an →
  dict_get data "meeting_info" (PDict ∅) = PDict mi →
  missing (env_OPENAI_API_KEY w) = false →
  py_iter (dict_get an "newsletter_highlights" (PList [])) = inr highlights →
  dict_get mi "jurisdiction" (PStr "triangle") = PStr j →
  (∀ p : string, fs_open w p "w" = None) →
  ∃ (sections : dict) (w' : World) (requests : list ChatRequest) (name content : string),
    generate_newsletter_content analysis_file w = (inr (Some sections), w') ∧
    chat_calls w' = chat_calls w ++ requests ∧
    length requests =
      3 + b2n (py_truthy (dict_get an "projects" PNone)) +
      b2n (py_truthy (dict_get an "key_people" PNone)) ∧
    Forall is_section_request requests ∧
    fs_written w' = fs_written w ++ [(name, content)] ∧
    stt_calls w' = stt_calls w.
Proof.
  intros Hopen Hload Han Hmi Hkey Hiter Hj Hdisk.
  rewrite (generate_newsletter_content_steps _ _ _ _ _ _ Hopen Hload Han Hmi Hkey Hiter).
  rewrite run_tasks_world.
  rewrite (save_newsletter_content_run _ _ _ j Hj) by apply Hdisk.
  destruct (section_tasks_requests (PDict an) an mi highlights) as [Hcount Hshape].
  eexists _, _, _, _, _. split; [reflexivity|].
  split; [reflexivity|]. split; [exact Hcount|]. split; [exact Hshape|].
  split; reflexivity.
Qed.

(** X18.  A failed section is not dropped from the newsletter: when the
    request of an attempted section fails, the saved file contains the
    heading of that section followed by the error text and a rule. *)
Theorem failed_section_is_saved (analysis_file : string) (w : World) (data an mi : dict)
    (highlights : list pyval) (j : string) (i : nat) (t : SectionTask) (e : exn) :
  fs_open w analysis_file "r" = None →
  json_loads (fs_content w analysis_file) = inr (PDict data) →
  dict_get data "analysis" (PDict ∅) = PDict an →
  dict_get data "meeting_info" (PDict ∅) = PDict mi →
  missing (env_OPENAI_API_KEY w) = false →
  py_iter (dict_get an "newsletter_highlights" (PList [])) = inr highlights →
  dict_get mi "jurisdiction" (PStr "triangle") = PStr j →
  (∀ p : string, fs_open w p "w" = None) →
  section_tasks (PDict an) an mi highlights !! i = Some t →
  chat_endpoint w (length (chat_calls w) + i) (task_request t) = inl e →
  ∃ (sections : dict) (w' : World) (name content title : string),
    generate_newsletter_content analysis_file w = (inr (Some sections), w') ∧
    fs_written w' = fs_written w ++ [(name, content)] ∧
    (task_key t, title) ∈ section_order ∧
    str_contains
      (title +:+ nl +:+ nl +:+
       ("Error generating " +:+ task_label t +:+ " content: " +:+ exn_str e) +:+
       nl +:+ nl +:+ "---" +:+ nl +:+ nl) content = true.
Proof.
  intros Hopen Hload Han Hmi Hkey Hiter Hj Hdisk Hi Hfail.
  rewrite (generate_newsletter_content_steps _ _ _ _ _ _ Hopen Hload Han Hmi Hkey Hiter).
  pose proof (run_tasks_lookup _ w ∅ i t (section_tasks_keys _ _ _ _) Hi) as Hlookup.
  rewrite Hfail in Hlookup. cbn [section_outcome] in Hlookup.
  set (sections := (run_tasks (section_tasks (PDict an) an mi highlights) w ∅).1) in *.
  rewrite run_tasks_world.
  rewrite (save_newsletter_content_run _ _ _ j Hj) by apply Hdisk.
  assert (∃ title : string, (task_key t, title) ∈ section_order) as [title Htitle].
  { assert (task_key t ∈ task_key <$> section_tasks (PDict an) an mi highlights) as Hattempted
      by (apply list_elem_of_fmap; exists t; split;
          [reflexivity | now apply list_elem_of_lookup_2 in Hi]).
    apply section_tasks_attempted in Hattempted.
    unfold section_order.
    destruct Hattempted as [[-> _]|[->|[->|[[-> _]| ->]]]];
      eexists; apply list_elem_of_In; cbn; eauto 10. }
  assert (shown sections (task_key t, title) = true) as Hshown
    by (unfold shown, dict_get; cbn [fst]; now rewrite Hlookup).
  pose proof (shown_block_in_text sections (newsletter_top mi)
                (newsletter_footer
                   (clock (set_chat_calls w
                             (chat_calls w ++
                              (task_request <$> section_tasks (PDict an) an mi highlights)))
                      (S (clock_reads w))))
                (task_key t, title) Htitle Hshown) as Hblock.
  unfold section_block, dict_get in Hblock. cbn [fst snd] in Hblock.
  rewrite Hlookup in Hblock. cbn [default from_option id py_str] in Hblock.
  eexists _, _, _, _, title. split; [reflexivity|]. split; [reflexivity|].
  split; [exact Htitle|]. exact Hblock.
Qed.

(** X21.  Highlights that cannot be iterated (a null, a number) are not
    caught by any handler: the generator raises at the executive summary,
    after the requests of the sections before it have been sent, and saves
    nothing. *)
Theorem bad_highlights_abort_generation (analysis_file : string) (w : World)
    (data an mi : dict) (e : exn) :
  fs_open w analysis_file "r" = None →
  json_loads (fs_content w analysis_file) = inr (PDict data) →
  dict_get data "analysis" (PDict ∅) = PDict an →
  dict_get data "meeting_info" (PDict ∅) = PDict mi →
  missing (env_OPENAI_API_KEY w) = false →
  py_iter (dict_get an "newsletter_highlights" (PList [])) = inl e →
  ∃ w' : World,
    generate_newsletter_content analysis_file w = (inl e, w') ∧
    length (chat_calls w') =
      length (chat_calls w) + 2 + b2n (py_truthy (dict_get an "projects" PNone)) +
      b2n (py_truthy (dict_get an "key_people" PNone)) ∧
    fs_written w' = fs_written w.
Proof.
  intros Hopen Hload Han Hmi Hkey Hiter.
  rewrite (generate_newsletter_content_bad_highlights _ _ _ _ _ _
             Hopen Hload Han Hmi Hkey Hiter).
  rewrite run_tasks_world. eexists. split; [reflexivity|]. split; [|reflexivity].
  cbn [chat_calls set_chat_calls]. rewrite length_app, length_fmap. unfold section_tasks.
  destruct (py_truthy (dict_get an "projects" PNone));
    destruct (py_truthy (dict_get an "key_people" PNone)); cbn; lia.
Qed.

(** X22.  A newsletter that cannot be saved is lost: when the jurisdiction
    is not a string, or the disk refuses the file, the generator raises
    after every request of the run has been sent, and returns no sections. *)
Theorem unsaved_newsletter_raises (analysis_file : string) (w : World) (data an mi : dict)
    (highlights : list pyval) (e : exn) :
  fs_open w analysis_file "r" = None →
  json_loads (fs_content w analysis_file) = inr (PDict data) →
  dict_get data "analysis" (PDict ∅) = PDict an →
  dict_get data "meeting_info" (PDict ∅) = PDict mi →
  missing (env_OPENAI_API_KEY w) = false →
  py_iter (dict_get an "newsletter_highlights" (PList [])) = inr highlights →
  py_lower (dict_get mi "jurisdiction" (PStr "triangle")) = inl e ∨
  ((∃ j : string, dict_get mi "jurisdiction" (PStr "triangle") = PStr j) ∧
   ∀ p : string, fs_open w p "w" = Some e) →
  ∃ w' : World,
    generate_newsletter_content analysis_file w = (inl e, w') ∧
    chat_calls w' =
      chat_calls w ++ (task_request <$> section_tasks (PDict an) an mi highlights) ∧
    fs_written w' = fs_written w.
Proof.
  intros Hopen Hload Han Hmi Hkey Hiter Hsave.
  rewrite (generate_newsletter_content_steps _ _ _ _ _ _ Hopen Hload Han Hmi Hkey Hiter).
  rewrite run_tasks_world.
  destruct Hsave as [Hlower|[[j Hj] Hdisk]].
  - rewrite (save_newsletter_content_bad_jurisdiction _ _ _ _ Hlower).
    eexists. split; [reflexivity|]. split; reflexivity.
  - rewrite (save_newsletter_content_closed_disk _ _ _ j e Hj) by apply Hdisk.
    eexists. split; [reflexivity|]. split; reflexivity.
Qed.

End NewsletterEdges.

(** * Properties of the command-line analysis *)

Section ScriptFacts.
Context `{PyRuntime}.
Import analyze_transcript_fixed_cli.

Lemma for_each_pure (records : list pyval) (w : World) :
  ∃ r : exn + unit,
    for_each (fun record => lift (as_dict record);; mret tt) records w = (r, w).
Proof.
  induction records as [|x rest IH]; [eexists; reflexivity|].
  cbn [for_each]. unfold mbind, Py_bind, lift, mret, Py_ret.
  destruct (as_dict x); [eexists; reflexivity|]. exact IH.
Qed.

Lemma display_records_pure (records : pyval) (w : World) :
  ∃ r : exn + unit, display_records records w = (r, w).
Proof.
  unfold display_records. destruct (py_truthy records); [|eexists; reflexivity].
  unfold mbind, Py_bind, lift.
  destruct (py_len records); [eexists; reflexivity|].
  destruct (py_iter records) as [e|items]; [eexists; reflexivity|].
  apply for_each_pure.
Qed.

(** Displaying prints and reads; it leaves the world as it is. *)
Lemma display_analysis_results_pure (analysis_data : pyval) (meeting_info : dict) (w : World) :
  ∃ r : exn + unit, display_analysis_results analysis_data meeting_info w = (r, w).
Proof.
  unfold display_analysis_results.
  unfold mbind at 1. unfold Py_bind at 1. unfold getitem.
  destruct (meeting_info !! "jurisdiction"); [|eexists; reflexivity].
  unfold mret at 1. unfold Py_ret at 1.
  unfold mbind at 1. unfold Py_bind at 1. unfold lift at 1.
  destruct (as_dict analysis_data) as [e|an]; [eexists; reflexivity|].
  unfold mbind at 1. unfold Py_bind at 1.
  destruct (display_records_pure (dict_get an "projects" (PList [])) w) as [r1 ->].
  destruct r1; [eexists; reflexivity|].
  unfold mbind at 1. unfold Py_bind at 1.
  destruct (display_records_pure (dict_get an "key_people" (PList [])) w) as [r2 ->].
  destruct r2; [eexists; reflexivity|].
  unfold mbind at 1. unfold Py_bind at 1. cbv zeta.
  destruct (py_truthy (dict_get an "newsletter_highlights" (PList []))).
  - unfold mbind at 1. unfold Py_bind at 1. unfold lift at 1.
    destruct (py_iter _); [eexists; reflexivity|].
    unfold mret at 1. unfold Py_ret at 1.
    destruct (an !! "raw_analysis") as [raw|]; [|eexists; reflexivity].
    unfold display_raw, mbind, Py_bind, lift, raise, mret, Py_ret.
    destruct (py_len raw) as [e|n]; [eexists; reflexivity|].
    destruct (1000 <? n)%Z; [|eexists; reflexivity].
    destruct (py_slice_to 1000 raw) as [e|[]]; eexists; reflexivity.
  - unfold mret at 1. unfold Py_ret at 1.
    destruct (an !! "raw_analysis") as [raw|]; [|eexists; reflexivity].
    unfold display_raw, mbind, Py_bind, lift, raise, mret, Py_ret.
    destruct (py_len raw) as [e|n]; [eexists; reflexivity|].
    destruct (1000 <? n)%Z; [|eexists; reflexivity].
    destruct (py_slice_to 1000 raw) as [e|[]]; eexists; reflexivity.
Qed.

(** The raw fallback is always displayable. *)
Lemma display_raw_fallback (text : string) (meeting_info : dict) (w : World) :
  is_Some (meeting_info !! "jurisdiction") →
  display_analysis_results (PDict {[ "raw_analysis" := PStr text ]}) meeting_info w =
  (inr tt, w).
Proof.
  intros [jv Hj]. unfold display_analysis_results.
  unfold mbind, Py_bind, getitem, lift, mret, Py_ret. rewrite Hj. cbn [as_dict].
  change (dict_get {[ "raw_analysis" := PStr text ]} "projects" (PList [])) with (PList []).
  change (dict_get {[ "raw_analysis" := PStr text ]} "key_people" (PList [])) with (PList []).
  change (dict_get {[ "raw_analysis" := PStr text ]} "newsletter_highlights" (PList []))
    with (PList []).
  cbn [display_records py_truthy].
  change (({[ "raw_analysis" := PStr text ]} : dict) !! "raw_analysis")
    with (Some (PStr text)).
  unfold display_raw, mbind, Py_bind, lift, mret, Py_ret. cbn [py_len py_slice_to].
  destruct (1000 <? _)%Z; reflexivity.
Qed.

(** A value that is not a dict cannot be displayed. *)
Lemma display_non_object (analysis_data : pyval) (meeting_info : dict) (w : World) (e : exn) :
  is_Some (meeting_info !! "jurisdiction") →
  as_dict analysis_data = inl e →
  display_analysis_results analysis_data meeting_info w = (inl e, w).
Proof.
  intros [jv Hj] Hnot. unfold display_analysis_results.
  unfold mbind, Py_bind, getitem, lift, mret, Py_ret. now rewrite Hj, Hnot.
Qed.

(** The file the command-line run saves. *)
Lemma analysis_record_name (j : string) (started : DateTime) :
  "analysis_" +:+ str_lower j +:+ "_" +:+ strftime_compact started +:+ ".json" =
  analysis_name j started.
Proof. reflexivity. Qed.

(** The run once the transcript is read and the key found, path by path. *)
Lemma script_run_cases (transcript_file : string) (meeting_info : dict) (w : World)
    (jv tv : pyval) :
  meeting_info !! "jurisdiction" = Some jv →
  meeting_info !! "type" = Some tv →
  fs_open w transcript_file "r" = None →
  no_key (env_OPENAI_API_KEY w) = false →
  let transcript := fs_content w transcript_file in
  let req := analysis_request
               (analyze_transcript_fixed.build_analysis_prompt (PStr transcript) meeting_info) in
  let w1 := after_chat w req in
  analyze_transcript transcript_file meeting_info w =
  match chat_endpoint w (length (chat_calls w)) req with
  | inl _ => (inr None, w1)
  | inr response =>
      match choices response with
      | [] => (inr None, w1)
      | None :: _ => (inr None, w1)
      | Some text :: _ =>
          match parse_outcome text with
          | inl _ => (inr None, w1)
          | inr analysis_data =>
              match display_analysis_results analysis_data meeting_info w1 with
              | (inl _, _) => (inr None, w1)
              | (inr _, _) =>
                  match py_lower jv with
                  | inl _ => (inr None, w1)
                  | inr j =>
                      let name := "analysis_" +:+ j +:+ "_" +:+
                                  strftime_compact (clock w (clock_reads w)) +:+ ".json" in
                      match fs_open w name "w" with
                      | Some _ => (inr None, set_clock_reads w1 (S (clock_reads w)))
                      | None =>
                          (inr (Some analysis_data),
                           after_save w1 name
                             (json_dumps (analysis_record meeting_info analysis_data
                                            transcript (clock w (S (clock_reads w))))))
                      end
                  end
              end
          end
      end
  end.
Proof.
  intros Hj Ht Hopen Hkey. cbv zeta.
  unfold analyze_transcript.
  unfold mbind at 1. unfold Py_bind at 1. unfold getitem at 1. rewrite Hj.
  unfold mret at 1. unfold Py_ret at 1.
  unfold mbind at 1. unfold Py_bind at 1. unfold getitem at 1. rewrite Ht.
  unfold mret at 1. unfold Py_ret at 1.
  unfold mbind at 1. unfold Py_bind at 1.
  unfold try_except_cls at 1. unfold open_, file_read.
  unfold mbind at 1 2. unfold Py_bind at 1 2. rewrite Hopen.
  unfold mret at 1. unfold Py_ret at 1. cbv beta iota.
  unfold mbind at 1. unfold Py_bind at 1. unfold os_getenv_OPENAI_API_KEY at 1.
  rewrite Hkey. cbv zeta.
  unfold try_except.
  unfold mbind at 1. unfold Py_bind at 1. unfold chat_completions_create at 1.
  fold (after_chat w (analysis_request
          (analyze_transcript_fixed.build_analysis_prompt
             (PStr (fs_content w transcript_file)) meeting_info))).
  destruct (chat_endpoint w _ _) as [e|response]; [reflexivity|].
  unfold mbind at 1. unfold Py_bind at 1. unfold first_choice_content at 1.
  destruct (choices response) as [|[text|] rest]; [reflexivity| |reflexivity].
  unfold mret at 1. unfold Py_ret at 1.
  unfold mbind at 1. unfold Py_bind at 1.
  assert (∀ w0, try_except_cls JSONDecodeError (MeetingAnalysisService.parse_json (PStr text))
            (fun _ => mret (PDict {[ "raw_analysis" := PStr text ]})) w0
          = (parse_outcome text, w0)) as ->.
  { intros w0. unfold try_except_cls, MeetingAnalysisService.parse_json, parse_outcome.
    destruct (json_loads text) as [e|v]; [|reflexivity].
    unfold raise. destruct (decide (exn_cls e = JSONDecodeError)); reflexivity. }
  destruct (parse_outcome text) as [e|analysis_data]; [reflexivity|].
  unfold mbind at 1. unfold Py_bind at 1.
  match goal with |- context [display_analysis_results ?d ?m ?w0] =>
    destruct (display_analysis_results_pure d m w0) as [shown ->] end.
  destruct shown as [e|[]]; [reflexivity|].
  unfold mbind at 1. unfold Py_bind at 1. unfold getitem at 1. rewrite Hj.
  unfold mret at 1. unfold Py_ret at 1.
  unfold mbind at 1. unfold Py_bind at 1. unfold lift at 1.
  destruct (py_lower jv) as [e|j]; [reflexivity|].
  unfold mbind, Py_bind, datetime_now, open_, file_store, mret, Py_ret.
  cbn [fs_open clock clock_reads set_clock_reads after_chat set_chat_calls].
  destruct (fs_open w _ "w"); reflexivity.
Qed.

(** The run up to the request, path by path. *)
Lemma script_run_early (transcript_file : string) (meeting_info : dict) (w : World) :
  analyze_transcript transcript_file meeting_info w =
  match meeting_info !! "jurisdiction" with
  | None => (inl (Exn KeyError (sq +:+ "jurisdiction" +:+ sq)), w)
  | Some _ =>
      match meeting_info !! "type" with
      | None => (inl (Exn KeyError (sq +:+ "type" +:+ sq)), w)
      | Some _ =>
          match fs_open w transcript_file "r" with
          | Some e =>
              if decide (exn_cls e = FileNotFoundError) then (inr None, w) else (inl e, w)
          | None =>
              if no_key (env_OPENAI_API_KEY w) then (inr None, w)
              else analyze_transcript transcript_file meeting_info w
          end
      end
  end.
Proof.
  destruct (meeting_info !! "jurisdiction") as [jv|] eqn:Hj.
  2: { unfold analyze_transcript.
       unfold mbind at 1. unfold Py_bind at 1. unfold getitem at 1. now rewrite Hj. }
  destruct (meeting_info !! "type") as [tv|] eqn:Ht.
  2: { unfold analyze_transcript.
       unfold mbind at 1. unfold Py_bind at 1. unfold getitem at 1. rewrite Hj.
       unfold mret at 1. unfold Py_ret at 1.
       unfold mbind at 1. unfold Py_bind at 1. unfold getitem at 1. now rewrite Ht. }
  destruct (fs_open w transcript_file "r") as [e|] eqn:Hopen.
  - unfold analyze_transcript.
    unfold mbind at 1. unfold Py_bind at 1. unfold getitem at 1. rewrite Hj.
    unfold mret at 1. unfold Py_ret at 1.
    unfold mbind at 1. unfold Py_bind at 1. unfold getitem at 1. rewrite Ht.
    unfold mret at 1. unfold Py_ret at 1.
    unfold mbind at 1. unfold Py_bind at 1.
    unfold try_except_cls at 1. unfold open_.
    unfold mbind at 1. unfold Py_bind at 1. rewrite Hopen.
    destruct (decide (exn_cls e = FileNotFoundError)); reflexivity.
  - destruct (no_key (env_OPENAI_API_KEY w)) eqn:Hkey; [|reflexivity].
    unfold analyze_transcript.
    unfold mbind at 1. unfold Py_bind at 1. unfold getitem at 1. rewrite Hj.
    unfold mret at 1. unfold Py_ret at 1.
    unfold mbind at 1. unfold Py_bind at 1. unfold getitem at 1. rewrite Ht.
    unfold mret at 1. unfold Py_ret at 1.
    unfold mbind at 1. unfold Py_bind at 1.
    unfold try_except_cls at 1. unfold open_, file_read.
    unfold mbind at 1 2. unfold Py_bind at 1 2. rewrite Hopen.
    unfold mret at 1. unfold Py_ret at 1. cbv beta iota.
    unfold mbind at 1. unfold Py_bind at 1. unfold os_getenv_OPENAI_API_KEY at 1.
    now rewrite Hkey.
Qed.

(** X23. The command-line analysis reads [meeting_info['jurisdiction']] and
    [meeting_info['type']] before anything else: when either key is missing
    it raises a [KeyError] out of the function, and it has read no file,
    sent no request and written nothing. *)
Theorem script_requires_meeting_keys (transcript_file : string) (meeting_info : dict)
    (w : World) :
  meeting_info !! "jurisdiction" = None ∨ meeting_info !! "type" = None →
  ∃ e : exn,
    analyze_transcript transcript_file meeting_info w = (inl e, w) ∧
    exn_cls e = KeyError ∧
    (exn_str e = sq +:+ "jurisdiction" +:+ sq ∨ exn_str e = sq +:+ "type" +:+ sq).
Proof.
  intros Hmissing. rewrite script_run_early.
  destruct (meeting_info !! "jurisdiction") as [jv|].
  - destruct Hmissing as [Hmissing| ->]; [discriminate|].
    eexists. split; [reflexivity|]. split; [reflexivity|]. now right.
  - eexists. split; [reflexivity|]. split; [reflexivity|]. now left.
Qed.

(** X24. When the transcript cannot be opened, the command-line analysis
    returns [None] for a [FileNotFoundError] and lets every other error
    of [open] out of the function; in both cases no request is sent and
    nothing is written. *)
Theorem script_unopened_transcript (transcript_file : string) (meeting_info : dict)
    (w : World) (e : exn) :
  is_Some (meeting_info !! "jurisdiction") →
  is_Some (meeting_info !! "type") →
  fs_open w transcript_file "r" = Some e →
  analyze_transcript transcript_file meeting_info w =
  (if decide (exn_cls e = FileNotFoundError) then inr None else inl e, w).
Proof.
  intros [jv Hj] [tv Ht] Hopen. rewrite script_run_early, Hj, Ht, Hopen.
  now destruct (decide _).
Qed.

(** X25. With the transcript read and the variable OPENAI_API_KEY unset or
    empty, the command-line analysis returns [None]: no request is sent,
    nothing is written. *)
Theorem script_missing_api_key (transcript_file : string) (meeting_info : dict) (w : World) :
  is_Some (meeting_info !! "jurisdiction") →
  is_Some (meeting_info !! "type") →
  fs_open w transcript_file "r" = None →
  env_OPENAI_API_KEY w = None ∨ env_OPENAI_API_KEY w = Some EmptyString →
  analyze_transcript transcript_file meeting_info w = (inr None, w).
Proof.
  intros [jv Hj] [tv Ht] Hopen Hkey. rewrite script_run_early, Hj, Ht, Hopen.
  now destruct Hkey as [-> | ->].
Qed.

(** X26. Once the transcript is read and the key is set, the command-line
    analysis never raises and sends exactly one request; its user message
    is the prompt head followed by the whole content of the transcript
    file and a newline, whatever the length of the transcript. *)
Theorem script_sends_whole_transcript (transcript_file : string) (meeting_info : dict)
    (w : World) :
  is_Some (meeting_info !! "jurisdiction") →
  is_Some (meeting_info !! "type") →
  fs_open w transcript_file "r" = None →
  no_key (env_OPENAI_API_KEY w) = false →
  ∃ (r : option pyval) (w' : World),
    analyze_transcript transcript_file meeting_info w = (inr r, w') ∧
    chat_calls w' = chat_calls w ++
      [analysis_request
         ((String.concat nl (analyze_transcript_fixed.analysis_prompt_head meeting_info) +:+ nl)
          +:+ fs_content w transcript_file +:+ nl)] ∧
    stt_calls w' = stt_calls w.
Proof.
  intros [jv Hj] [tv Ht] Hopen Hkey.
  rewrite (script_run_cases _ _ _ _ _ Hj Ht Hopen Hkey). cbv zeta.
  rewrite standalone_prompt_whole.
  destruct (chat_endpoint w _ _) as [e|response]; [now eexists _, _|].
  destruct (choices response) as [|[text|] rest]; [now eexists _, _| |now eexists _, _].
  destruct (parse_outcome text) as [e|analysis_data]; [now eexists _, _|].
  destruct (display_analysis_results _ _ _) as [[e|u] w0]; [now eexists _, _|].
  destruct (py_lower jv) as [e|j]; [now eexists _, _|].
  destruct (fs_open w _ "w"); now eexists _, _.
Qed.

(** X27. An answer that is not JSON, on which [json.loads] raises
    [JSONDecodeError], is kept as [{"raw_analysis": text}]:
    with a string jurisdiction and a writable disk the command-line
    analysis returns that mapping and saves one file,
    [analysis_<jurisdiction in lower case>_<time stamp>.json], holding the
    meeting info, the mapping, the length of the transcript and the time
    of the second clock reading. *)
Theorem script_prose_answer (transcript_file : string) (meeting_info : dict) (w : World)
    (j : string) (response : ChatCompletion) (text : string) (e : exn)
    (rest : list (option string)) :
  meeting_info !! "jurisdiction" = Some (PStr j) →
  is_Some (meeting_info !! "type") →
  fs_open w transcript_file "r" = None →
  no_key (env_OPENAI_API_KEY w) = false →
  let transcript := fs_content w transcript_file in
  let req := analysis_request
               (analyze_transcript_fixed.build_analysis_prompt (PStr transcript) meeting_info) in
  chat_endpoint w (length (chat_calls w)) req = inr response →
  choices response = Some text :: rest →
  json_loads text = inl e →
  exn_cls e = JSONDecodeError →
  fs_open w (analysis_name j (clock w (clock_reads w))) "w" = None →
  let raw := PDict {[ "raw_analysis" := PStr text ]} in
  analyze_transcript transcript_file meeting_info w =
  (inr (Some raw),
   after_save (after_chat w req) (analysis_name j (clock w (clock_reads w)))
     (json_dumps (analysis_record meeting_info raw transcript (clock w (S (clock_reads w)))))).
Proof.
  intros Hj [tv Ht] Hopen Hkey transcript req Hanswer Hchoices Hjson Hcls Hsave raw.
  rewrite (script_run_cases _ _ _ _ _ Hj Ht Hopen Hkey). cbv zeta.
  fold transcript. fold req. rewrite Hanswer, Hchoices.
  unfold parse_outcome. rewrite Hjson.
  destruct (decide (exn_cls e = JSONDecodeError)) as [_|Hother]; [|contradiction].
  rewrite display_raw_fallback by (rewrite Hj; eauto).
  cbn [py_lower]. rewrite analysis_record_name, Hsave. reflexivity.
Qed.

(** X28. An answer that is valid JSON but not an object (a list, a string,
    a number, [null]) is lost: displaying it raises, so after its one
    request the command-line analysis returns [None], reads no clock and
    saves nothing. *)
Theorem script_non_object_answer (transcript_file : string) (meeting_info : dict) (w : World)
    (response : ChatCompletion) (text : string) (rest : list (option string))
    (v : pyval) (e : exn) :
  is_Some (meeting_info !! "jurisdiction") →
  is_Some (meeting_info !! "type") →
  fs_open w transcript_file "r" = None →
  no_key (env_OPENAI_API_KEY w) = false →
  let req := analysis_request
               (analyze_transcript_fixed.build_analysis_prompt
                  (PStr (fs_content w transcript_file)) meeting_info) in
  chat_endpoint w (length (chat_calls w)) req = inr response →
  choices response = Some text :: rest →
  json_loads text = inr v →
  as_dict v = inl e →
  analyze_transcript transcript_file meeting_info w = (inr None, after_chat w req).
Proof.
  intros [jv Hj] [tv Ht] Hopen Hkey req Hanswer Hchoices Hjson Hnot.
  rewrite (script_run_cases _ _ _ _ _ Hj Ht Hopen Hkey). cbv zeta.
  fold req. rewrite Hanswer, Hchoices.
  unfold parse_outcome. rewrite Hjson.
  rewrite (display_non_object _ _ _ e) by (rewrite ?Hj; eauto).
  reflexivity.
Qed.

(** X29. Whenever the command-line analysis returns a value other than
    [None], that value has been saved: the jurisdiction is a string, one
    request was sent, and exactly one file was written, named after the
    jurisdiction in lower case and the first clock reading, whose content
    is the record of the meeting info, the returned value, the length of
    the transcript and the second clock reading. *)
Theorem script_result_is_saved (transcript_file : string) (meeting_info : dict)
    (w w' : World) (data : pyval) :
  analyze_transcript transcript_file meeting_info w = (inr (Some data), w') →
  ∃ j : string,
    meeting_info !! "jurisdiction" = Some (PStr j) ∧
    length (chat_calls w') = S (length (chat_calls w)) ∧
    clock_reads w' = S (S (clock_reads w)) ∧
    fs_written w' = fs_written w ++
      [(analysis_name j (clock w (clock_reads w)),
        json_dumps (analysis_record meeting_info data (fs_content w transcript_file)
                      (clock w (S (clock_reads w)))))].
Proof.
  rewrite script_run_early.
  destruct (meeting_info !! "jurisdiction") as [jv|] eqn:Hj; [|discriminate].
  destruct (meeting_info !! "type") as [tv|] eqn:Ht; [|discriminate].
  destruct (fs_open w transcript_file "r") as [e|] eqn:Hopen.
  { destruct (decide _); discriminate. }
  destruct (no_key (env_OPENAI_API_KEY w)) eqn:Hkey; [discriminate|].
  rewrite (script_run_cases _ _ _ _ _ Hj Ht Hopen Hkey). cbv zeta.
  destruct (chat_endpoint w _ _) as [e|response]; [discriminate|].
  destruct (choices response) as [|[text|] rest]; [discriminate| |discriminate].
  destruct (parse_outcome text) as [e|analysis_data]; [discriminate|].
  destruct (display_analysis_results _ _ _) as [[e|u] w0]; [discriminate|].
  destruct jv as [| | | |j| |]; try discriminate.
  cbn [py_lower]. rewrite analysis_record_name.
  destruct (fs_open w _ "w"); [discriminate|].
  intros [= <- <-]. exists j. split; [reflexivity|].
  split; [cbn; rewrite length_app; cbn; lia|]. split; reflexivity.
Qed.

End ScriptFacts.

(** * Closed instances of the further properties *)

Section MoreInstances.
Import TranscriptionService MeetingAnalysisService MeetingProcessor generate_newsletter.

(** A path with no file, beside a recording that exists. *)
Lemma missing_file_is_reported_witness :
  transcribe_meeting (H:=sample_runtime) "missing.mp3" sample_meeting_info
    (recording_world 1000 (inr sample_transcription) (chat_says "{}")) =
  (inr {[ "success" := PBool false;
          "error" := PStr "File not found: missing.mp3";
          "transcript" := PNone ]},
   recording_world 1000 (inr sample_transcription) (chat_says "{}")).
Proof.
  apply (missing_file_is_reported (H:=sample_runtime) "missing.mp3" sample_meeting_info
           (recording_world 1000 (inr sample_transcription) (chat_says "{}"))).
  reflexivity.
Defined.

(** A recording of exactly 25 MiB. *)
Lemma file_at_ceiling_is_sent_witness :
  ∃ (r : dict) (w' : World) (request : SttRequest),
    transcribe_meeting (H:=sample_runtime) "meeting.mp3" sample_meeting_info
      (recording_world 26214400 (inr sample_transcription) (chat_says "{}")) = (inr r, w') ∧
    stt_calls w' = [request] ∧
    stt_file request = "meeting.mp3" ∧
    stt_model request = "whisper-1" ∧
    stt_response_format request = "verbose_json" ∧
    r !! "suggestion" = None.
Proof.
  apply (file_at_ceiling_is_sent (H:=sample_runtime) "meeting.mp3" sample_meeting_info
           (recording_world 26214400 (inr sample_transcription) (chat_says "{}")) 26214400).
  - reflexivity.
  - reflexivity.
  - lia.
  - reflexivity.
Defined.

(** A recording whose [stat] fails, and one that cannot be opened. *)
Lemma unreadable_file_is_reported_witness :
  transcribe_meeting (H:=sample_runtime) "meeting.mp3" sample_meeting_info
    (unexaminable permission_denied
       (recording_world 1000 (inr sample_transcription) (chat_says "{}"))) =
  (inr {[ "success" := PBool false;
          "error" := PStr "Transcription failed: [Errno 13] Permission denied";
          "transcript" := PNone ]},
   unexaminable permission_denied
     (recording_world 1000 (inr sample_transcription) (chat_says "{}"))) ∧
  transcribe_meeting (H:=sample_runtime) "meeting.mp3" sample_meeting_info
    (unopenable permission_denied
       (recording_world 1000 (inr sample_transcription) (chat_says "{}"))) =
  (inr {[ "success" := PBool false;
          "error" := PStr "OpenAI Whisper error: [Errno 13] Permission denied";
          "transcript" := PNone ]},
   unopenable permission_denied
     (recording_world 1000 (inr sample_transcription) (chat_says "{}"))).
Proof.
  split.
  - exact (proj1 (unreadable_file_is_reported (H:=sample_runtime) "meeting.mp3"
                    sample_meeting_info
                    (unexaminable permission_denied
                       (recording_world 1000 (inr sample_transcription) (chat_says "{}")))
                    eq_refl)
             permission_denied eq_refl).
  - exact (proj2 (unreadable_file_is_reported (H:=sample_runtime) "meeting.mp3"
                    sample_meeting_info
                    (unopenable permission_denied
                       (recording_world 1000 (inr sample_transcription) (chat_says "{}")))
                    eq_refl)
             1000%Z permission_denied eq_refl ltac:(lia) eq_refl).
Defined.

(** The sample answer: ten minutes of English. *)
Lemma transcription_result_fields_witness :
  ∃ (r : dict) (w' : World),
    transcribe_meeting (H:=sample_runtime) "meeting.mp3" sample_meeting_info
      (recording_world 1000 (inr sample_transcription) (chat_says "{}")) = (inr r, w') ∧
    r !! "duration" = Some (PFloat 600) ∧
    r !! "cost_estimate" = Some (PFloat (600 * 0.006)) ∧
    r !! "language" = Some (PStr "english") ∧
    r !! "segments" = Some (PList []) ∧
    r !! "meeting_info" = Some (PDict sample_meeting_info) ∧
    r !! "processed_at" = Some (PStr (isoformat (sample_clock 0))) ∧
    clock_reads w' = 1.
Proof.
  apply (transcription_result_fields (H:=sample_runtime) "meeting.mp3" sample_meeting_info
           (recording_world 1000 (inr sample_transcription) (chat_says "{}"))
           1000 sample_transcription).
  - reflexivity.
  - reflexivity.
  - lia.
  - reflexivity.
  - reflexivity.
Defined.

(** A null in place of the transcript. *)
Lemma unsliceable_transcript_fails_early_witness :
  analyze_transcript (H:=sample_runtime) PNone sample_meeting_info
    (recording_world 1000 (inr sample_transcription) (chat_says "{}")) =
  (inr {[ "success" := PBool false;
          "error" := PStr "Analysis failed: 'NoneType' object is not subscriptable";
          "analysis" := PNone ]},
   recording_world 1000 (inr sample_transcription) (chat_says "{}")).
Proof.
  apply (unsliceable_transcript_fails_early (H:=sample_runtime) PNone sample_meeting_info
           (recording_world 1000 (inr sample_transcription) (chat_says "{}"))
           (Exn TypeError "'NoneType' object is not subscriptable")).
  reflexivity.
Defined.

(** The chat endpoint refuses the request. *)
Lemma analysis_endpoint_failure_witness :
  ∃ w' : World,
    analyze_transcript (H:=sample_runtime) (PStr "Item one: Oak Street.") sample_meeting_info
      (recording_world 1000 (inr sample_transcription) (chat_fails_at 0 "{}")) =
    (inr {[ "success" := PBool false;
            "error" := PStr "Analysis failed: Connection error.";
            "analysis" := PNone ]}, w') ∧
    chat_calls w' =
      [analysis_request
         (service_prompt (H:=sample_runtime) "Item one: Oak Street." sample_meeting_info)] ∧
    clock_reads w' = 0.
Proof.
  apply (analysis_endpoint_failure (H:=sample_runtime) "Item one: Oak Street."
           sample_meeting_info
           (recording_world 1000 (inr sample_transcription) (chat_fails_at 0 "{}"))
           connection_error).
  reflexivity.
Defined.

(** A response with no choice, and one whose content is null. *)
Lemma degenerate_response_fails_witness :
  (∃ w' : World,
     analyze_transcript (H:=sample_runtime) (PStr "Item one: Oak Street.") sample_meeting_info
       (recording_world 1000 (inr sample_transcription) (chat_returns no_choice)) =
     (inr {[ "success" := PBool false;
             "error" := PStr "Analysis failed: list index out of range";
             "analysis" := PNone ]}, w')) ∧
  (∃ (r : dict) (w' : World) (cause : string),
     analyze_transcript (H:=sample_runtime) (PStr "Item one: Oak Street.") sample_meeting_info
       (recording_world 1000 (inr sample_transcription) (chat_returns null_content)) =
     (inr r, w') ∧
     r !! "success" = Some (PBool false) ∧
     r !! "error" = Some (PStr ("Analysis failed: " +:+ cause)) ∧
     r !! "analysis" = Some PNone).
Proof.
  split.
  - exact (proj1 (degenerate_response_fails (H:=sample_runtime) "Item one: Oak Street."
                    sample_meeting_info
                    (recording_world 1000 (inr sample_transcription) (chat_returns no_choice))
                    no_choice eq_refl)
             eq_refl).
  - exact (proj2 (degenerate_response_fails (H:=sample_runtime) "Item one: Oak Street."
                    sample_meeting_info
                    (recording_world 1000 (inr sample_transcription)
                       (chat_returns null_content))
                    null_content eq_refl)
             [] eq_refl).
Defined.

(** Both endpoints answer; the analysis is the empty object. *)
Lemma pipeline_success_witness :
  ∃ (r : dict) (w' : World),
    process_meeting_file (H:=sample_runtime) "meeting.mp3" sample_meeting_info
      (recording_world 1000 (inr sample_transcription) (chat_says "{}")) = (inr r, w') ∧
    r !! "success" = Some (PBool true) ∧
    r !! "transcript" =
      Some (PStr "The commission approved Oak Street Apartments nine to zero.") ∧
    r !! "analysis" = Some (PDict ∅) ∧
    r !! "processing_summary" =
      Some (PDict
        {[ "transcription_cost" := PFloat (600 * 0.006);
           "transcript_length" := PInt 59;
           "analysis_tokens" := PInt 1200;
           "processed_at" := PStr (isoformat (sample_clock 2)) ]}) ∧
    r !! "errors" =
      Some (PDict {[ "transcription_error" := PNone; "analysis_error" := PNone ]}) ∧
    stt_calls w' = [whisper_request "meeting.mp3"] ∧
    chat_calls w' =
      [analysis_request
         (service_prompt (H:=sample_runtime)
            "The commission approved Oak Street Apartments nine to zero."
            sample_meeting_info)].
Proof.
  apply (pipeline_success (H:=sample_runtime) "meeting.mp3" sample_meeting_info
           (recording_world 1000 (inr sample_transcription) (chat_says "{}"))
           1000 sample_transcription
           {| choices := [Some "{}"]; usage_total_tokens := Some 1200%Z |} "{}" []).
  - reflexivity.
  - reflexivity.
  - lia.
  - reflexivity.
  - reflexivity.
  - reflexivity.
  - reflexivity.
  - intros e Hparse. discriminate Hparse.
Defined.

(** Both endpoints answer; the answer is an integer literal of 5000 digits,
    which [json.loads] refuses with a [ValueError]. *)
Lemma pipeline_parse_error_witness :
  ∃ (r : dict) (w' : World),
    process_meeting_file (H:=sample_runtime) "meeting.mp3" sample_meeting_info
      (recording_world 1000 (inr sample_transcription) (chat_says long_integer_literal)) =
    (inr r, w') ∧
    r !! "success" = Some (PBool false) ∧
    r !! "transcript" =
      Some (PStr "The commission approved Oak Street Apartments nine to zero.") ∧
    r !! "analysis" = Some PNone ∧
    r !! "errors" =
      Some (PDict {[ "transcription_error" := PNone;
                     "analysis_error" :=
                       PStr ("Analysis failed: " +:+ exn_str digits_limit_exceeded) ]}).
Proof.
  apply (pipeline_parse_error (H:=sample_runtime) "meeting.mp3" sample_meeting_info
           (recording_world 1000 (inr sample_transcription) (chat_says long_integer_literal))
           1000 sample_transcription
           {| choices := [Some long_integer_literal]; usage_total_tokens := Some 1200%Z |}
           long_integer_literal [] digits_limit_exceeded).
  - reflexivity.
  - reflexivity.
  - lia.
  - reflexivity.
  - reflexivity.
  - reflexivity.
  - reflexivity.
  - vm_compute. reflexivity.
  - discriminate.
Defined.

(** The recording is transcribed and the analysis is refused. *)
Lemma analysis_failure_keeps_transcript_witness :
  ∃ (r : dict) (w' : World),
    process_meeting_file (H:=sample_runtime) "meeting.mp3" sample_meeting_info
      (recording_world 1000 (inr sample_transcription) (chat_fails_at 0 "{}")) = (inr r, w') ∧
    r !! "success" = Some (PBool false) ∧
    r !! "transcript" =
      Some (PStr "The commission approved Oak Street Apartments nine to zero.") ∧
    r !! "analysis" = Some PNone ∧
    r !! "error" = None ∧
    r !! "errors" =
      Some (PDict {[ "transcription_error" := PNone;
                     "analysis_error" := PStr "Analysis failed: Connection error." ]}).
Proof.
  apply (analysis_failure_keeps_transcript (H:=sample_runtime) "meeting.mp3"
           sample_meeting_info
           (recording_world 1000 (inr sample_transcription) (chat_fails_at 0 "{}"))
           1000 sample_transcription connection_error).
  - reflexivity.
  - reflexivity.
  - lia.
  - reflexivity.
  - reflexivity.
  - reflexivity.
Defined.

(** The analysis file is not there. *)
Lemma missing_analysis_file_witness :
  generate_newsletter_content (H:=sample_runtime) "analysis_durham.json"
    (newsletter_world (chat_says "Section text.")) =
  (inr None, newsletter_world (chat_says "Section text.")).
Proof.
  apply (missing_analysis_file (H:=sample_runtime) "analysis_durham.json"
           (newsletter_world (chat_says "Section text."))
           (Exn FileNotFoundError "[Errno 2] No such file or directory")).
  - reflexivity.
  - reflexivity.
Defined.

(** The analysis file is protected, and the analysis file is not JSON. *)
Lemma unreadable_analysis_file_raises_witness :
  generate_newsletter_content (H:=sample_runtime) "analysis_raleigh.json"
    (unopenable permission_denied (newsletter_world (chat_says "Section text."))) =
  (inl permission_denied,
   unopenable permission_denied (newsletter_world (chat_says "Section text."))) ∧
  generate_newsletter_content (H:=sample_runtime) "analysis_raleigh.json"
    (with_content "Oak Street" (newsletter_world (chat_says "Section text."))) =
  (inl (Exn JSONDecodeError "Expecting value: line 1 column 1 (char 0)"),
   with_content "Oak Street" (newsletter_world (chat_says "Section text."))).
Proof.
  split.
  - exact (proj1 (unreadable_analysis_file_raises (H:=sample_runtime) "analysis_raleigh.json"
                    (unopenable permission_denied
                       (newsletter_world (chat_says "Section text."))))
             permission_denied eq_refl ltac:(discriminate)).
  - exact (proj2 (unreadable_analysis_file_raises (H:=sample_runtime) "analysis_raleigh.json"
                    (with_content "Oak Street" (newsletter_world (chat_says "Section text."))))
             (Exn JSONDecodeError "Expecting value: line 1 column 1 (char 0)")
             eq_refl eq_refl ltac:(discriminate)).
Defined.

(** The variable OPENAI_API_KEY is not set. *)
Lemma missing_api_key_witness :
  generate_newsletter_content (H:=sample_runtime) "analysis_raleigh.json"
    (without_key (newsletter_world (chat_says "Section text."))) =
  (inr None, without_key (newsletter_world (chat_says "Section text."))).
Proof.
  apply (missing_api_key (H:=sample_runtime) "analysis_raleigh.json"
           (without_key (newsletter_world (chat_says "Section text.")))
           sample_data sample_meeting_info).
  - reflexivity.
  - reflexivity.
  - reflexivity.
  - left. reflexivity.
Defined.

(** One project and nobody named: four requests. *)
Lemma newsletter_requests_witness :
  ∃ (sections : dict) (w' : World) (requests : list ChatRequest) (name content : string),
    generate_newsletter_content (H:=sample_runtime) "analysis_raleigh.json"
      (newsletter_world (chat_says "Section text.")) = (inr (Some sections), w') ∧
    chat_calls w' = requests ∧
    length requests = 4 ∧
    Forall is_section_request requests ∧
    fs_written w' = [(name, content)] ∧
    stt_calls w' = [].
Proof.
  apply (newsletter_requests (H:=sample_runtime) "analysis_raleigh.json"
           (newsletter_world (chat_says "Section text."))
           sample_data sample_analysis sample_meeting_info sample_highlights "Raleigh").
  - reflexivity.
  - reflexivity.
  - reflexivity.
  - reflexivity.
  - reflexivity.
  - reflexivity.
  - reflexivity.
  - intros p. reflexivity.
Defined.

(** The second request, that of market intelligence, is refused. *)
Lemma failed_section_is_saved_witness :
  ∃ (sections : dict) (w' : World) (name content title : string),
    generate_newsletter_content (H:=sample_runtime) "analysis_raleigh.json"
      (newsletter_world (chat_fails_at 1 "Section text.")) = (inr (Some sections), w') ∧
    fs_written w' = [(name, content)] ∧
    ("market_intelligence", title) ∈ section_order ∧
    str_contains
      (title +:+ nl +:+ nl +:+
       ("Error generating " +:+ "market intelligence" +:+ " content: " +:+
        "Connection error.") +:+
       nl +:+ nl +:+ "---" +:+ nl +:+ nl) content = true.
Proof.
  apply (failed_section_is_saved (H:=sample_runtime) "analysis_raleigh.json"
           (newsletter_world (chat_fails_at 1 "Section text."))
           sample_data sample_analysis sample_meeting_info sample_highlights "Raleigh" 1
           {| task_key := "market_intelligence"; task_label := "market intelligence";
              task_request :=
                section_request market_intelligence_system
                  (market_intelligence_prompt (H:=sample_runtime) (PDict sample_analysis)
                     sample_meeting_info) |}
           connection_error).
  - reflexivity.
  - reflexivity.
  - reflexivity.
  - reflexivity.
  - reflexivity.
  - reflexivity.
  - reflexivity.
  - intros p. reflexivity.
  - reflexivity.
  - reflexivity.
Defined.

(** A null jurisdiction, a closed disk, and a meeting without jurisdiction. *)
Lemma save_failures_witness :
  (∃ w' : World,
     save_newsletter_content (H:=sample_runtime) sections_with_empty_summary
       (PDict meeting_without_name) (newsletter_world (chat_says "Section text.")) =
     (inl (Exn AttributeError "'NoneType' object has no attribute 'lower'"), w') ∧
     fs_written w' = []) ∧
  (∃ w' : World,
     save_newsletter_content (H:=sample_runtime) sections_with_empty_summary
       (PDict sample_meeting_info)
       (read_only (newsletter_world (chat_says "Section text."))) =
     (inl (Exn OtherError "[Errno 30] Read-only file system"), w') ∧
     fs_written w' = []) ∧
  (∃ (w' : World) (content : string),
     save_newsletter_content (H:=sample_runtime) sections_with_empty_summary (PDict ∅)
       (newsletter_world (chat_says "Section text.")) = (inr tt, w') ∧
     fs_written w' = [("newsletter_triangle_20250812_145741.md", content)]).
Proof.
  split; [|split].
  - exact (proj1 (save_failures (H:=sample_runtime) sections_with_empty_summary
                    meeting_without_name (newsletter_world (chat_says "Section text.")))
             (Exn AttributeError "'NoneType' object has no attribute 'lower'") eq_refl).
  - exact (proj1 (proj2 (save_failures (H:=sample_runtime) sections_with_empty_summary
                           sample_meeting_info
                           (read_only (newsletter_world (chat_says "Section text.")))))
             "Raleigh" (Exn OtherError "[Errno 30] Read-only file system") eq_refl eq_refl).
  - exact (proj2 (proj2 (save_failures (H:=sample_runtime) sections_with_empty_summary ∅
                           (newsletter_world (chat_says "Section text."))))
             eq_refl eq_refl).
Defined.

(** A mapping with a section of an unknown name is saved like the mapping
    without it. *)
Lemma save_ignores_other_keys_witness :
  save_newsletter_content (H:=sample_runtime)
    (<[ "sports" := PStr "Not a section." ]> sections_with_empty_summary)
    (PDict sample_meeting_info) (newsletter_world (chat_says "Section text.")) =
  save_newsletter_content (H:=sample_runtime) sections_with_empty_summary
    (PDict sample_meeting_info) (newsletter_world (chat_says "Section text.")).
Proof.
  apply (save_ignores_other_keys (H:=sample_runtime)
           (<[ "sports" := PStr "Not a section." ]> sections_with_empty_summary)
           sections_with_empty_summary).
  intros key Hkey. apply lookup_insert_ne.
  intros <-. apply list_elem_of_In in Hkey. cbn in Hkey.
  repeat destruct Hkey as [Hkey|Hkey]; try discriminate Hkey. exact Hkey.
Defined.

(** An analysis whose highlights are null, with one project: the requests
    of the pipeline, the market and the regulatory sections are sent, then
    the generator raises. *)
Lemma bad_highlights_abort_generation_witness :
  ∃ w' : World,
    generate_newsletter_content (H:=runtime_loading (PDict data_with_null_highlights))
      "analysis_raleigh.json" (newsletter_world (chat_says "Section text.")) =
    (inl (Exn TypeError "'NoneType' object is not iterable"), w') ∧
    length (chat_calls w') = 3 ∧
    fs_written w' = [].
Proof.
  apply (bad_highlights_abort_generation (H:=runtime_loading (PDict data_with_null_highlights))
           "analysis_raleigh.json" (newsletter_world (chat_says "Section text."))
           data_with_null_highlights analysis_with_null_highlights sample_meeting_info
           (Exn TypeError "'NoneType' object is not iterable")).
  - reflexivity.
  - reflexivity.
  - reflexivity.
  - reflexivity.
  - reflexivity.
  - reflexivity.
Defined.

(** The disk cannot be written: four requests, then the error. *)
Lemma unsaved_newsletter_raises_witness :
  ∃ w' : World,
    generate_newsletter_content (H:=sample_runtime) "analysis_raleigh.json"
      (read_only (newsletter_world (chat_says "Section text."))) =
    (inl (Exn OtherError "[Errno 30] Read-only file system"), w') ∧
    chat_calls w' =
      task_request <$>
        section_tasks (H:=sample_runtime) (PDict sample_analysis) sample_analysis
          sample_meeting_info sample_highlights ∧
    fs_written w' = [].
Proof.
  apply (unsaved_newsletter_raises (H:=sample_runtime) "analysis_raleigh.json"
           (read_only (newsletter_world (chat_says "Section text.")))
           sample_data sample_analysis sample_meeting_info sample_highlights
           (Exn OtherError "[Errno 30] Read-only file system")).
  - reflexivity.
  - reflexivity.
  - reflexivity.
  - reflexivity.
  - reflexivity.
  - reflexivity.
  - right. split; [exists "Raleigh"; reflexivity|]. intros p. reflexivity.
Defined.

End MoreInstances.

Section ScriptInstances.
Import analyze_transcript_fixed_cli.

(** A meeting without a type. *)
Lemma script_requires_meeting_keys_witness :
  ∃ e : exn,
    analyze_transcript (H:=sample_runtime) "transcript_raleigh_middle_sample.txt"
      {[ "jurisdiction" := PStr "Raleigh" ]} (transcript_world (chat_says "{}")) =
    (inl e, transcript_world (chat_says "{}")) ∧
    exn_cls e = KeyError ∧
    (exn_str e = sq +:+ "jurisdiction" +:+ sq ∨ exn_str e = sq +:+ "type" +:+ sq).
Proof.
  apply (script_requires_meeting_keys (H:=sample_runtime)
           "transcript_raleigh_middle_sample.txt" {[ "jurisdiction" := PStr "Raleigh" ]}
           (transcript_world (chat_says "{}"))).
  right. reflexivity.
Defined.

(** A transcript that is not there, and one that is protected. *)
Lemma script_unopened_transcript_witness :
  analyze_transcript (H:=sample_runtime) "transcript_durham.txt" sample_meeting_info
    (transcript_world (chat_says "{}")) = (inr None, transcript_world (chat_says "{}")) ∧
  analyze_transcript (H:=sample_runtime) "transcript_raleigh_middle_sample.txt"
    sample_meeting_info (unopenable permission_denied (transcript_world (chat_says "{}"))) =
  (inl permission_denied, unopenable permission_denied (transcript_world (chat_says "{}"))).
Proof.
  split.
  - exact (script_unopened_transcript (H:=sample_runtime) "transcript_durham.txt"
             sample_meeting_info (transcript_world (chat_says "{}"))
             (Exn FileNotFoundError "[Errno 2] No such file or directory")
             (ex_intro _ _ eq_refl) (ex_intro _ _ eq_refl) eq_refl).
  - exact (script_unopened_transcript (H:=sample_runtime)
             "transcript_raleigh_middle_sample.txt" sample_meeting_info
             (unopenable permission_denied (transcript_world (chat_says "{}")))
             permission_denied (ex_intro _ _ eq_refl) (ex_intro _ _ eq_refl) eq_refl).
Defined.

(** The variable OPENAI_API_KEY is not set. *)
Lemma script_missing_api_key_witness :
  analyze_transcript (H:=sample_runtime) "transcript_raleigh_middle_sample.txt"
    sample_meeting_info (without_key (transcript_world (chat_says "{}"))) =
  (inr None, without_key (transcript_world (chat_says "{}"))).
Proof.
  apply (script_missing_api_key (H:=sample_runtime) "transcript_raleigh_middle_sample.txt"
           sample_meeting_info (without_key (transcript_world (chat_says "{}")))).
  - eexists. reflexivity.
  - eexists. reflexivity.
  - reflexivity.
  - left. reflexivity.
Defined.

(** The transcript of the sample is sent whole. *)
Lemma script_sends_whole_transcript_witness :
  ∃ (r : option pyval) (w' : World),
    analyze_transcript (H:=sample_runtime) "transcript_raleigh_middle_sample.txt"
      sample_meeting_info (transcript_world (chat_says "{}")) = (inr r, w') ∧
    chat_calls w' =
      [analysis_request
         ((String.concat nl
             (analyze_transcript_fixed.analysis_prompt_head (H:=sample_runtime)
                sample_meeting_info) +:+ nl) +:+ "Item one: Oak Street." +:+ nl)] ∧
    stt_calls w' = [].
Proof.
  apply (script_sends_whole_transcript (H:=sample_runtime)
           "transcript_raleigh_middle_sample.txt" sample_meeting_info
           (transcript_world (chat_says "{}"))).
  - eexists. reflexivity.
  - eexists. reflexivity.
  - reflexivity.
  - reflexivity.
Defined.

(** An answer in prose is returned and saved under [raw_analysis]. *)
Lemma script_prose_answer_witness :
  ∃ w' : World,
    analyze_transcript (H:=sample_runtime) "transcript_raleigh_middle_sample.txt"
      sample_meeting_info (transcript_world (chat_says "Oak Street Apartments was approved.")) =
    (inr (Some (PDict {[ "raw_analysis" := PStr "Oak Street Apartments was approved." ]})), w') ∧
    fs_written w' = [("analysis_raleigh_20250812_145741.json", "<json>")].
Proof.
  eexists. split.
  - apply (script_prose_answer (H:=sample_runtime) "transcript_raleigh_middle_sample.txt"
             sample_meeting_info
             (transcript_world (chat_says "Oak Street Apartments was approved."))
             "Raleigh"
             {| choices := [Some "Oak Street Apartments was approved."];
                usage_total_tokens := Some 1200%Z |}
             "Oak Street Apartments was approved."
             (Exn JSONDecodeError "Expecting value: line 1 column 1 (char 0)") []).
    + reflexivity.
    + eexists. reflexivity.
    + reflexivity.
    + reflexivity.
    + reflexivity.
    + reflexivity.
    + reflexivity.
    + reflexivity.
    + reflexivity.
  - reflexivity.
Defined.

(** The answer [null]: valid JSON, not an object. *)
Lemma script_non_object_answer_witness :
  ∃ w' : World,
    analyze_transcript (H:=sample_runtime) "transcript_raleigh_middle_sample.txt"
      sample_meeting_info (transcript_world (chat_says "null")) = (inr None, w') ∧
    length (chat_calls w') = 1 ∧
    fs_written w' = [].
Proof.
  eexists. split.
  - apply (script_non_object_answer (H:=sample_runtime) "transcript_raleigh_middle_sample.txt"
             sample_meeting_info (transcript_world (chat_says "null"))
             {| choices := [Some "null"]; usage_total_tokens := Some 1200%Z |}
             "null" [] PNone
             (Exn AttributeError "'NoneType' object has no attribute 'get'")).
    + eexists. reflexivity.
    + eexists. reflexivity.
    + reflexivity.
    + reflexivity.
    + reflexivity.
    + reflexivity.
    + reflexivity.
    + reflexivity.
  - split; reflexivity.
Defined.

(** The empty object is returned, hence saved. *)
Lemma script_result_is_saved_witness :
  ∃ w' : World,
    analyze_transcript (H:=sample_runtime) "transcript_raleigh_middle_sample.txt"
      sample_meeting_info (transcript_world (chat_says "{}")) = (inr (Some (PDict ∅)), w') ∧
    length (chat_calls w') = 1 ∧
    clock_reads w' = 2 ∧
    fs_written w' = [("analysis_raleigh_20250812_145741.json", "<json>")].
Proof.
  assert (∃ w' : World,
            analyze_transcript (H:=sample_runtime) "transcript_raleigh_middle_sample.txt"
              sample_meeting_info (transcript_world (chat_says "{}")) =
            (inr (Some (PDict ∅)), w')) as [w' Hrun].
  { eexists.
    rewrite (script_run_cases (H:=sample_runtime) "transcript_raleigh_middle_sample.txt"
               sample_meeting_info (transcript_world (chat_says "{}"))
               (PStr "Raleigh") (PStr "Planning Commission") eq_refl eq_refl eq_refl eq_refl).
    reflexivity. }
  exists w'. split; [exact Hrun|].
  destruct (script_result_is_saved (H:=sample_runtime) _ _ _ _ _ Hrun)
    as (j & Hj & Hcalls & Hreads & Hfile).
  injection Hj as <-.
  split; [exact Hcalls|]. split; [exact Hreads|]. exact Hfile.
Defined.


End ScriptInstances.
